(** * IoT 3D-printer client: the job execution pipeline

    A shallow embedding of the Python sources of the [IoT] directory
    ([gcode_parser.py], [printer_controller.py], [statistics.py],
    [menu_system.py] and the job pipeline, heartbeat, queue and button
    steps of [main.py]) together with the properties stated about them.

    Conventions of the embedding.
    - A Python [float] is an exact real number ([R]): rounding, overflow
      and the non-finite values [inf] / [nan] are outside the model.
      Python's [/] on floats raises [ZeroDivisionError] on a zero
      divisor; this is kept ([truediv]).
    - A method that mutates [self] is a function from the object before
      the call to the object after it; a method that may raise returns an
      [outcome].
    - [time.time()] is an explicit argument [now] of the methods that
      read the clock.
    - An object decoded from the JSON of the server is a record of its
      keys, each of which is missing, null or set ([field]); [d.get(k)]
      and [d.get(k, default)] tell a missing key from a null as Python
      does.
    - Console output ([print]) and the LCD are not modelled, except for
      the exceptions that formatting a [None] raises. *)

From Stdlib Require Import Reals Lra Lia ZArith NArith List Bool Ascii String.
Import ListNotations.

Local Open Scope R_scope.

(* ===================================================================== *)
(** * Python prelude *)
(* ===================================================================== *)

Module Py.

(** Exceptions that the modelled code can raise. *)
Inductive exn : Type :=
| ZeroDivisionError
| TypeError
| AttributeError.

(** Result of running a statement that may raise. *)
Inductive outcome (A : Type) : Type :=
| Returned (a : A)
| Raised (e : exn).

Arguments Returned {A} a.
Arguments Raised {A} e.

Definition bind {A B : Type} (m : outcome A) (k : A -> outcome B) : outcome B :=
  match m with
  | Returned a => k a
  | Raised e => Raised e
  end.

Notation "x <- m ;; k" := (bind m (fun x => k))
  (at level 61, m at next level, right associativity).

(** ** Numbers *)

Definition Rgtb (a b : R) : bool := if Rgt_dec a b then true else false.
Definition Rgeb (a b : R) : bool := if Rge_dec a b then true else false.
Definition Reqb (a b : R) : bool := if Req_dec_T a b then true else false.

(** [a / b] on floats. *)
Definition truediv (a b : R) : outcome R :=
  if Reqb b 0 then Raised ZeroDivisionError else Returned (a / b).

(** [min(a, b)] and [max(a, b)] on two numbers: the first argument is
    kept unless the second is strictly better. *)
Definition min (a b : R) : R := if Rgtb a b then b else a.
Definition max (a b : R) : R := if Rgtb b a then b else a.

(** [int(x)] on a float: truncation towards zero. *)
Definition int (x : R) : Z := if Rgeb x 0 then Zfloor x else Zceil x.

(** [x // y] and [x % y] on floats, for a divisor that is not zero. *)
Definition floordiv (x y : R) : R := IZR (Zfloor (x / y)).
Definition modulo (x y : R) : R := x - y * floordiv x y.

(** Truth value of a number, and of a number-or-[None]. *)
Definition truthy (x : R) : bool := negb (Reqb x 0).

Definition truthy_opt (x : option R) : bool :=
  match x with
  | Some v => truthy v
  | None => false
  end.

(** [x or d] where [x] is a number or [None] and [d] a number. *)
Definition or_else (x : option R) (d : R) : R :=
  match x with
  | Some v => if truthy v then v else d
  | None => d
  end.

(** ** Strings *)

Local Open Scope char_scope.

(** [str.isspace] on the code points below 256. *)
Definition isspace (c : ascii) : bool :=
  let n := nat_of_ascii c in
  ((9 <=? n) && (n <=? 13) || (28 <=? n) && (n <=? 32)
   || (n =? 133) || (n =? 160))%nat.

(** [str.upper] on one character: ASCII letters are mapped to capitals.
    (The other code points never map to an ASCII letter, which is all
    the callers test for.) *)
Definition upper_char (c : ascii) : ascii :=
  let n := nat_of_ascii c in
  if ((97 <=? n) && (n <=? 122))%nat then ascii_of_nat (n - 32) else c.

Fixpoint upper (s : string) : string :=
  match s with
  | EmptyString => EmptyString
  | String c rest => String (upper_char c) (upper rest)
  end.

(** [c in s]. *)
Fixpoint contains (c : ascii) (s : string) : bool :=
  match s with
  | EmptyString => false
  | String d rest => Ascii.eqb c d || contains c rest
  end.

(** [s.split(c)[0]]: the text before the first [c]. *)
Fixpoint before (c : ascii) (s : string) : string :=
  match s with
  | EmptyString => EmptyString
  | String d rest => if Ascii.eqb c d then EmptyString else String d (before c rest)
  end.

Fixpoint lstrip (s : string) : string :=
  match s with
  | EmptyString => EmptyString
  | String c rest => if isspace c then lstrip rest else s
  end.

Fixpoint rstrip (s : string) : string :=
  match s with
  | EmptyString => EmptyString
  | String c rest =>
      match rstrip rest with
      | EmptyString => if isspace c then EmptyString else String c EmptyString
      | r => String c r
      end
  end.

Definition strip (s : string) : string := rstrip (lstrip s).

(** [s.split()]: the maximal runs of non-space characters. [word] holds
    the characters of the run being read. *)
Fixpoint split_from (word : string) (s : string) : list string :=
  match s with
  | EmptyString =>
      match word with
      | EmptyString => []
      | _ => [word]
      end
  | String c rest =>
      if isspace c then
        match word with
        | EmptyString => split_from EmptyString rest
        | _ => word :: split_from EmptyString rest
        end
      else split_from (word ++ String c EmptyString) rest
  end.

Definition split (s : string) : list string := split_from EmptyString s.

Definition startswith (c : ascii) (s : string) : bool :=
  match s with
  | String d _ => Ascii.eqb c d
  | EmptyString => false
  end.

Definition is_empty (s : string) : bool :=
  match s with
  | EmptyString => true
  | _ => false
  end.

(** ** Decimal literals

    [py_float] reads the decimal spellings accepted by [float()]: an
    optional sign, digits with an optional fractional part, and an
    optional exponent; [None] stands for [ValueError].  The spellings of
    the non-finite values, which have no real number, are not read.  The
    general properties of the estimator do not depend on this reader:
    they are stated for any [float]. *)

Definition digit_of (c : ascii) : option Z :=
  let n := nat_of_ascii c in
  if ((48 <=? n) && (n <=? 57))%nat then Some (Z.of_nat (n - 48)) else None.

(** Reads a run of digits: value so far, number of digits read, rest. *)
Fixpoint digits (acc : Z) (count : nat) (s : string) : Z * nat * string :=
  match s with
  | EmptyString => (acc, count, s)
  | String c rest =>
      match digit_of c with
      | Some d => digits (10 * acc + d) (S count) rest
      | None => (acc, count, s)
      end
  end.

Definition sign_of (s : string) : bool * string :=
  match s with
  | String "-" rest => (true, rest)
  | String "+" rest => (false, rest)
  | _ => (false, s)
  end.

Definition exponent_of (s : string) : option Z :=
  match s with
  | EmptyString => Some 0%Z
  | String c rest =>
      if Ascii.eqb c "e" || Ascii.eqb c "E" then
        let '(neg, rest) := sign_of rest in
        match digits 0 0 rest with
        | (_, O, _) => None
        | (e, _, EmptyString) => Some (if neg then (- e)%Z else e)
        | _ => None
        end
      else None
  end.

(** A literal as (mantissa, decimal exponent). *)
Definition decimal_of (s : string) : option (Z * Z) :=
  let '(neg, s) := sign_of s in
  let '(ip, ni, s) := digits 0 0 s in
  let '(m, nf, s) :=
    match s with
    | String "." rest => digits ip 0 rest
    | _ => (ip, O, s)
    end in
  match (ni + nf)%nat with
  | O => None
  | _ =>
      match exponent_of s with
      | Some e => Some (if neg then (- m)%Z else m, (e - Z.of_nat nf)%Z)
      | None => None
      end
  end.

Definition py_float (s : string) : option R :=
  match decimal_of s with
  | Some (m, e) => Some (IZR m * powerRZ 10 e)
  | None => None
  end.

End Py.

(* ===================================================================== *)
(** * gcode_parser.py *)
(* ===================================================================== *)

Module GCodeParser.
Import Py.

(** [current_position]: a dict with the four keys X, Y, Z, E. *)
Record Position : Type := mkPosition {
  posX : R;
  posY : R;
  posZ : R;
  posE : R
}.

(** The attributes of a [GCodeParser] object. *)
Record t : Type := mkParser {
  total_extrusion : R;
  total_time : R;
  current_position : Position;
  current_feedrate : R;
  layer_count : N
}.

(** The dict returned by [parse_file]. *)
Record ParseResult : Type := mkParseResult {
  time_minutes : R;
  extrusion_mm : R;
  layers : N
}.

Definition reset : t :=
  {| total_extrusion := 0;
     total_time := 0;
     current_position := {| posX := 0; posY := 0; posZ := 0; posE := 0 |};
     current_feedrate := 1500;
     layer_count := 0%N |}.

(** [pos[axis] = v] for [axis] one of X, Y, Z, E. *)
Definition setitem (pos : Position) (axis : ascii) (v : R) : Position :=
  if Ascii.eqb axis "X" then
    {| posX := v; posY := posY pos; posZ := posZ pos; posE := posE pos |}
  else if Ascii.eqb axis "Y" then
    {| posX := posX pos; posY := v; posZ := posZ pos; posE := posE pos |}
  else if Ascii.eqb axis "Z" then
    {| posX := posX pos; posY := posY pos; posZ := v; posE := posE pos |}
  else
    {| posX := posX pos; posY := posY pos; posZ := posZ pos; posE := v |}.

Definition _calculate_distance (pos1 pos2 : Position) : R :=
  let dx := posX pos2 - posX pos1 in
  let dy := posY pos2 - posY pos1 in
  let dz := posZ pos2 - posZ pos1 in
  sqrt (dx * dx + dy * dy + dz * dz).

Definition calculate_material_weight
    (extrusion_mm filament_diameter_mm density_g_cm3 : R) : R :=
  let radius_mm := filament_diameter_mm / 2 in
  let volume_mm3 := PI * (radius_mm ^ 2) * extrusion_mm in
  let volume_cm3 := volume_mm3 / 1000 in
  let weight_grams := volume_cm3 * density_g_cm3 in
  weight_grams.

Section Parsing.

(** The built-in [float(text)]; [None] stands for its [ValueError]. *)
Variable float : string -> option R.

(** One iteration of the parameter loop of [_parse_move], on the pair
    ([new_position], [new_feedrate]). *)
Definition move_token (acc : Position * R) (part : string) : Position * R :=
  let '(new_position, new_feedrate) := acc in
  if (String.length part <? 2)%nat then acc
  else
    match part with
    | EmptyString => acc
    | String c rest =>
        let axis := upper_char c in
        if Ascii.eqb axis "X" || Ascii.eqb axis "Y"
           || Ascii.eqb axis "Z" || Ascii.eqb axis "E" then
          match float rest with
          | Some v => (setitem new_position axis v, new_feedrate)
          | None => acc
          end
        else if Ascii.eqb axis "F" then
          match float rest with
          | Some v => (new_position, v)
          | None => acc
          end
        else acc
    end.

Definition _parse_move (self : t) (parts : list string) : outcome t :=
  let '(new_position, new_feedrate) :=
    fold_left move_token (tl parts)
              (current_position self, current_feedrate self) in
  let distance := _calculate_distance (current_position self) new_position in
  total_time' <-
    (if Rgtb distance 0 then
       q <- truediv distance new_feedrate ;;
       Returned (total_time self + q * 60)
     else Returned (total_time self)) ;;
  let extrusion_delta := posE new_position - posE (current_position self) in
  let total_extrusion' :=
    if Rgtb extrusion_delta 0 then total_extrusion self + extrusion_delta
    else total_extrusion self in
  Returned {| total_extrusion := total_extrusion';
              total_time := total_time';
              current_position := new_position;
              current_feedrate := new_feedrate;
              layer_count := layer_count self |}.

Definition incr_layer_count (self : t) : t :=
  {| total_extrusion := total_extrusion self;
     total_time := total_time self;
     current_position := current_position self;
     current_feedrate := current_feedrate self;
     layer_count := (layer_count self + 1)%N |}.

Definition _parse_line (self : t) (line : string) : outcome t :=
  let line := if contains ";" line then strip (before ";" line) else line in
  if is_empty line then Returned self
  else if negb (startswith "G" line || startswith "g" line) then Returned self
  else
    let parts := split line in
    match parts with
    | [] => Returned self
    | part0 :: _ =>
        let command := upper part0 in
        if String.eqb command "G0" || String.eqb command "G1" then
          self' <- _parse_move self parts ;;
          if contains "Z" (upper line) then Returned (incr_layer_count self')
          else Returned self'
        else Returned self
    end.

(** The loop of [parse_file] over the lines of the file.  The loop is
    left at the first line that raises; such a line has not assigned any
    attribute yet, so the object is the one reached before it.  Returns
    the object reached and the exception, if any. *)
Fixpoint parse_lines (self : t) (lines : list string) : t * option exn :=
  match lines with
  | [] => (self, None)
  | line :: rest =>
      let line := strip line in
      if negb (is_empty line) && negb (startswith ";" line) then
        match _parse_line self line with
        | Returned self' => parse_lines self' rest
        | Raised e => (self, Some e)
        end
      else parse_lines self rest
  end.

(** [parse_file]: [file] is the content of the file as its lines, or
    [None] when it cannot be opened.  Returns the object after the call
    and the result dict, [None] after an exception. *)
Definition parse_file (file : option (list string)) : t * option ParseResult :=
  match file with
  | None => (reset, None)
  | Some lines =>
      match parse_lines reset lines with
      | (self, None) =>
          (self, Some {| time_minutes := total_time self / 60;
                         extrusion_mm := total_extrusion self;
                         layers := layer_count self |})
      | (self, Some _) => (self, None)
      end
  end.

End Parsing.

End GCodeParser.

(* ===================================================================== *)
(** * printer_controller.py *)
(* ===================================================================== *)

Module PrinterController.
Import Py.

Definition SIMULATION_SPEED_MULTIPLIER : R := 3.

(** The attributes of a [PrinterController] object. *)
Record t : Type := mkPrinter {
  is_printing : bool;
  current_job_id : option Z;
  print_start_time : option R;
  estimated_duration : R;
  total_layers : N;
  current_layer : Z;
  estimated_material : R;
  used_material : R;
  nozzle_temp : R;
  bed_temp : R;
  target_nozzle_temp : R;
  target_bed_temp : R
}.

(** The dict returned by [get_status]; the last three keys are present
    only while printing. *)
Record Status : Type := mkStatus {
  st_is_printing : bool;
  st_progress : R;
  st_elapsed_time : R;
  st_remaining_time : R;
  st_current_layer : Z;
  st_total_layers : N;
  st_nozzle_temp : option R;
  st_bed_temp : option R;
  st_used_material : option R
}.

Definition init : t :=
  {| is_printing := false;
     current_job_id := None;
     print_start_time := None;
     estimated_duration := 0;
     total_layers := 0%N;
     current_layer := 0%Z;
     estimated_material := 0;
     used_material := 0;
     nozzle_temp := 0;
     bed_temp := 0;
     target_nozzle_temp := 0;
     target_bed_temp := 0 |}.

Definition set_temps (self : t) (nozzle bed : R) : t :=
  {| is_printing := is_printing self;
     current_job_id := current_job_id self;
     print_start_time := print_start_time self;
     estimated_duration := estimated_duration self;
     total_layers := total_layers self;
     current_layer := current_layer self;
     estimated_material := estimated_material self;
     used_material := used_material self;
     nozzle_temp := nozzle;
     bed_temp := bed;
     target_nozzle_temp := target_nozzle_temp self;
     target_bed_temp := target_bed_temp self |}.

Definition set_targets (self : t) (nozzle bed : R) : t :=
  {| is_printing := is_printing self;
     current_job_id := current_job_id self;
     print_start_time := print_start_time self;
     estimated_duration := estimated_duration self;
     total_layers := total_layers self;
     current_layer := current_layer self;
     estimated_material := estimated_material self;
     used_material := used_material self;
     nozzle_temp := nozzle_temp self;
     bed_temp := bed_temp self;
     target_nozzle_temp := nozzle;
     target_bed_temp := bed |}.

Definition set_is_printing (self : t) (b : bool) : t :=
  {| is_printing := b;
     current_job_id := current_job_id self;
     print_start_time := print_start_time self;
     estimated_duration := estimated_duration self;
     total_layers := total_layers self;
     current_layer := current_layer self;
     estimated_material := estimated_material self;
     used_material := used_material self;
     nozzle_temp := nozzle_temp self;
     bed_temp := bed_temp self;
     target_nozzle_temp := target_nozzle_temp self;
     target_bed_temp := target_bed_temp self |}.

(** The two assignments made by [get_status]. *)
Definition set_progress (self : t) (layer : Z) (material : R) : t :=
  {| is_printing := is_printing self;
     current_job_id := current_job_id self;
     print_start_time := print_start_time self;
     estimated_duration := estimated_duration self;
     total_layers := total_layers self;
     current_layer := layer;
     estimated_material := estimated_material self;
     used_material := material;
     nozzle_temp := nozzle_temp self;
     bed_temp := bed_temp self;
     target_nozzle_temp := target_nozzle_temp self;
     target_bed_temp := target_bed_temp self |}.

(** One round of the heating loop, for [i] in [range(5)]. *)
Definition heat_step (self : t) (i : nat) : t :=
  set_temps self (target_nozzle_temp self * (INR i + 1) / 5)
                 (target_bed_temp self * (INR i + 1) / 5).

Definition _heat_up (self : t) : t :=
  let self := set_targets self 210 60 in
  let self := fold_left heat_step (seq 0 5) self in
  set_temps self (target_nozzle_temp self) (target_bed_temp self).

Definition start_print (self : t) (now : R) (job_id : option Z)
    (estimated_time_minutes estimated_material_grams : R)
    (total_layers : N) : t :=
  _heat_up
    {| is_printing := true;
       current_job_id := job_id;
       print_start_time := Some now;
       estimated_duration :=
         (estimated_time_minutes * 60) / SIMULATION_SPEED_MULTIPLIER;
       total_layers := total_layers;
       current_layer := 0%Z;
       estimated_material := estimated_material_grams;
       used_material := 0;
       nozzle_temp := nozzle_temp self;
       bed_temp := bed_temp self;
       target_nozzle_temp := target_nozzle_temp self;
       target_bed_temp := target_bed_temp self |}.

Definition idle_status : Status :=
  {| st_is_printing := false;
     st_progress := 0;
     st_elapsed_time := 0;
     st_remaining_time := 0;
     st_current_layer := 0%Z;
     st_total_layers := 0%N;
     st_nozzle_temp := None;
     st_bed_temp := None;
     st_used_material := None |}.

(** [get_status]: the snapshot and the object after the call.
    [now - None] is a [TypeError]. *)
Definition get_status (self : t) (now : R) : outcome (Status * t) :=
  if negb (is_printing self) then Returned (idle_status, self)
  else
    match print_start_time self with
    | None => Raised TypeError
    | Some start =>
        let elapsed_time := now - start in
        progress <-
          (if Rgtb (estimated_duration self) 0 then
             q <- truediv elapsed_time (estimated_duration self) ;;
             Returned (min (q * 100) 100)
           else Returned 0) ;;
        let remaining_time := max (estimated_duration self - elapsed_time) 0 in
        let self :=
          set_progress self
            (int ((progress / 100) * IZR (Z.of_N (total_layers self))))
            ((progress / 100) * estimated_material self) in
        Returned
          ({| st_is_printing := true;
              st_progress := progress;
              st_elapsed_time := elapsed_time;
              st_remaining_time := remaining_time;
              st_current_layer := current_layer self;
              st_total_layers := total_layers self;
              st_nozzle_temp := Some (nozzle_temp self);
              st_bed_temp := Some (bed_temp self);
              st_used_material := Some (used_material self) |},
           self)
    end.

Definition is_complete (self : t) (now : R) : outcome (bool * t) :=
  if negb (is_printing self) then Returned (false, self)
  else
    r <- get_status self now ;;
    let '(status, self) := r in
    Returned (Rgeb (st_progress status) 100, self).

Definition _cool_down (self : t) : t :=
  set_temps (set_targets self 0 0) 0 0.

(** [stop_print]: the returned material and the object after the call. *)
Definition stop_print (self : t) : R * t :=
  let self := set_is_printing self false in
  let final_material := used_material self in
  (final_material, _cool_down self).

Definition simulate_error (self : t) : bool := false.

End PrinterController.

(* ===================================================================== *)
(** * statistics.py *)
(* ===================================================================== *)

Module Statistics.
Import Py.

Record t : Type := mkStatistics {
  start_time : R;
  total_jobs : N;
  successful_jobs : N;
  failed_jobs : N;
  total_print_time_seconds : R;
  total_material_grams : R;
  current_job_start_time : option R;
  current_job_estimated_time : R;
  current_job_estimated_material : R
}.

Definition init (now : R) : t :=
  {| start_time := now;
     total_jobs := 0%N;
     successful_jobs := 0%N;
     failed_jobs := 0%N;
     total_print_time_seconds := 0;
     total_material_grams := 0;
     current_job_start_time := None;
     current_job_estimated_time := 0;
     current_job_estimated_material := 0 |}.

Definition start_job (self : t) (now : R)
    (estimated_time_minutes estimated_material_grams : R) : t :=
  {| start_time := start_time self;
     total_jobs := total_jobs self;
     successful_jobs := successful_jobs self;
     failed_jobs := failed_jobs self;
     total_print_time_seconds := total_print_time_seconds self;
     total_material_grams := total_material_grams self;
     current_job_start_time := Some now;
     current_job_estimated_time := estimated_time_minutes * 60;
     current_job_estimated_material := estimated_material_grams |}.

Definition finish_job (self : t) (now : R) (success : bool)
    (actual_material_grams : option R) : t :=
  {| start_time := start_time self;
     total_jobs := (total_jobs self + 1)%N;
     successful_jobs :=
       if success then (successful_jobs self + 1)%N else successful_jobs self;
     failed_jobs :=
       if success then failed_jobs self else (failed_jobs self + 1)%N;
     total_print_time_seconds :=
       match current_job_start_time self with
       | Some started =>
           if truthy started then total_print_time_seconds self + (now - started)
           else total_print_time_seconds self
       | None => total_print_time_seconds self
       end;
     total_material_grams :=
       (let otherwise :=
          (* elif self.current_job_estimated_material: *)
          if truthy (current_job_estimated_material self) then
            total_material_grams self + current_job_estimated_material self
          else total_material_grams self in
        (* if actual_material_grams: *)
        match actual_material_grams with
        | Some actual =>
            if truthy actual then total_material_grams self + actual
            else otherwise
        | None => otherwise
        end);
     current_job_start_time := None;
     current_job_estimated_time := 0;
     current_job_estimated_material := 0 |}.

Definition get_uptime_seconds (self : t) (now : R) : R := now - start_time self.

(** (hours, minutes) *)
Definition get_uptime_formatted (self : t) (now : R) : Z * Z :=
  let uptime := get_uptime_seconds self now in
  let hours := int (floordiv uptime 3600) in
  let minutes := int (floordiv (modulo uptime 3600) 60) in
  (hours, minutes).

Definition get_total_print_time_formatted (self : t) : Z * Z :=
  let hours := int (floordiv (total_print_time_seconds self) 3600) in
  let minutes := int (floordiv (modulo (total_print_time_seconds self) 3600) 60) in
  (hours, minutes).

(** The dict returned by [get_summary]. *)
Record Summary : Type := mkSummary {
  sm_total_jobs : N;
  sm_successful_jobs : N;
  sm_failed_jobs : N;
  sm_success_rate : R;
  sm_total_print_time_hours : Z;
  sm_total_print_time_minutes : Z;
  sm_total_material_grams : R;
  sm_uptime_hours : Z;
  sm_uptime_minutes : Z
}.

Definition get_summary (self : t) (now : R) : outcome Summary :=
  let '(uptime_hours, uptime_minutes) := get_uptime_formatted self now in
  let '(print_hours, print_minutes) := get_total_print_time_formatted self in
  success_rate <-
    (if (0 <? total_jobs self)%N then
       q <- truediv (IZR (Z.of_N (successful_jobs self)))
                    (IZR (Z.of_N (total_jobs self))) ;;
       Returned (q * 100)
     else Returned 0) ;;
  Returned {| sm_total_jobs := total_jobs self;
              sm_successful_jobs := successful_jobs self;
              sm_failed_jobs := failed_jobs self;
              sm_success_rate := success_rate;
              sm_total_print_time_hours := print_hours;
              sm_total_print_time_minutes := print_minutes;
              sm_total_material_grams := total_material_grams self;
              sm_uptime_hours := uptime_hours;
              sm_uptime_minutes := uptime_minutes |}.

End Statistics.

(* ===================================================================== *)
(** * main.py: the job object and the estimation stage of the pipeline *)
(* ===================================================================== *)

Module IoTPrinterClient.
Import Py.

(** config.py *)
Definition SKIP_GCODE_PARSING : bool := false.

(** A key of an object decoded from the JSON of the queue response: the
    key is missing, present with [null], or present with a value.  The
    values have the types the server gives them: numbers, texts,
    objects. *)
Inductive field (A : Type) : Type :=
| Missing
| Null
| Value (a : A).

Arguments Missing {A}.
Arguments Null {A}.
Arguments Value {A} a.

(** [d.get(key)]: [None] for a missing key and for a null. *)
Definition get {A : Type} (f : field A) : option A :=
  match f with
  | Value a => Some a
  | _ => None
  end.

(** [d.get(key, default)]: the default stands in for a missing key only;
    a null is handed out as [None]. *)
Definition get_default {A : Type} (f : field A) (default : A) : option A :=
  match f with
  | Missing => Some default
  | Null => None
  | Value a => Some a
  end.

Definition is_missing {A : Type} (f : field A) : bool :=
  match f with
  | Missing => true
  | _ => false
  end.

(** The material descriptor of a job: the four keys that the pipeline
    computes with, and whether the object has any other key (such as
    [materialType] or [color], which are only printed). *)
Record Material : Type := mkMaterial {
  diameterMm : field R;
  DiameterMm : field R;
  densityInGramsPerCm3 : field R;
  DensityInGramsPerCm3 : field R;
  material_other_keys : bool
}.

(** The dict [{}]. *)
Definition empty_material : Material :=
  {| diameterMm := Missing; DiameterMm := Missing;
     densityInGramsPerCm3 := Missing; DensityInGramsPerCm3 := Missing;
     material_other_keys := false |}.

(** [not material]: a dict is falsy when it has no key at all. *)
Definition material_is_empty (m : Material) : bool :=
  is_missing (diameterMm m) && is_missing (DiameterMm m)
  && is_missing (densityInGramsPerCm3 m) && is_missing (DensityInGramsPerCm3 m)
  && negb (material_other_keys m).

(** A job object of the queue: the keys that the pipeline reads, in both
    spellings where it reads both, and whether the object has any other
    key. *)
Record Job : Type := mkJob {
  id_ : field Z;
  Id : field Z;
  gCodeFilePath : field string;
  GCodeFilePath : field string;
  requiredMaterial : field Material;
  RequiredMaterial : field Material;
  estimatedPrintTimeMinutes : field R;
  estimatedMaterialInGrams : field R;
  EstimatedMaterialInGrams : field R;
  job_other_keys : bool
}.

(** [not job]. *)
Definition job_is_empty (job : Job) : bool :=
  is_missing (id_ job) && is_missing (Id job)
  && is_missing (gCodeFilePath job) && is_missing (GCodeFilePath job)
  && is_missing (requiredMaterial job) && is_missing (RequiredMaterial job)
  && is_missing (estimatedPrintTimeMinutes job)
  && is_missing (estimatedMaterialInGrams job)
  && is_missing (EstimatedMaterialInGrams job)
  && negb (job_other_keys job).

(** The dict returned by [_parse_and_estimate]. *)
Record Estimate : Type := mkEstimate {
  time_minutes : R;
  material_grams : R;
  layers : N
}.

(** [not estimate]: a dict with three keys is never empty. *)
Definition estimate_is_empty (estimate : Estimate) : bool := false.

(** [a or b] on job identifiers. *)
Definition id_or (a b : option Z) : option Z :=
  match a with
  | Some i => if (i =? 0)%Z then b else a
  | None => b
  end.

(** [a or b] on texts. *)
Definition text_or (a b : option string) : option string :=
  match a with
  | Some s => if is_empty s then b else a
  | None => b
  end.

(** [a or b] on numbers, each of which may be [None]. *)
Definition num_or (a b : option R) : option R :=
  match a with
  | Some v => if truthy v then a else b
  | None => b
  end.

(** [a or b] on material descriptors, each of which may be [None]. *)
Definition material_or (a b : option Material) : option Material :=
  match a with
  | Some m => if material_is_empty m then b else a
  | None => b
  end.

(** ["{:.2f}".format(x)]: a [None] raises [TypeError]. *)
Definition format_2f (x : option R) : outcome unit :=
  match x with
  | Some _ => Returned tt
  | None => Raised TypeError
  end.

(** The three values that [process_job] reads from the job first. *)
Definition job_id_of (job : Job) : option Z :=
  id_or (get (id_ job)) (get (Id job)).

Definition gcode_path_of (job : Job) : option string :=
  text_or (get (gCodeFilePath job)) (get (GCodeFilePath job)).

(** [job.get('requiredMaterial') or job.get('RequiredMaterial', {})]:
    [None] when the first is missing, null or empty and the second is
    null. *)
Definition material_of (job : Job) : option Material :=
  material_or (get (requiredMaterial job))
              (get_default (RequiredMaterial job) empty_material).

(** [job.get('estimatedMaterialInGrams')
     or job.get('EstimatedMaterialInGrams', 0)], the server estimate that
    [process_job] and [_validate_material] print. *)
Definition server_estimate_grams (job : Job) : option R :=
  num_or (get (estimatedMaterialInGrams job))
         (get_default (EstimatedMaterialInGrams job) 0).

(** The two [print] calls of [process_job] that can raise: the material
    line calls [material.get], which a [None] does not have, and the
    estimate line formats the server estimate with [{:.2f}]. *)
Definition print_job_header (job : Job) : outcome Material :=
  match material_of job with
  | None => Raised AttributeError
  | Some material =>
      _ <- format_2f (server_estimate_grams job) ;;
      Returned material
  end.

(** [material.get('diameterMm') or material.get('DiameterMm', 1.75)] and
    the same for the density. *)
Definition diameter_of (material : Material) : option R :=
  num_or (get (diameterMm material)) (get_default (DiameterMm material) 1.75).

Definition density_of (material : Material) : option R :=
  num_or (get (densityInGramsPerCm3 material))
         (get_default (DensityInGramsPerCm3 material) 1.24).

(** The call of [calculate_material_weight] with a diameter and a
    density that may be [None]: [filament_diameter_mm / 2.0] and
    [volume_cm3 * density_g_cm3] raise [TypeError] on a [None]. *)
Definition calculate_material_weight_of (extrusion_mm : R)
    (filament_diameter_mm density_g_cm3 : option R) : outcome R :=
  match filament_diameter_mm with
  | None => Raised TypeError
  | Some diameter =>
      match density_g_cm3 with
      | None => Raised TypeError
      | Some density =>
          Returned (GCodeParser.calculate_material_weight
                      extrusion_mm diameter density)
      end
  end.

(** What the collaborators answer while one job is processed:
    [download_file] of the API client, the content of the cache file
    afterwards ([None]: cannot be opened) and [start_job] of the API
    client. *)
Record World : Type := mkWorld {
  download_file : string -> bool;
  cache_file : option (list string);
  start_job : option Z -> R -> bool
}.

Section Pipeline.

Variable float : string -> option R.

Definition _download_gcode (world : World) (gcode_path : option string) : bool :=
  match gcode_path with
  | Some path => if is_empty path then false else download_file world path
  | None => false
  end.

(** [current_job] is [self.current_job], which [process_job] has set to
    the job by the time of the call. *)
Definition _parse_and_estimate (world : World) (current_job : Job)
    (material : Material) : outcome Estimate :=
  if SKIP_GCODE_PARSING then
    let time_min := or_else (get (estimatedPrintTimeMinutes current_job)) 0 in
    let material_g := or_else (get (estimatedMaterialInGrams current_job)) 0 in
    Returned {| time_minutes := if Rgtb time_min 0 then time_min else 30;
                material_grams := if Rgtb material_g 0 then material_g else 10;
                layers := 100%N |}
  else
    match snd (GCodeParser.parse_file float (cache_file world)) with
    | None =>
        Returned
          {| time_minutes :=
               or_else (get (estimatedPrintTimeMinutes current_job)) 30;
             material_grams :=
               or_else (get (estimatedMaterialInGrams current_job)) 10;
             layers := 100%N |}
    | Some result =>
        let diameter_mm := diameter_of material in
        let density_g_cm3 := density_of material in
        material_grams <-
          calculate_material_weight_of
            (GCodeParser.extrusion_mm result) diameter_mm density_g_cm3 ;;
        Returned {| time_minutes := GCodeParser.time_minutes result;
                    material_grams := material_grams;
                    layers := GCodeParser.layers result |}
    end.

Definition _validate_material (required_grams : R) (job : Job) : outcome bool :=
  let estimated_grams := server_estimate_grams job in
  _ <- format_2f (Some required_grams) ;;
  _ <- format_2f estimated_grams ;;
  Returned true.

End Pipeline.

End IoTPrinterClient.

(* ===================================================================== *)
(** * menu_system.py, with the language of localization.py *)
(* ===================================================================== *)

Module MenuSystem.
Import Py.

Local Open Scope string_scope.

(** The four state constants of the class. *)
Inductive state : Type :=
| STATE_MAIN_MENU
| STATE_POLLING
| STATE_STATISTICS
| STATE_LANGUAGE.

(** What the select and back handlers return besides [None]. *)
Inductive action : Type :=
| start_polling
| stop_polling.

(** [Localization.available_languages]: the keys of the translation
    table, assigned once by the constructor. *)
Definition available_languages : list string := [ "en"; "ua" ].

(** The attributes of a [MenuSystem] object, with the current language
    of its [Localization].  [selected_index] is only ever assigned 0 or a
    remainder modulo a positive length.  [state_history] is a stack: its
    head is the element appended last. *)
Record t : Type := mkMenu {
  current_language : string;
  current_state : state;
  selected_index : N;
  in_menu : bool;
  state_history : list state
}.

Definition init (default_language : string) : t :=
  {| current_language := default_language;
     current_state := STATE_MAIN_MENU;
     selected_index := 0%N;
     in_menu := true;
     state_history := [] |}.

(** [Localization.get_language_name] *)
Definition get_language_name (lang_code : string) : string :=
  if String.eqb lang_code "en" then "English"
  else if String.eqb lang_code "ua" then "Ukrainska"
  else lang_code.

(** [Localization.set_language]: the object after the call and the
    returned flag. *)
Definition set_language (self : t) (language : string) : t * bool :=
  if existsb (String.eqb language) available_languages then
    ({| current_language := language;
        current_state := current_state self;
        selected_index := selected_index self;
        in_menu := in_menu self;
        state_history := state_history self |}, true)
  else (self, false).

(** The main menu has three entries. *)
Definition main_menu_length : Z := 3.

Definition get_language_menu_items (self : t) : list string :=
  map (fun lang =>
         let name := get_language_name lang in
         if String.eqb lang (current_language self) then "> " ++ name else name)
      available_languages.

Definition set_index (self : t) (index : N) : t :=
  {| current_language := current_language self;
     current_state := current_state self;
     selected_index := index;
     in_menu := in_menu self;
     state_history := state_history self |}.

(** [(self.selected_index + step) % length] *)
Definition moved (self : t) (step length : Z) : N :=
  Z.to_N ((Z.of_N (selected_index self) + step) mod length).

Definition handle_button_up (self : t) : t :=
  match current_state self with
  | STATE_MAIN_MENU => set_index self (moved self (-1) main_menu_length)
  | STATE_LANGUAGE =>
      set_index self
        (moved self (-1) (Z.of_nat (List.length (get_language_menu_items self))))
  | _ => self
  end.

Definition handle_button_down (self : t) : t :=
  match current_state self with
  | STATE_MAIN_MENU => set_index self (moved self 1 main_menu_length)
  | STATE_LANGUAGE =>
      set_index self
        (moved self 1 (Z.of_nat (List.length (get_language_menu_items self))))
  | _ => self
  end.

Definition handle_button_back (self : t) : option action * t :=
  match current_state self with
  | STATE_POLLING =>
      (Some stop_polling,
       {| current_language := current_language self;
          current_state := STATE_MAIN_MENU;
          selected_index := 0%N;
          in_menu := true;
          state_history := state_history self |})
  | _ =>
      match state_history self with
      | previous :: older =>
          (None,
           {| current_language := current_language self;
              current_state := previous;
              selected_index := 0%N;
              in_menu := in_menu self;
              state_history := older |})
      | [] => (None, self)
      end
  end.

(** Entering a screen from the main menu. *)
Definition enter (self : t) (screen : state) (index : N) (menu : bool) : t :=
  {| current_language := current_language self;
     current_state := screen;
     selected_index := index;
     in_menu := menu;
     state_history := current_state self :: state_history self |}.

Definition handle_button_select (self : t) : option action * t :=
  match current_state self with
  | STATE_MAIN_MENU =>
      if (selected_index self =? 0)%N then
        (Some start_polling, enter self STATE_POLLING (selected_index self) false)
      else if (selected_index self =? 1)%N then
        (None, enter self STATE_STATISTICS (selected_index self) (in_menu self))
      else if (selected_index self =? 2)%N then
        (None, enter self STATE_LANGUAGE 0%N (in_menu self))
      else (None, self)
  | STATE_LANGUAGE =>
      match nth_error available_languages (N.to_nat (selected_index self)) with
      | Some new_lang =>
          (None, snd (handle_button_back (fst (set_language self new_lang))))
      | None => (None, self)
      end
  | _ => (None, self)
  end.

Definition is_in_polling_mode (self : t) : bool :=
  match current_state self with
  | STATE_POLLING => true
  | _ => false
  end.

Definition is_in_menu (self : t) : bool := in_menu self.

End MenuSystem.

(* ===================================================================== *)
(** * main.py: the client, its polling steps and the printing steps *)
(* ===================================================================== *)

Module Client.
Import Py.

Local Open Scope string_scope.

(** config.py *)
Definition PING_INTERVAL : R := 120.
Definition QUEUE_POLL_INTERVAL : R := 10.
Definition DEFAULT_LANGUAGE : string := "en".

Inductive status_name : Type :=
| STATUS_IDLE
| STATUS_PRINTING
| STATUS_ERROR.

(** The four names that [ButtonHandler.get_pressed_button] returns. *)
Inductive button : Type :=
| up
| down
| select
| back.

(** Calls of [ping], [get_queue], [start_job] and [finish_job] of the
    API client, in the order they are made.  ([download_file] is
    answered by the [World] and is not listed.) *)
Inductive api_call : Type :=
| Ping (status : status_name)
| GetQueue
| Start (job_id : option Z) (estimated_time_minutes : R)
| Finish (job_id : option Z) (is_success : bool)
         (actual_material_grams : option R) (error_message : option string).

(** The attributes of the client that the modelled methods use. *)
Record t : Type := mkClient {
  status : status_name;
  last_ping_time : R;
  last_queue_check_time : R;
  current_job : option IoTPrinterClient.Job;
  polling_mode : bool;
  printer : PrinterController.t;
  stats : Statistics.t;
  menu : MenuSystem.t
}.

Definition init (now : R) : t :=
  {| status := STATUS_IDLE;
     last_ping_time := 0;
     last_queue_check_time := 0;
     current_job := None;
     polling_mode := false;
     printer := PrinterController.init;
     stats := Statistics.init now;
     menu := MenuSystem.init DEFAULT_LANGUAGE |}.

Definition set_status (self : t) (s : status_name) : t :=
  {| status := s;
     last_ping_time := last_ping_time self;
     last_queue_check_time := last_queue_check_time self;
     current_job := current_job self;
     polling_mode := polling_mode self;
     printer := printer self;
     stats := stats self;
     menu := menu self |}.

Definition set_last_ping_time (self : t) (time : R) : t :=
  {| status := status self;
     last_ping_time := time;
     last_queue_check_time := last_queue_check_time self;
     current_job := current_job self;
     polling_mode := polling_mode self;
     printer := printer self;
     stats := stats self;
     menu := menu self |}.

Definition set_last_queue_check_time (self : t) (time : R) : t :=
  {| status := status self;
     last_ping_time := last_ping_time self;
     last_queue_check_time := time;
     current_job := current_job self;
     polling_mode := polling_mode self;
     printer := printer self;
     stats := stats self;
     menu := menu self |}.

Definition set_current_job (self : t) (job : option IoTPrinterClient.Job) : t :=
  {| status := status self;
     last_ping_time := last_ping_time self;
     last_queue_check_time := last_queue_check_time self;
     current_job := job;
     polling_mode := polling_mode self;
     printer := printer self;
     stats := stats self;
     menu := menu self |}.

Definition set_printer (self : t) (p : PrinterController.t) : t :=
  {| status := status self;
     last_ping_time := last_ping_time self;
     last_queue_check_time := last_queue_check_time self;
     current_job := current_job self;
     polling_mode := polling_mode self;
     printer := p;
     stats := stats self;
     menu := menu self |}.

Definition set_stats (self : t) (s : Statistics.t) : t :=
  {| status := status self;
     last_ping_time := last_ping_time self;
     last_queue_check_time := last_queue_check_time self;
     current_job := current_job self;
     polling_mode := polling_mode self;
     printer := printer self;
     stats := s;
     menu := menu self |}.

Definition set_menu (self : t) (polling : bool) (m : MenuSystem.t) : t :=
  {| status := status self;
     last_ping_time := last_ping_time self;
     last_queue_check_time := last_queue_check_time self;
     current_job := current_job self;
     polling_mode := polling;
     printer := printer self;
     stats := stats self;
     menu := m |}.

Definition is_idle (s : status_name) : bool :=
  match s with
  | STATUS_IDLE => true
  | _ => false
  end.

(** [send_ping]: the client after the call and the calls made. *)
Definition send_ping (self : t) (current_time : R) : t * list api_call :=
  if Rgeb (current_time - last_ping_time self) PING_INTERVAL then
    (set_last_ping_time self current_time, [Ping (status self)])
  else (self, []).

(** [check_queue]: [queue] is what [get_queue] answers when it is
    asked.  Returns the client after the call, the calls made and the
    job returned. *)
Definition check_queue (self : t) (current_time : R)
    (queue : list IoTPrinterClient.Job)
  : t * list api_call * option IoTPrinterClient.Job :=
  if negb (is_idle (status self)) then (self, [], None)
  else if Rgeb (current_time - last_queue_check_time self) QUEUE_POLL_INTERVAL then
    (set_last_queue_check_time self current_time, [GetQueue],
     match queue with
     | job :: _ => Some job
     | [] => None
     end)
  else (self, [], None).

(** [handle_buttons]: [enabled] is [self.buttons.enabled] and [pressed]
    what [get_pressed_button] returns. *)
Definition handle_buttons (self : t) (enabled : bool) (pressed : option button) : t :=
  if negb enabled then self
  else
    match pressed with
    | Some up => set_menu self (polling_mode self) (MenuSystem.handle_button_up (menu self))
    | Some down => set_menu self (polling_mode self) (MenuSystem.handle_button_down (menu self))
    | Some select =>
        let '(action, m) := MenuSystem.handle_button_select (menu self) in
        match action with
        | Some MenuSystem.start_polling => set_menu self true m
        | _ => set_menu self (polling_mode self) m
        end
    | Some back =>
        let '(action, m) := MenuSystem.handle_button_back (menu self) in
        match action with
        | Some MenuSystem.stop_polling => set_menu self false m
        | _ => set_menu self (polling_mode self) m
        end
    | None => self
    end.

(** [_start_printing]; the two times are the clock read by
    [Statistics.start_job] and by [PrinterController.start_print]. *)
Definition _start_printing (self : t) (job_id : option Z)
    (estimate : IoTPrinterClient.Estimate) (at_stats at_printer : R) : t :=
  let self := set_status self STATUS_PRINTING in
  let self :=
    set_stats self
      (Statistics.start_job (stats self) at_stats
         (IoTPrinterClient.time_minutes estimate)
         (IoTPrinterClient.material_grams estimate)) in
  set_printer self
    (PrinterController.start_print (printer self) at_printer job_id
       (IoTPrinterClient.time_minutes estimate)
       (IoTPrinterClient.material_grams estimate)
       (IoTPrinterClient.layers estimate)).

(** The clock as one round of the monitoring loop reads it: in
    [get_status], in [send_ping] and in [is_complete]. *)
Record Tick : Type := mkTick {
  at_status : R;
  at_ping : R;
  at_complete : R
}.

(** How the monitoring loop is left: with a result, by an exception, or
    not within the rounds that are given. *)
Inductive monitored : Type :=
| Result (success : bool)
| Failed (e : exn)
| Running.

(** [_monitor_printing] over the rounds whose clock readings are
    [ticks]: the client reached, the calls made and how the loop was
    left. *)
Fixpoint _monitor_printing (self : t) (ticks : list Tick)
  : t * list api_call * monitored :=
  if negb (PrinterController.is_printing (printer self)) then
    (self, [], Result true)
  else
    match ticks with
    | [] => (self, [], Running)
    | tick :: rest =>
        match PrinterController.get_status (printer self) (at_status tick) with
        | Raised e => (self, [], Failed e)
        | Returned (_, p1) =>
            let '(self1, pings) := send_ping (set_printer self p1) (at_ping tick) in
            if PrinterController.simulate_error (printer self1) then
              (self1, pings, Result false)
            else
              match PrinterController.is_complete (printer self1) (at_complete tick) with
              | Raised e => (self1, pings, Failed e)
              | Returned (done, p2) =>
                  let self2 := set_printer self1 p2 in
                  if done then (self2, pings, Result true)
                  else
                    let '(self3, calls, how) := _monitor_printing self2 rest in
                    (self3, (pings ++ calls)%list, how)
              end
        end
    end.

(** [_finish_printing]; [now] is the clock read by
    [Statistics.finish_job]. *)
Definition _finish_printing (self : t) (job_id : option Z) (success : bool)
    (now : R) : t * list api_call :=
  let '(actual_material, p) := PrinterController.stop_print (printer self) in
  let self := set_printer self p in
  let self :=
    set_stats self
      (Statistics.finish_job (stats self) now success (Some actual_material)) in
  let call :=
    if success then Finish job_id true (Some actual_material) None
    else Finish job_id false (Some actual_material)
                (Some "Print failed during execution") in
  (set_status self STATUS_IDLE, [call]).

Definition _finish_job_with_error (self : t) (job_id : option Z)
    (error_message : string) (now : R) : t * list api_call :=
  let self := set_stats self (Statistics.finish_job (stats self) now false None) in
  (set_status self STATUS_IDLE, [Finish job_id false None (Some error_message)]).

(** Truth value of a job identifier. *)
Definition id_is_truthy (job_id : option Z) : bool :=
  match job_id with
  | Some i => negb (i =? 0)%Z
  | None => false
  end.

(** The clock as [process_job] reads it. *)
Record Clock : Type := mkClock {
  at_stats_start : R;
  at_print_start : R;
  ticks : list Tick;
  at_finish : R
}.

(** How the [try] block of [process_job] is left: at its end or by one
    of its [return] statements, by an exception, or not within the
    monitoring rounds that are given.  Each case carries the client
    reached and the calls of the API client made so far. *)
Inductive attempt : Type :=
| Ended (self : t) (calls : list api_call)
| Excepted (self : t) (calls : list api_call) (e : exn)
| Unfinished (self : t) (calls : list api_call).

(** How [process_job] is left: it returns, or it is still in the
    monitoring loop after the rounds that are given. *)
Inductive processed : Type :=
| Done (self : t) (calls : list api_call)
| Monitoring (self : t) (calls : list api_call).

Section ProcessJob.

Variable float : string -> option R.

(** [str(e)] for an exception. *)
Variable str : exn -> string.

(** The [try] block of [process_job]. *)
Definition try_block (world : IoTPrinterClient.World) (self : t)
    (job : IoTPrinterClient.Job) (clock : Clock) : attempt :=
  let job_id := IoTPrinterClient.job_id_of job in
  let gcode_path := IoTPrinterClient.gcode_path_of job in
  match IoTPrinterClient.print_job_header job with
  | Raised e => Excepted self [] e
  | Returned material =>
      let self := set_current_job self (Some job) in
      if negb (IoTPrinterClient._download_gcode world gcode_path) then
        let '(self', calls) :=
          _finish_job_with_error self job_id "Failed to download GCode"
                                 (at_finish clock) in
        Ended self' calls
      else
        match IoTPrinterClient._parse_and_estimate float world job material with
        | Raised e => Excepted self [] e
        | Returned estimate =>
            if IoTPrinterClient.estimate_is_empty estimate then
              let '(self', calls) :=
                _finish_job_with_error self job_id "Failed to parse GCode"
                                       (at_finish clock) in
              Ended self' calls
            else
              match IoTPrinterClient._validate_material
                      (IoTPrinterClient.material_grams estimate) job with
              | Raised e => Excepted self [] e
              | Returned valid =>
                  if negb valid then
                    let '(self', calls) :=
                      _finish_job_with_error self job_id "Insufficient material"
                                             (at_finish clock) in
                    Ended self' calls
                  else
                    let start :=
                      Start job_id (IoTPrinterClient.time_minutes estimate) in
                    if negb (IoTPrinterClient.start_job world job_id
                               (IoTPrinterClient.time_minutes estimate)) then
                      let '(self', calls) :=
                        _finish_job_with_error self job_id
                                               "Failed to start job on server"
                                               (at_finish clock) in
                      Ended self' (start :: calls)
                    else
                      let self1 := _start_printing self job_id estimate
                                     (at_stats_start clock)
                                     (at_print_start clock) in
                      match _monitor_printing self1 (ticks clock) with
                      | (self2, pings, Result success) =>
                          let '(self3, calls) :=
                            _finish_printing self2 job_id success
                                             (at_finish clock) in
                          Ended self3 (start :: pings ++ calls)%list
                      | (self2, pings, Failed e) =>
                          Excepted self2 (start :: pings) e
                      | (self2, pings, Running) =>
                          Unfinished self2 (start :: pings)
                      end
              end
        end
  end.

(** The [except] block of [process_job]. *)
Definition except_block (self : t) (e : exn) (now : R) : t * list api_call :=
  match current_job self with
  | Some job =>
      if IoTPrinterClient.job_is_empty job then (self, [])
      else
        let job_id := IoTPrinterClient.job_id_of job in
        if id_is_truthy job_id then
          _finish_job_with_error self job_id (str e) now
        else (self, [])
  | None => (self, [])
  end.

(** The [finally] block of [process_job]. *)
Definition finally_block (self : t) : t :=
  set_status (set_current_job self None) STATUS_IDLE.

Definition process_job (world : IoTPrinterClient.World) (self : t)
    (job : IoTPrinterClient.Job) (clock : Clock) : processed :=
  match try_block world self job clock with
  | Ended self' calls => Done (finally_block self') calls
  | Excepted self' calls e =>
      let '(self'', calls') := except_block self' e (at_finish clock) in
      Done (finally_block self'') (calls ++ calls')%list
  | Unfinished self' calls => Monitoring self' calls
  end.

End ProcessJob.

End Client.

(* ===================================================================== *)
(** * Notions used to state the properties *)
(* ===================================================================== *)

Module Scenario.
Import Py.

Local Open Scope string_scope.

(** The G-code of end-to-end scenario A. *)
Definition scenario_A : list string :=
  [ "G1 X10 Y0 Z0 E5 F1200"; "G1 X10 Y10 Z0 E5" ].

(** The estimator after the parse loop has been run on the first [k]
    lines of [lines], starting from a reset estimator. *)
Definition after (float : string -> option R) (lines : list string) (k : nat)
  : GCodeParser.t :=
  fst (GCodeParser.parse_lines float GCodeParser.reset (firstn k lines)).

(** The E coordinate of the cursor at that point. *)
Definition E_after (float : string -> option R) (lines : list string) (k : nat)
  : R :=
  GCodeParser.posE (GCodeParser.current_position (after float lines k)).

(** The positive part of an E delta: retractions count for nothing. *)
Definition positive_part (delta : R) : R :=
  if Rgtb delta 0 then delta else 0.

(** Sum of the positive deltas [e (k+1) - e k] for [k < n]. *)
Fixpoint sum_positive_deltas (e : nat -> R) (n : nat) : R :=
  match n with
  | O => 0
  | S k => sum_positive_deltas e k + positive_part (e (S k) - e k)
  end.

(** ** The extrusion that the text of a file asks for

    The next definitions read the E coordinate from the words of the
    lines alone, without the estimator. *)

(** The value of an E word: a word of at least two characters whose
    first is E or e and whose remainder reads as a number. *)
Definition E_word (float : string -> option R) (word : string) : option R :=
  match word with
  | String c (String d rest) =>
      if Ascii.eqb c "E" || Ascii.eqb c "e" then float (String d rest) else None
  | _ => None
  end.

(** The E coordinate after a move whose parameter words are [words],
    from the E coordinate [e] before it: the value of the last E word,
    and [e] when there is none. *)
Definition E_of_words (float : string -> option R) (words : list string) (e : R)
  : R :=
  fold_left (fun e word => match E_word float word with
                           | Some v => v
                           | None => e
                           end)
            words e.

(** The command words of a linear move, in either case. *)
Definition is_move_command (word : string) : bool :=
  String.eqb word "G0" || String.eqb word "g0"
  || String.eqb word "G1" || String.eqb word "g1".

(** The words of a line of the file: those of the text before the first
    semicolon. *)
Definition words_of (line : string) : list string :=
  split (before ";" (strip line)).

(** The E coordinate after a line, from the E coordinate [e] before it:
    a line whose first word is a move command moves E as its other words
    say, any other line leaves it alone. *)
Definition E_of_line (float : string -> option R) (line : string) (e : R) : R :=
  match words_of line with
  | command :: words =>
      if is_move_command command then E_of_words float words e else e
  | [] => e
  end.

(** The E coordinate after the lines of a file. *)
Definition E_of_lines (float : string -> option R) (lines : list string) (e : R)
  : R :=
  fold_left (fun e line => E_of_line float line e) lines e.

(** The extrusion of a file, read from its text: the sum over the lines
    of the positive parts of the changes of E. *)
Fixpoint extrusion_of_lines (float : string -> option R) (lines : list string)
    (e : R) : R :=
  match lines with
  | [] => 0
  | line :: rest =>
      positive_part (E_of_line float line e - e)
      + extrusion_of_lines float rest (E_of_line float line e)
  end.

(** G-code that extrudes 5 mm, retracts by 2 mm and extrudes again up
    to 4 mm. *)
Definition retraction_file : list string :=
  [ "G1 E5"; "g1 e3 ; retract"; "G1 E4" ].

(** An estimator that has only extruded: the cursor at E [e], a total
    extrusion of [total], everything else as after [reset]. *)
Definition after_extruding (e total : R) : GCodeParser.t :=
  {| GCodeParser.total_extrusion := total;
     GCodeParser.total_time := 0;
     GCodeParser.current_position := GCodeParser.mkPosition 0 0 0 e;
     GCodeParser.current_feedrate := 1500;
     GCodeParser.layer_count := 0%N |}.

(** The estimator after the first and after the second line of
    scenario A. *)
Definition after_line_1 : GCodeParser.t :=
  {| GCodeParser.total_extrusion := 5;
     GCodeParser.total_time := 10 / 1200 * 60;
     GCodeParser.current_position := GCodeParser.mkPosition 10 0 0 5;
     GCodeParser.current_feedrate := 1200;
     GCodeParser.layer_count := 1%N |}.

Definition after_line_2 : GCodeParser.t :=
  {| GCodeParser.total_extrusion := 5;
     GCodeParser.total_time := 10 / 1200 * 60 + 10 / 1200 * 60;
     GCodeParser.current_position := GCodeParser.mkPosition 10 10 0 5;
     GCodeParser.current_feedrate := 1200;
     GCodeParser.layer_count := 2%N |}.

(** A well-formed motion line that sets the feed rate to zero. *)
Definition zero_feed_line : string := "G1 X10 F0".

(** Progress in percent after [elapsed] seconds of a print, as
    [get_status] computes it. *)
Definition progress_of (p : PrinterController.t) (elapsed : R) : R :=
  if Rgtb (PrinterController.estimated_duration p) 0 then
    Py.min (elapsed / PrinterController.estimated_duration p * 100) 100
  else 0.

(** A one-minute job of 10 grams and 100 layers started at time 0 on a
    new controller: 20 seconds of simulated printing. *)
Definition printing_job : PrinterController.t :=
  PrinterController.start_print PrinterController.init 0 (Some 1%Z) 1 10 100%N.

(** A job whose estimated time is 0 minutes. *)
Definition zero_minutes_job : PrinterController.t :=
  PrinterController.start_print PrinterController.init 0 (Some 2%Z) 0 10 100%N.

(** Statistics of a process started at time 0, with a job of an
    estimated 30 minutes and 10 grams started at time 100. *)
Definition stats_in_job : Statistics.t :=
  Statistics.start_job (Statistics.init 0) 100 30 10.

(** The same job finished at time 200 with an actual material of 0. *)
Definition stats_after_zero : Statistics.t :=
  Statistics.finish_job stats_in_job 200 true (Some 0).

(** A world where the download succeeds, the cached G-code makes the
    parser raise, and the server accepts the start of the job. *)
Definition failing_parse_world : IoTPrinterClient.World :=
  {| IoTPrinterClient.download_file := fun _ => true;
     IoTPrinterClient.cache_file := Some [zero_feed_line];
     IoTPrinterClient.start_job := fun _ _ => true |}.

(** A job for which the server declares 45 minutes and 12 grams. *)
Definition declared_job : IoTPrinterClient.Job :=
  {| IoTPrinterClient.id_ := IoTPrinterClient.Value 7%Z;
     IoTPrinterClient.Id := IoTPrinterClient.Missing;
     IoTPrinterClient.gCodeFilePath := IoTPrinterClient.Value "jobs/7.gcode";
     IoTPrinterClient.GCodeFilePath := IoTPrinterClient.Missing;
     IoTPrinterClient.requiredMaterial := IoTPrinterClient.Missing;
     IoTPrinterClient.RequiredMaterial := IoTPrinterClient.Missing;
     IoTPrinterClient.estimatedPrintTimeMinutes := IoTPrinterClient.Value 45;
     IoTPrinterClient.estimatedMaterialInGrams := IoTPrinterClient.Value 12;
     IoTPrinterClient.EstimatedMaterialInGrams := IoTPrinterClient.Missing;
     IoTPrinterClient.job_other_keys := false |}.

(** The same job when the server spells the grams
    [EstimatedMaterialInGrams]. *)
Definition capitalised_grams_job : IoTPrinterClient.Job :=
  {| IoTPrinterClient.id_ := IoTPrinterClient.Value 7%Z;
     IoTPrinterClient.Id := IoTPrinterClient.Missing;
     IoTPrinterClient.gCodeFilePath := IoTPrinterClient.Value "jobs/7.gcode";
     IoTPrinterClient.GCodeFilePath := IoTPrinterClient.Missing;
     IoTPrinterClient.requiredMaterial := IoTPrinterClient.Missing;
     IoTPrinterClient.RequiredMaterial := IoTPrinterClient.Missing;
     IoTPrinterClient.estimatedPrintTimeMinutes := IoTPrinterClient.Value 45;
     IoTPrinterClient.estimatedMaterialInGrams := IoTPrinterClient.Missing;
     IoTPrinterClient.EstimatedMaterialInGrams := IoTPrinterClient.Value 12;
     IoTPrinterClient.job_other_keys := false |}.

(** The class invariant of [PrinterController]: while printing, the
    start time is known. *)
Definition started (p : PrinterController.t) : Prop :=
  PrinterController.is_printing p = true ->
  PrinterController.print_start_time p <> None.

End Scenario.

(* ===================================================================== *)
(** * Further notions used to state properties *)
(* ===================================================================== *)

Module Usage.
Import Py.

(** The text that [_parse_line] works on: the line without its comment. *)
Definition clean_line (line : string) : string :=
  if contains ";" line then strip (before ";" line) else line.

(** The position and feed rate that the words of a line ask for: the
    result of the parameter loop of [_parse_move]. *)
Definition target (float : string -> option R) (self : GCodeParser.t)
    (parts : list string) : GCodeParser.Position * R :=
  fold_left (GCodeParser.move_token float) (tl parts)
            (GCodeParser.current_position self, GCodeParser.current_feedrate self).

(** A call of one of the two mutating methods of [Statistics]. *)
Inductive stats_call : Type :=
| CallStartJob (now estimated_time_minutes estimated_material_grams : R)
| CallFinishJob (now : R) (success : bool) (actual_material_grams : option R).

Definition stats_step (s : Statistics.t) (c : stats_call) : Statistics.t :=
  match c with
  | CallStartJob now minutes grams => Statistics.start_job s now minutes grams
  | CallFinishJob now success actual => Statistics.finish_job s now success actual
  end.

(** The statistics after a sequence of calls. *)
Definition stats_run (s : Statistics.t) (calls : list stats_call) : Statistics.t :=
  fold_left stats_step calls s.

Definition is_finish (c : stats_call) : bool :=
  match c with
  | CallFinishJob _ _ _ => true
  | CallStartJob _ _ _ => false
  end.

Definition is_success (c : stats_call) : bool :=
  match c with
  | CallFinishJob _ success _ => success
  | CallStartJob _ _ _ => false
  end.

(** Number of calls of a kind, as the counters count. *)
Definition count_calls (kind : stats_call -> bool) (calls : list stats_call) : N :=
  N.of_nat (List.length (filter kind calls)).

(** The times, among the clock readings [times] of successive calls of
    [send_ping], at which a ping is sent. *)
Fixpoint pings_sent (self : Client.t) (times : list R) : list R :=
  match times with
  | [] => []
  | time :: rest =>
      let '(self', calls) := Client.send_ping self time in
      match calls with
      | [] => pings_sent self' rest
      | _ => time :: pings_sent self' rest
      end
  end.

(** Each time is at least [interval] after the one before it, the first
    one after [previous]. *)
Fixpoint spaced (interval previous : R) (times : list R) : Prop :=
  match times with
  | [] => True
  | time :: rest => time - previous >= interval /\ spaced interval time rest
  end.

Definition is_finish_call (c : Client.api_call) : bool :=
  match c with
  | Client.Finish _ _ _ _ => true
  | _ => false
  end.

Definition is_ping_call (c : Client.api_call) : bool :=
  match c with
  | Client.Ping _ => true
  | _ => false
  end.

(** One press of a button, as [handle_buttons] dispatches it to the
    menu. *)
Definition press (m : MenuSystem.t) (b : Client.button) : MenuSystem.t :=
  match b with
  | Client.up => MenuSystem.handle_button_up m
  | Client.down => MenuSystem.handle_button_down m
  | Client.select => snd (MenuSystem.handle_button_select m)
  | Client.back => snd (MenuSystem.handle_button_back m)
  end.

(** The selected index points into the menu that is shown. *)
Definition index_in_range (m : MenuSystem.t) : Prop :=
  match MenuSystem.current_state m with
  | MenuSystem.STATE_MAIN_MENU => (MenuSystem.selected_index m < 3)%N
  | MenuSystem.STATE_LANGUAGE =>
      (MenuSystem.selected_index m
       < N.of_nat (List.length MenuSystem.available_languages))%N
  | _ => True
  end.

(** The client after a sequence of polls of enabled buttons. *)
Definition after_buttons (self : Client.t) (pressed : list (option Client.button))
  : Client.t :=
  fold_left (fun c b => Client.handle_buttons c true b) pressed self.

(** What holds of the menu whatever buttons were pressed: the index is
    in range, the history holds main-menu entries only, [in_menu] is
    false exactly in the polling state, and away from the main menu the
    history is not empty. *)
Definition menu_invariant (m : MenuSystem.t) : Prop :=
  index_in_range m
  /\ Forall (fun s => s = MenuSystem.STATE_MAIN_MENU) (MenuSystem.state_history m)
  /\ (MenuSystem.in_menu m = false
      <-> MenuSystem.current_state m = MenuSystem.STATE_POLLING)
  /\ (MenuSystem.current_state m <> MenuSystem.STATE_MAIN_MENU ->
      MenuSystem.state_history m <> []).

(** [n] polling sessions, each entered with Select and left with Back. *)
Definition polling_sessions (n : nat) : list Client.button :=
  List.concat (repeat [Client.select; Client.back] n).

(** What holds of the client whatever buttons were pressed: the menu
    invariant, and [polling_mode] is true exactly in the polling state of
    the menu. *)
Definition buttons_invariant (c : Client.t) : Prop :=
  menu_invariant (Client.menu c)
  /\ (Client.polling_mode c = true
      <-> MenuSystem.current_state (Client.menu c) = MenuSystem.STATE_POLLING).

(** A material descriptor whose [DiameterMm] is null:
    [{'materialType': 'PLA', 'DiameterMm': None}]. *)
Definition null_diameter_material : IoTPrinterClient.Material :=
  {| IoTPrinterClient.diameterMm := IoTPrinterClient.Missing;
     IoTPrinterClient.DiameterMm := IoTPrinterClient.Null;
     IoTPrinterClient.densityInGramsPerCm3 := IoTPrinterClient.Missing;
     IoTPrinterClient.DensityInGramsPerCm3 := IoTPrinterClient.Missing;
     IoTPrinterClient.material_other_keys := true |}.

(** Job 7 with that descriptor, and job 7 with a null
    [RequiredMaterial]. *)
Definition null_diameter_job : IoTPrinterClient.Job :=
  {| IoTPrinterClient.id_ := IoTPrinterClient.Value 7%Z;
     IoTPrinterClient.Id := IoTPrinterClient.Missing;
     IoTPrinterClient.gCodeFilePath := IoTPrinterClient.Value "jobs/7.gcode"%string;
     IoTPrinterClient.GCodeFilePath := IoTPrinterClient.Missing;
     IoTPrinterClient.requiredMaterial := IoTPrinterClient.Value null_diameter_material;
     IoTPrinterClient.RequiredMaterial := IoTPrinterClient.Missing;
     IoTPrinterClient.estimatedPrintTimeMinutes := IoTPrinterClient.Value 45;
     IoTPrinterClient.estimatedMaterialInGrams := IoTPrinterClient.Value 12;
     IoTPrinterClient.EstimatedMaterialInGrams := IoTPrinterClient.Missing;
     IoTPrinterClient.job_other_keys := false |}.

Definition null_material_job : IoTPrinterClient.Job :=
  {| IoTPrinterClient.id_ := IoTPrinterClient.Value 7%Z;
     IoTPrinterClient.Id := IoTPrinterClient.Missing;
     IoTPrinterClient.gCodeFilePath := IoTPrinterClient.Value "jobs/7.gcode"%string;
     IoTPrinterClient.GCodeFilePath := IoTPrinterClient.Missing;
     IoTPrinterClient.requiredMaterial := IoTPrinterClient.Missing;
     IoTPrinterClient.RequiredMaterial := IoTPrinterClient.Null;
     IoTPrinterClient.estimatedPrintTimeMinutes := IoTPrinterClient.Value 45;
     IoTPrinterClient.estimatedMaterialInGrams := IoTPrinterClient.Value 12;
     IoTPrinterClient.EstimatedMaterialInGrams := IoTPrinterClient.Missing;
     IoTPrinterClient.job_other_keys := false |}.

(** A round of the monitoring loop is late for a job started at [start]
    that lasts [duration] seconds when [is_complete] reads the clock at
    or after the end of the job. *)
Definition late (start duration : R) (tick : Client.Tick) : Prop :=
  Client.at_complete tick - start >= duration.

(** A line that, once stripped, starts with neither G nor g. *)
Definition not_motion (line : string) : Prop :=
  startswith "G" (strip line) || startswith "g" (strip line) = false.

(** A world where the download succeeds, the cached G-code holds no
    motion command, and the server accepts the start of the job. *)
Definition no_motion_world : IoTPrinterClient.World :=
  {| IoTPrinterClient.download_file := fun _ => true;
     IoTPrinterClient.cache_file := Some [ "; sliced"; "M104 S210" ]%string;
     IoTPrinterClient.start_job := fun _ _ => true |}.

(** A world where the download fails. *)
Definition no_download_world : IoTPrinterClient.World :=
  {| IoTPrinterClient.download_file := fun _ => false;
     IoTPrinterClient.cache_file := None;
     IoTPrinterClient.start_job := fun _ _ => true |}.

(** Clock readings of a run whose only monitoring round is at 1000 s. *)
Definition late_clock : Client.Clock :=
  {| Client.at_stats_start := 0;
     Client.at_print_start := 0;
     Client.ticks := [ {| Client.at_status := 1000;
                          Client.at_ping := 1000;
                          Client.at_complete := 1000 |} ];
     Client.at_finish := 1001 |}.

(** [str(e)], a text for each exception. *)
Definition exn_text (e : exn) : string :=
  match e with
  | ZeroDivisionError => "float division by zero"
  | TypeError => "unsupported operand type(s)"
  | AttributeError => "'NoneType' object has no attribute 'get'"
  end.

(** A world where the download succeeds, the cached G-code is that of
    scenario A, and the server accepts the start of the job. *)
Definition scenario_A_world : IoTPrinterClient.World :=
  {| IoTPrinterClient.download_file := fun _ => true;
     IoTPrinterClient.cache_file := Some Scenario.scenario_A;
     IoTPrinterClient.start_job := fun _ _ => true |}.

End Usage.

(* ===================================================================== *)
(** * Facts about the prelude *)
(* ===================================================================== *)

Import Py.

Lemma Rgtb_true (a b : R) : a > b -> Rgtb a b = true.
Proof. intros H. unfold Rgtb. destruct (Rgt_dec a b); [reflexivity | contradiction]. Qed.

Lemma Rgtb_false (a b : R) : a <= b -> Rgtb a b = false.
Proof. intros H. unfold Rgtb. destruct (Rgt_dec a b); [lra | reflexivity]. Qed.

Lemma Rgtb_spec (a b : R) : Rgtb a b = true <-> a > b.
Proof.
  unfold Rgtb. destruct (Rgt_dec a b); split; intros; try assumption;
    try reflexivity; try discriminate; contradiction.
Qed.

Lemma Rgeb_spec (a b : R) : Rgeb a b = true <-> a >= b.
Proof.
  unfold Rgeb. destruct (Rge_dec a b); split; intros; try assumption;
    try reflexivity; try discriminate; contradiction.
Qed.

Lemma Rgeb_true (a b : R) : a >= b -> Rgeb a b = true.
Proof. apply Rgeb_spec. Qed.

Lemma Rgeb_false (a b : R) : a < b -> Rgeb a b = false.
Proof. intros H. unfold Rgeb. destruct (Rge_dec a b); [lra | reflexivity]. Qed.

Lemma Reqb_true (a b : R) : a = b -> Reqb a b = true.
Proof. intros H. unfold Reqb. destruct (Req_dec_T a b); [reflexivity | contradiction]. Qed.

Lemma Reqb_false (a b : R) : a <> b -> Reqb a b = false.
Proof. intros H. unfold Reqb. destruct (Req_dec_T a b); [contradiction | reflexivity]. Qed.

Lemma truediv_ok (a b : R) : b <> 0 -> truediv a b = Returned (a / b).
Proof. intros H. unfold truediv. rewrite Reqb_false by assumption. reflexivity. Qed.

Lemma truediv_zero (a : R) : truediv a 0 = Raised ZeroDivisionError.
Proof. unfold truediv. rewrite Reqb_true by reflexivity. reflexivity. Qed.

Lemma truthy_spec (x : R) : truthy x = true <-> x <> 0.
Proof.
  unfold truthy, Reqb. destruct (Req_dec_T x 0); simpl; split; intros;
    try reflexivity; try assumption; try discriminate; contradiction.
Qed.

Lemma truthy_zero : truthy 0 = false.
Proof. unfold truthy. rewrite Reqb_true by reflexivity. reflexivity. Qed.

Lemma truthy_nonzero (x : R) : x <> 0 -> truthy x = true.
Proof. apply truthy_spec. Qed.

(** [min] and [max] of the prelude are the mathematical ones. *)
Lemma min_Rmin (a b : R) : Py.min a b = Rmin a b.
Proof.
  unfold Py.min, Rmin, Rgtb.
  destruct (Rgt_dec a b), (Rle_dec a b); try reflexivity; lra.
Qed.

Lemma max_Rmax (a b : R) : Py.max a b = Rmax a b.
Proof.
  unfold Py.max, Rmax, Rgtb.
  destruct (Rgt_dec b a), (Rle_dec a b); try reflexivity; lra.
Qed.

(** On a non-negative number [int] is the floor. *)
Lemma int_floor (x : R) : 0 <= x -> Py.int x = Zfloor x.
Proof. intros H. unfold Py.int. rewrite Rgeb_true by lra. reflexivity. Qed.

Lemma int_IZR (z : Z) : Py.int (IZR z) = z.
Proof.
  unfold Py.int. destruct (Rgeb (IZR z) 0).
  - apply ZfloorZ.
  - unfold Zceil. rewrite <- opp_IZR, ZfloorZ. lia.
Qed.

Lemma or_else_nonzero (x : option R) (d : R) : d <> 0 -> or_else x d <> 0.
Proof.
  intros Hd. destruct x as [v |]; simpl; [| assumption].
  destruct (truthy v) eqn:Hv; [apply truthy_spec; assumption | assumption].
Qed.

(** ** Texts *)

Lemma lstrip_head (s : string) :
  match lstrip s with
  | EmptyString => True
  | String c _ => isspace c = false
  end.
Proof.
  induction s as [| c s IH]; simpl; [exact I |].
  destruct (isspace c) eqn:Hc; [exact IH | exact Hc].
Qed.

Lemma rstrip_head (c : ascii) (s : string) :
  isspace c = false -> exists r, rstrip (String c s) = String c r.
Proof.
  intros Hc. simpl. destruct (rstrip s) as [| d r].
  - rewrite Hc. eauto.
  - eauto.
Qed.

Lemma strip_head (s : string) :
  match strip s with
  | EmptyString => True
  | String c _ => isspace c = false
  end.
Proof.
  unfold strip. pose proof (lstrip_head s) as H.
  destruct (lstrip s) as [| c r]; [exact I |].
  destruct (rstrip_head c r H) as [r' Hr]. rewrite Hr. exact H.
Qed.

Lemma before_without (c : ascii) (s : string) :
  contains c s = false -> before c s = s.
Proof.
  induction s as [| d s IH]; intros H; simpl; [reflexivity |].
  simpl in H. apply orb_false_elim in H as [Hd H].
  rewrite Hd, IH by assumption. reflexivity.
Qed.

Lemma before_at (c : ascii) (s : string) :
  startswith c s = true -> before c s = EmptyString.
Proof.
  destruct s as [| d s]; simpl; [reflexivity |]. intros ->. reflexivity.
Qed.

(** Surrounding spaces do not change the words of a text. *)
Lemma split_lstrip (s : string) :
  split (lstrip s) = split s.
Proof.
  unfold split. induction s as [| c s IH]; simpl; [reflexivity |].
  destruct (isspace c) eqn:Hc; [exact IH |].
  simpl. rewrite Hc. reflexivity.
Qed.

Lemma split_from_cons (word : string) (c : ascii) (rest : string) :
  split_from word (String c rest) =
  if isspace c then
    match word with
    | EmptyString => split_from EmptyString rest
    | _ => word :: split_from EmptyString rest
    end
  else split_from (word ++ String c EmptyString) rest.
Proof. reflexivity. Qed.

Lemma split_from_rstrip (s : string) :
  forall word, split_from word (rstrip s) = split_from word s.
Proof.
  induction s as [| c s IH]; intros word; [reflexivity |].
  cbn [rstrip]. destruct (rstrip s) as [| d r] eqn:Hr.
  - rewrite (split_from_cons word c s). destruct (isspace c) eqn:Hc.
    + rewrite <- (IH EmptyString). destruct word; reflexivity.
    + rewrite split_from_cons, Hc. rewrite <- IH. reflexivity.
  - rewrite (split_from_cons word c (String d r)), (split_from_cons word c s).
    rewrite !IH. reflexivity.
Qed.

Lemma split_strip (s : string) :
  split (strip s) = split s.
Proof.
  unfold strip. unfold split at 1. rewrite split_from_rstrip.
  apply split_lstrip.
Qed.

(** The first word of a text that does not start with a space starts
    with the first character of the text. *)
Lemma split_from_head (s : string) :
  forall (c : ascii) (word : string),
    exists word' words, split_from (String c word) s = String c word' :: words.
Proof.
  induction s as [| d s IH]; intros c word; cbn [split_from].
  - eauto.
  - destruct (isspace d); [eauto |]. apply IH.
Qed.

Lemma split_head (c : ascii) (s : string) :
  isspace c = false ->
  exists word words, split (String c s) = String c word :: words.
Proof.
  intros Hc. unfold split. cbn [split_from]. rewrite Hc. apply split_from_head.
Qed.

(** [upper] and the letters that the estimator tests for. *)
Lemma upper_char_E (c : ascii) :
  Ascii.eqb (upper_char c) "E" = Ascii.eqb c "E" || Ascii.eqb c "e".
Proof.
  destruct c as [[|] [|] [|] [|] [|] [|] [|] [|]]; reflexivity.
Qed.

Lemma upper_char_G (c : ascii) :
  Ascii.eqb (upper_char c) "G" = Ascii.eqb c "G" || Ascii.eqb c "g".
Proof.
  destruct c as [[|] [|] [|] [|] [|] [|] [|] [|]]; reflexivity.
Qed.

Lemma upper_char_0 (c : ascii) :
  Ascii.eqb (upper_char c) "0" = Ascii.eqb c "0".
Proof.
  destruct c as [[|] [|] [|] [|] [|] [|] [|] [|]]; reflexivity.
Qed.

Lemma upper_char_1 (c : ascii) :
  Ascii.eqb (upper_char c) "1" = Ascii.eqb c "1".
Proof.
  destruct c as [[|] [|] [|] [|] [|] [|] [|] [|]]; reflexivity.
Qed.

(** The command test of [_parse_line] accepts the four spellings of the
    two move commands. *)
Lemma move_command_upper (word : string) :
  String.eqb (upper word) "G0" || String.eqb (upper word) "G1"
  = Scenario.is_move_command word.
Proof.
  unfold Scenario.is_move_command.
  destruct word as [| c1 [| c2 [| c3 rest]]]; cbn [upper String.eqb];
    rewrite ?upper_char_G, ?upper_char_0, ?upper_char_1;
    try reflexivity;
    destruct (Ascii.eqb c1 "G"), (Ascii.eqb c1 "g");
    try reflexivity;
    destruct (Ascii.eqb c2 "0"), (Ascii.eqb c2 "1"); reflexivity.
Qed.

Lemma move_command_head (c : ascii) (word : string) :
  Scenario.is_move_command (String c word) = true ->
  startswith "G" (String c word) || startswith "g" (String c word) = true.
Proof.
  unfold Scenario.is_move_command. cbn [String.eqb startswith].
  rewrite (Ascii.eqb_sym "G" c), (Ascii.eqb_sym "g" c).
  destruct (Ascii.eqb c "G"), (Ascii.eqb c "g"); simpl;
    try reflexivity; intros H; exact H.
Qed.

(* ===================================================================== *)
(** * The estimator *)
(* ===================================================================== *)

Section Estimator.

Import GCodeParser Scenario Usage.

Variable float : string -> option R.

Lemma positive_part_nonneg (d : R) : 0 <= positive_part d.
Proof.
  unfold positive_part. destruct (Rgtb d 0) eqn:H; [| lra].
  apply Rgtb_spec in H. lra.
Qed.

Lemma positive_part_zero : positive_part 0 = 0.
Proof. unfold positive_part. destruct (Rgtb 0 0); reflexivity. Qed.

Lemma positive_part_retraction (d : R) : d <= 0 -> positive_part d = 0.
Proof. intros H. unfold positive_part. rewrite Rgtb_false by lra. reflexivity. Qed.

(** [_parse_move] once the parameter loop has been run. *)
Lemma _parse_move_eq self parts new_position new_feedrate :
  fold_left (move_token float) (tl parts)
            (current_position self, current_feedrate self)
  = (new_position, new_feedrate) ->
  _parse_move float self parts =
  (total_time' <-
     (if Rgtb (_calculate_distance (current_position self) new_position) 0 then
        q <- truediv (_calculate_distance (current_position self) new_position)
                     new_feedrate ;;
        Returned (total_time self + q * 60)
      else Returned (total_time self)) ;;
   Returned {| total_extrusion :=
                 total_extrusion self
                 + positive_part (posE new_position - posE (current_position self));
               total_time := total_time';
               current_position := new_position;
               current_feedrate := new_feedrate;
               layer_count := layer_count self |}).
Proof.
  intros H. unfold _parse_move. rewrite H. unfold positive_part.
  destruct (Rgtb (posE new_position - posE (current_position self)) 0);
    [reflexivity |].
  rewrite Rplus_0_r. reflexivity.
Qed.

(** The only exception a move can raise is the division by a zero feed
    rate. *)
Lemma _parse_move_raises self parts e :
  _parse_move float self parts = Raised e ->
  e = ZeroDivisionError
  /\ snd (fold_left (move_token float) (tl parts)
                    (current_position self, current_feedrate self)) = 0.
Proof.
  destruct (fold_left (move_token float) (tl parts)
                      (current_position self, current_feedrate self))
    as [new_position new_feedrate] eqn:Hfold.
  rewrite (_parse_move_eq _ _ _ _ Hfold). simpl.
  destruct (Rgtb _ 0); simpl; [| discriminate].
  unfold truediv, Reqb. destruct (Req_dec_T new_feedrate 0); simpl.
  - intros H. injection H as <-. split; [reflexivity | assumption].
  - discriminate.
Qed.

(** What one move does to the extrusion total. *)
Lemma _parse_move_extrusion self parts self' :
  _parse_move float self parts = Returned self' ->
  total_extrusion self' =
  total_extrusion self
  + positive_part (posE (current_position self') - posE (current_position self)).
Proof.
  destruct (fold_left (move_token float) (tl parts)
                      (current_position self, current_feedrate self))
    as [new_position new_feedrate] eqn:Hfold.
  rewrite (_parse_move_eq _ _ _ _ Hfold).
  destruct (Rgtb _ 0); simpl.
  - destruct (truediv _ new_feedrate); simpl; [| discriminate].
    intros H. injection H as <-. reflexivity.
  - intros H. injection H as <-. reflexivity.
Qed.

Lemma _parse_line_raises self line e :
  _parse_line float self line = Raised e -> e = ZeroDivisionError.
Proof.
  unfold _parse_line.
  destruct (is_empty _); [discriminate |].
  destruct (negb _); [discriminate |].
  destruct (split _) as [| part0 parts]; [discriminate |].
  destruct (_ || _); [| discriminate].
  destruct (_parse_move float self (part0 :: parts)) as [self' | e'] eqn:Hmove.
  - simpl. destruct (contains _ _); discriminate.
  - simpl. intros H. injection H as <-.
    apply (_parse_move_raises _ _ _ Hmove).
Qed.

Lemma _parse_line_extrusion self line self' :
  _parse_line float self line = Returned self' ->
  total_extrusion self' =
  total_extrusion self
  + positive_part (posE (current_position self') - posE (current_position self)).
Proof.
  assert (Hsame : total_extrusion self =
                  total_extrusion self
                  + positive_part (posE (current_position self)
                                   - posE (current_position self))).
  { rewrite Rminus_diag, positive_part_zero. lra. }
  unfold _parse_line.
  destruct (is_empty _); [intros H; injection H as <-; exact Hsame |].
  destruct (negb _); [intros H; injection H as <-; exact Hsame |].
  destruct (split _) as [| part0 parts]; [intros H; injection H as <-; exact Hsame |].
  destruct (_ || _); [| intros H; injection H as <-; exact Hsame].
  destruct (_parse_move float self (part0 :: parts)) as [self1 | e'] eqn:Hmove;
    simpl; [| discriminate].
  apply _parse_move_extrusion in Hmove.
  destruct (contains _ _); intros H; injection H as <-; exact Hmove.
Qed.

(** The parse loop on a concatenation. *)
Lemma parse_lines_app self lines1 lines2 :
  parse_lines float self (lines1 ++ lines2) =
  match parse_lines float self lines1 with
  | (self1, None) => parse_lines float self1 lines2
  | (self1, Some e) => (self1, Some e)
  end.
Proof.
  revert self. induction lines1 as [| line rest IH]; intros self; simpl.
  - reflexivity.
  - destruct (negb _ && negb _).
    + destruct (_parse_line float self (strip line)); [apply IH | reflexivity].
    + apply IH.
Qed.

(** One more line: the total grows by the positive part of the E delta. *)
Lemma parse_lines_snoc_extrusion self lines line :
  let a := fst (parse_lines float self lines) in
  let b := fst (parse_lines float self (lines ++ [line])) in
  total_extrusion b =
  total_extrusion a
  + positive_part (posE (current_position b) - posE (current_position a)).
Proof.
  intros a b. subst a b. rewrite parse_lines_app.
  assert (Hsame : forall s, total_extrusion s =
                  total_extrusion s
                  + positive_part (posE (current_position s)
                                   - posE (current_position s))).
  { intros s. rewrite Rminus_diag, positive_part_zero. lra. }
  destruct (parse_lines float self lines) as [s [e |]]; simpl; [apply Hsame |].
  destruct (negb _ && negb _); simpl; [| apply Hsame].
  destruct (_parse_line float s (strip line)) as [s' | e] eqn:Hline; simpl;
    [| apply Hsame].
  apply (_parse_line_extrusion _ _ _ Hline).
Qed.

Lemma firstn_succ {A : Type} (n : nat) (l : list A) :
  firstn (S n) l = firstn n l \/ exists x, firstn (S n) l = firstn n l ++ [x].
Proof.
  revert l. induction n as [| n IH]; intros [| a l].
  - left. reflexivity.
  - right. exists a. reflexivity.
  - left. reflexivity.
  - destruct (IH l) as [H | [x H]].
    + left. simpl in *. rewrite H. reflexivity.
    + right. exists x. simpl in *. rewrite H. reflexivity.
Qed.

Lemma after_succ_extrusion lines k :
  total_extrusion (after float lines (S k)) =
  total_extrusion (after float lines k)
  + positive_part (E_after float lines (S k) - E_after float lines k).
Proof.
  unfold E_after, after.
  destruct (firstn_succ k lines) as [H | [x H]]; rewrite H.
  - rewrite Rminus_diag, positive_part_zero. lra.
  - apply parse_lines_snoc_extrusion.
Qed.

Lemma after_extrusion_sum lines n :
  total_extrusion (after float lines n) =
  sum_positive_deltas (E_after float lines) n.
Proof.
  induction n as [| n IH].
  - reflexivity.
  - rewrite after_succ_extrusion, IH. reflexivity.
Qed.

(** ** The E coordinate of the cursor is the one that the words ask for *)

Lemma move_token_E (pos : Position) (f : R) (part : string) :
  posE (fst (move_token float (pos, f) part)) =
  match E_word float part with
  | Some v => v
  | None => posE pos
  end.
Proof.
  destruct part as [| c [| d rest]]; try reflexivity.
  unfold move_token, E_word.
  change (String.length (String c (String d rest)) <? 2)%nat with false.
  cbv iota zeta. rewrite <- upper_char_E.
  destruct (Ascii.eqb (upper_char c) "X") eqn:HX.
  { apply Ascii.eqb_eq in HX. rewrite HX. simpl.
    destruct (float (String d rest)); reflexivity. }
  destruct (Ascii.eqb (upper_char c) "Y") eqn:HY.
  { apply Ascii.eqb_eq in HY. rewrite HY. simpl.
    destruct (float (String d rest)); reflexivity. }
  destruct (Ascii.eqb (upper_char c) "Z") eqn:HZ.
  { apply Ascii.eqb_eq in HZ. rewrite HZ. simpl.
    destruct (float (String d rest)); reflexivity. }
  destruct (Ascii.eqb (upper_char c) "E") eqn:HE; cbn [orb].
  { destruct (float (String d rest)); [| reflexivity].
    unfold setitem. rewrite HX, HY, HZ. reflexivity. }
  destruct (Ascii.eqb (upper_char c) "F"); [| reflexivity].
  destruct (float (String d rest)); reflexivity.
Qed.

Lemma fold_move_token_E (words : list string) :
  forall (pos : Position) (f : R),
    posE (fst (fold_left (move_token float) words (pos, f)))
    = E_of_words float words (posE pos).
Proof.
  unfold E_of_words.
  induction words as [| word words IH]; intros pos f; cbn [fold_left];
    [reflexivity |].
  pose proof (move_token_E pos f word) as H.
  destruct (move_token float (pos, f) word) as [pos' f'].
  rewrite IH. simpl in H. rewrite H. reflexivity.
Qed.

Lemma _parse_move_E (self self' : t) (parts : list string) :
  _parse_move float self parts = Returned self' ->
  posE (current_position self')
  = E_of_words float (tl parts) (posE (current_position self)).
Proof.
  pose proof (fold_move_token_E (tl parts) (current_position self)
                (current_feedrate self)) as HE.
  destruct (fold_left (move_token float) (tl parts)
                      (current_position self, current_feedrate self))
    as [new_position new_feedrate] eqn:Hfold.
  rewrite (_parse_move_eq _ _ _ _ Hfold). simpl in HE.
  destruct (Rgtb _ 0); simpl.
  - destruct (truediv _ new_feedrate); simpl; [| discriminate].
    intros H. injection H as <-. exact HE.
  - intros H. injection H as <-. exact HE.
Qed.

(** The text that [_parse_line] splits has the words of the line. *)
Lemma clean_line_words (line : string) :
  split (clean_line (strip line)) = words_of line.
Proof.
  unfold clean_line, words_of.
  destruct (contains ";" (strip line)) eqn:H.
  - apply split_strip.
  - rewrite before_without by assumption. reflexivity.
Qed.

Lemma clean_line_stripped (line : string) :
  match clean_line (strip line) with
  | EmptyString => True
  | String c _ => isspace c = false
  end.
Proof.
  unfold clean_line. destruct (contains ";" (strip line)); apply strip_head.
Qed.

Lemma _parse_line_E (self self' : t) (line : string) :
  _parse_line float self (strip line) = Returned self' ->
  posE (current_position self')
  = E_of_line float line (posE (current_position self)).
Proof.
  unfold _parse_line, E_of_line. fold (clean_line (strip line)).
  rewrite <- clean_line_words.
  pose proof (clean_line_stripped line) as Hhead.
  destruct (clean_line (strip line)) as [| c text] eqn:Hclean.
  { intros H. injection H as <-. reflexivity. }
  destruct (split_head c text Hhead) as (word & words & Hsplit).
  rewrite Hsplit. cbn [is_empty]. rewrite move_command_upper.
  destruct (is_move_command (String c word)) eqn:Hcommand.
  - change (startswith "G" (String c text) || startswith "g" (String c text))
      with (startswith "G" (String c word) || startswith "g" (String c word)).
    rewrite (move_command_head c word Hcommand). cbn [negb].
    destruct (_parse_move float self (String c word :: words))
      as [self1 | e] eqn:Hmove; cbn [bind]; [| discriminate].
    apply _parse_move_E in Hmove.
    destruct (contains "Z" _); intros H; injection H as <-; exact Hmove.
  - destruct (negb _); intros H; injection H as <-; reflexivity.
Qed.

(** A line that the loop of [parse_file] skips has no words. *)
Lemma _parse_line_skipped (self : t) (text : string) :
  negb (is_empty text) && negb (startswith ";" text) = false ->
  _parse_line float self text = Returned self.
Proof.
  destruct text as [| c text]; [reflexivity |].
  cbn [is_empty startswith negb andb]. intros H.
  apply negb_false_iff in H.
  unfold _parse_line. cbn [contains before]. rewrite H. reflexivity.
Qed.

Lemma parse_lines_E (lines : list string) :
  forall self self',
    parse_lines float self lines = (self', None) ->
    posE (current_position self')
    = E_of_lines float lines (posE (current_position self))
    /\ total_extrusion self'
       = total_extrusion self
         + extrusion_of_lines float lines (posE (current_position self)).
Proof.
  unfold E_of_lines.
  induction lines as [| line rest IH]; intros self self'.
  - simpl. intros H. injection H as <-. split; [reflexivity | lra].
  - cbn [parse_lines fold_left extrusion_of_lines].
    destruct (negb (is_empty (strip line)) && negb (startswith ";" (strip line)))
      eqn:Htest.
    + destruct (_parse_line float self (strip line)) as [self1 | e] eqn:Hline;
        [| discriminate].
      intros Hrest. destruct (IH _ _ Hrest) as [HE Htotal].
      rewrite <- (_parse_line_E _ _ _ Hline).
      split; [exact HE |].
      rewrite Htotal, (_parse_line_extrusion _ _ _ Hline). lra.
    + pose proof (_parse_line_E _ _ _ (_parse_line_skipped self _ Htest)) as Hsame.
      intros Hrest. destruct (IH _ _ Hrest) as [HE Htotal].
      rewrite <- Hsame. split; [exact HE |].
      rewrite Htotal, Rminus_diag, positive_part_zero. lra.
Qed.

Lemma firstn_succ_nth {A : Type} (l : list A) :
  forall (k : nat) (x : A),
    nth_error l k = Some x -> firstn (S k) l = (firstn k l ++ [x])%list.
Proof.
  induction l as [| a l IH]; intros [| k] x H; try discriminate.
  - injection H as <-. reflexivity.
  - cbn [nth_error] in H. specialize (IH k x H).
    change (firstn (S (S k)) (a :: l)) with (a :: firstn (S k) l).
    rewrite IH. reflexivity.
Qed.

Lemma after_succ_E (lines : list string) (k : nat) (line : string) :
  nth_error lines k = Some line ->
  snd (parse_lines float reset (firstn (S k) lines)) = None ->
  E_after float lines (S k) = E_of_line float line (E_after float lines k).
Proof.
  intros Hnth. unfold E_after, after.
  rewrite (firstn_succ_nth lines k line Hnth), parse_lines_app.
  destruct (parse_lines float reset (firstn k lines)) as [self [e |]];
    [discriminate |].
  destruct (parse_lines float self [line]) as [self' [e |]] eqn:Hline;
    [discriminate |].
  intros _. cbn [fst]. apply parse_lines_E in Hline as [HE _]. exact HE.
Qed.

(** C2. The E coordinate that a move leaves is the value of the last E
    word among its parameter words (the previous E when there is none),
    and the move adds the positive part of the change to
    [total_extrusion].  After any sequence of lines consumed from a reset
    estimator, the E coordinate after each line is the one that the words
    of the line ask for, and [total_extrusion] is the sum of the positive
    parts of the per-line E deltas (new E minus previous E), which for a
    sequence consumed without an exception is the extrusion read from the
    text of the lines; each line adds the positive part of its delta, so
    a retraction adds nothing and [total_extrusion] never decreases along
    the sequence. *)
Theorem total_extrusion_sum_of_positive_deltas (lines : list string) :
  (forall self parts self',
      _parse_move float self parts = Returned self' ->
      posE (current_position self')
      = E_of_words float (tl parts) (posE (current_position self))
      /\ total_extrusion self'
         = total_extrusion self
           + positive_part (E_of_words float (tl parts)
                                       (posE (current_position self))
                            - posE (current_position self)))
  /\ (forall k line,
        nth_error lines k = Some line ->
        snd (parse_lines float reset (firstn (S k) lines)) = None ->
        E_after float lines (S k) = E_of_line float line (E_after float lines k))
  /\ (snd (parse_lines float reset lines) = None ->
      total_extrusion (fst (parse_lines float reset lines))
      = extrusion_of_lines float lines 0
      /\ posE (current_position (fst (parse_lines float reset lines)))
         = E_of_lines float lines 0)
  /\ total_extrusion (fst (parse_lines float reset lines)) =
     sum_positive_deltas (E_after float lines) (List.length lines)
  /\ (forall k,
        total_extrusion (after float lines (S k)) =
        total_extrusion (after float lines k)
        + positive_part (E_after float lines (S k) - E_after float lines k))
  /\ (forall k,
        E_after float lines (S k) - E_after float lines k <= 0 ->
        total_extrusion (after float lines (S k)) =
        total_extrusion (after float lines k))
  /\ (forall k,
        total_extrusion (after float lines k) <=
        total_extrusion (after float lines (S k))).
Proof.
  split; [| split; [| split; [| split; [| split; [| split]]]]].
  - intros self parts self' H.
    rewrite <- (_parse_move_E _ _ _ H).
    split; [reflexivity | apply (_parse_move_extrusion _ _ _ H)].
  - apply after_succ_E.
  - destruct (parse_lines float reset lines) as [self' [e |]] eqn:Hrun;
      [discriminate |].
    intros _. apply parse_lines_E in Hrun as [HE Htotal].
    cbn [fst]. split; [rewrite Htotal; simpl; lra | exact HE].
  - rewrite <- after_extrusion_sum. unfold after. rewrite firstn_all. reflexivity.
  - apply after_succ_extrusion.
  - intros k H. rewrite after_succ_extrusion.
    rewrite positive_part_retraction by assumption. lra.
  - intros k. rewrite after_succ_extrusion.
    pose proof (positive_part_nonneg
                  (E_after float lines (S k) - E_after float lines k)). lra.
Qed.

End Estimator.

(* ===================================================================== *)
(** * The estimator on concrete G-code *)
(* ===================================================================== *)

Section EstimatorRuns.

Import GCodeParser Scenario.

Local Open Scope string_scope.

Lemma distance_along_X (x0 x1 y z e0 e1 : R) :
  x0 <= x1 ->
  _calculate_distance (mkPosition x0 y z e0) (mkPosition x1 y z e1) = x1 - x0.
Proof.
  intros H. unfold _calculate_distance. simpl.
  replace ((x1 - x0) * (x1 - x0) + (y - y) * (y - y) + (z - z) * (z - z))
    with (Rsqr (x1 - x0)) by (unfold Rsqr; ring).
  apply sqrt_Rsqr. lra.
Qed.

Lemma distance_along_Y (x y0 y1 z e0 e1 : R) :
  y0 <= y1 ->
  _calculate_distance (mkPosition x y0 z e0) (mkPosition x y1 z e1) = y1 - y0.
Proof.
  intros H. unfold _calculate_distance. simpl.
  replace ((x - x) * (x - x) + (y1 - y0) * (y1 - y0) + (z - z) * (z - z))
    with (Rsqr (y1 - y0)) by (unfold Rsqr; ring).
  apply sqrt_Rsqr. lra.
Qed.

Lemma scenario_A_tokens_1 :
  fold_left (move_token py_float) (tl (split "G1 X10 Y0 Z0 E5 F1200"))
            (current_position reset, current_feedrate reset)
  = (mkPosition 10 0 0 5, 1200).
Proof.
  unfold split. simpl. unfold setitem, upper_char. simpl.
  repeat f_equal; lra.
Qed.

Lemma scenario_A_tokens_2 :
  fold_left (move_token py_float) (tl (split "G1 X10 Y10 Z0 E5"))
            (current_position after_line_1, current_feedrate after_line_1)
  = (mkPosition 10 10 0 5, 1200).
Proof.
  unfold split. simpl. unfold setitem, upper_char. simpl.
  repeat f_equal; lra.
Qed.

Lemma scenario_A_line_1 :
  _parse_line py_float reset "G1 X10 Y0 Z0 E5 F1200" = Returned after_line_1.
Proof.
  unfold _parse_line. simpl.
  rewrite (_parse_move_eq _ _ _ _ _ scenario_A_tokens_1).
  change (current_position reset) with (mkPosition 0 0 0 0).
  rewrite distance_along_X by lra.
  rewrite Rgtb_true by lra. rewrite truediv_ok by lra.
  simpl. unfold incr_layer_count, after_line_1, positive_part. simpl.
  rewrite Rgtb_true by lra.
  f_equal. f_equal; lra.
Qed.

Lemma scenario_A_line_2 :
  _parse_line py_float after_line_1 "G1 X10 Y10 Z0 E5" = Returned after_line_2.
Proof.
  unfold _parse_line. simpl.
  rewrite (_parse_move_eq _ _ _ _ _ scenario_A_tokens_2).
  change (current_position after_line_1) with (mkPosition 10 0 0 5).
  rewrite distance_along_Y by lra.
  rewrite Rgtb_true by lra. rewrite truediv_ok by lra.
  simpl. unfold incr_layer_count, after_line_2, positive_part. simpl.
  rewrite Rgtb_false by lra.
  f_equal. f_equal; lra.
Qed.

Lemma scenario_A_run :
  parse_lines py_float reset scenario_A = (after_line_2, None).
Proof.
  unfold scenario_A. cbn [parse_lines].
  change (strip "G1 X10 Y0 Z0 E5 F1200") with "G1 X10 Y0 Z0 E5 F1200".
  change (strip "G1 X10 Y10 Z0 E5") with "G1 X10 Y10 Z0 E5".
  rewrite scenario_A_line_1. cbn [is_empty startswith negb andb Ascii.eqb Bool.eqb].
  rewrite scenario_A_line_2. reflexivity.
Qed.

(** C1, as stated, fails: the two lines of scenario A do not leave an
    extrusion of 10 units and a layer count of 0. *)
Lemma scenario_A_not_as_stated :
  let estimator := fst (parse_lines py_float reset scenario_A) in
  ~ (total_extrusion estimator = 10
     /\ total_time estimator = 10 / 1200 * 60 + 10 / 1200 * 60
     /\ layer_count estimator = 0%N).
Proof.
  rewrite scenario_A_run. simpl. intros (H & _ & _). lra.
Qed.

(** C1, amended. A fresh estimator fed the two lines of scenario A ends,
    without an exception, with an extrusion of 5 units (the E words are
    absolute and the second line restates E5), a total time of
    distance/1200*60 + distance/1200*60 seconds where both distances are
    10 (the feed rate 1200 of the first line persists), and a layer count
    of 2 (each line carries a Z word). *)
Theorem scenario_A_totals :
  let run := parse_lines py_float reset scenario_A in
  let estimator := fst run in
  let first := mkPosition 10 0 0 5 in
  let second := mkPosition 10 10 0 5 in
  snd run = None
  /\ total_extrusion estimator = 5
  /\ total_time estimator =
       _calculate_distance (current_position reset) first / 1200 * 60
       + _calculate_distance first second / 1200 * 60
  /\ _calculate_distance (current_position reset) first = 10
  /\ _calculate_distance first second = 10
  /\ _parse_line py_float reset "G1 X10 Y0 Z0 E5 F1200" = Returned after_line_1
  /\ current_feedrate after_line_1 = 1200
  /\ current_feedrate estimator = 1200
  /\ current_position estimator = second
  /\ layer_count estimator = 2%N.
Proof.
  rewrite scenario_A_run. simpl.
  change (current_position reset) with (mkPosition 0 0 0 0).
  rewrite distance_along_X, distance_along_Y by lra.
  repeat split; try reflexivity; try lra.
  apply scenario_A_line_1.
Qed.

Lemma zero_feed_tokens :
  fold_left (move_token py_float) (tl (split zero_feed_line))
            (current_position reset, current_feedrate reset)
  = (mkPosition 10 0 0 0, 0).
Proof.
  unfold zero_feed_line, split. simpl. unfold setitem, upper_char. simpl.
  repeat f_equal; lra.
Qed.

Lemma zero_feed_line_raise :
  _parse_line py_float reset zero_feed_line = Raised ZeroDivisionError.
Proof.
  unfold _parse_line. simpl.
  rewrite (_parse_move_eq _ _ _ _ _ zero_feed_tokens).
  change (current_position reset) with (mkPosition 0 0 0 0).
  rewrite distance_along_X by lra.
  rewrite Rgtb_true by lra. rewrite truediv_zero. reflexivity.
Qed.

Lemma zero_feed_file_loop :
  parse_lines py_float reset [zero_feed_line] = (reset, Some ZeroDivisionError).
Proof.
  unfold parse_lines.
  change (strip zero_feed_line) with zero_feed_line.
  rewrite zero_feed_line_raise. reflexivity.
Qed.

Lemma zero_feed_file_fails :
  snd (parse_file py_float (Some [zero_feed_line])) = None.
Proof. unfold parse_file. rewrite zero_feed_file_loop. reflexivity. Qed.

(** C9 at its failing input: a motion line with a displacement and the
    feed rate word F0 raises [ZeroDivisionError]; the parse loop is left
    and [parse_file] gives no result. *)
Theorem zero_feed_line_raises :
  _parse_line py_float reset zero_feed_line = Raised ZeroDivisionError
  /\ parse_lines py_float reset [zero_feed_line] = (reset, Some ZeroDivisionError)
  /\ snd (parse_file py_float (Some [zero_feed_line])) = None.
Proof.
  split; [exact zero_feed_line_raise |].
  split; [exact zero_feed_file_loop | exact zero_feed_file_fails].
Qed.

(** ** A file with a retraction *)

Lemma distance_in_place (x y z e0 e1 : R) :
  _calculate_distance (mkPosition x y z e0) (mkPosition x y z e1) = 0.
Proof.
  unfold _calculate_distance. simpl.
  replace ((x - x) * (x - x) + (y - y) * (y - y) + (z - z) * (z - z))
    with 0 by ring.
  apply sqrt_0.
Qed.

Lemma extruding_tokens (word : string) (e e' total : R) :
  E_word py_float word = Some e' ->
  fold_left (move_token py_float) [word]
            (current_position (after_extruding e total),
             current_feedrate (after_extruding e total))
  = (mkPosition 0 0 0 e', 1500).
Proof.
  destruct word as [| c [| d rest]]; try discriminate.
  unfold E_word. rewrite <- upper_char_E.
  destruct (Ascii.eqb (upper_char c) "E") eqn:HE; [| discriminate].
  intros Hfloat. apply Ascii.eqb_eq in HE.
  cbn [fold_left]. unfold move_token.
  change (String.length (String c (String d rest)) <? 2)%nat with false.
  cbv iota zeta. rewrite HE, Hfloat. reflexivity.
Qed.

Lemma extruding_move (command word : string) (e e' total : R) :
  E_word py_float word = Some e' ->
  _parse_move py_float (after_extruding e total) [command; word]
  = Returned (after_extruding e' (total + positive_part (e' - e))).
Proof.
  intros Hword.
  rewrite (_parse_move_eq py_float (after_extruding e total) [command; word]
             _ _ (extruding_tokens word e e' total Hword)).
  change (current_position (after_extruding e total)) with (mkPosition 0 0 0 e).
  rewrite distance_in_place, Rgtb_false by lra. reflexivity.
Qed.

Lemma retraction_run :
  parse_lines py_float reset retraction_file = (after_extruding 4 6, None).
Proof.
  assert (H5 : E_word py_float "E5" = Some 5)
    by (simpl; unfold py_float; simpl; f_equal; lra).
  assert (H3 : E_word py_float "e3" = Some 3)
    by (simpl; unfold py_float; simpl; f_equal; lra).
  assert (H4 : E_word py_float "E4" = Some 4)
    by (simpl; unfold py_float; simpl; f_equal; lra).
  assert (Hline1 : _parse_line py_float (after_extruding 0 0) "G1 E5"
                   = Returned (after_extruding 5 5)).
  { unfold _parse_line. simpl. change (split "G1 E5") with ["G1"; "E5"].
    rewrite (extruding_move "G1" "E5" 0 5 0 H5).
    simpl. unfold positive_part. rewrite Rgtb_true by lra.
    do 2 f_equal. lra. }
  assert (Hline2 : _parse_line py_float (after_extruding 5 5) "g1 e3 ; retract"
                   = Returned (after_extruding 3 5)).
  { unfold _parse_line. simpl. change (split (strip "g1 e3 ")) with ["g1"; "e3"].
    rewrite (extruding_move "g1" "e3" 5 3 5 H3).
    simpl. unfold positive_part. rewrite Rgtb_false by lra.
    do 2 f_equal. lra. }
  assert (Hline3 : _parse_line py_float (after_extruding 3 5) "G1 E4"
                   = Returned (after_extruding 4 6)).
  { unfold _parse_line. simpl. change (split "G1 E4") with ["G1"; "E4"].
    rewrite (extruding_move "G1" "E4" 3 4 5 H4).
    simpl. unfold positive_part. rewrite Rgtb_true by lra.
    do 2 f_equal. lra. }
  unfold retraction_file. cbn [parse_lines].
  change (strip "G1 E5") with "G1 E5".
  change (strip "g1 e3 ; retract") with "g1 e3 ; retract".
  change (strip "G1 E4") with "G1 E4".
  change reset with (after_extruding 0 0).
  cbn [is_empty startswith negb andb Ascii.eqb Bool.eqb].
  rewrite Hline1, Hline2, Hline3. reflexivity.
Qed.

Lemma retraction_text :
  extrusion_of_lines py_float retraction_file 0 = 6.
Proof.
  assert (H1 : forall e, E_of_line py_float "G1 E5" e = 5)
    by (intros e; unfold E_of_line, words_of; simpl; unfold py_float; simpl; lra).
  assert (H2 : forall e, E_of_line py_float "g1 e3 ; retract" e = 3)
    by (intros e; unfold E_of_line, words_of; simpl; unfold py_float; simpl; lra).
  assert (H3 : forall e, E_of_line py_float "G1 E4" e = 4)
    by (intros e; unfold E_of_line, words_of; simpl; unfold py_float; simpl; lra).
  unfold retraction_file. cbn [extrusion_of_lines].
  rewrite !H1, !H2, !H3. unfold positive_part.
  rewrite (Rgtb_true (5 - 0)), (Rgtb_false (3 - 5)), (Rgtb_true (4 - 3)) by lra.
  lra.
Qed.

Lemma total_extrusion_sum_of_positive_deltas_witness :
  snd (parse_lines py_float reset retraction_file) = None
  /\ total_extrusion (fst (parse_lines py_float reset retraction_file))
     = extrusion_of_lines py_float retraction_file 0
  /\ extrusion_of_lines py_float retraction_file 0 = 6.
Proof.
  assert (H : snd (parse_lines py_float reset retraction_file) = None)
    by (rewrite retraction_run; reflexivity).
  split; [exact H |].
  split; [| exact retraction_text].
  destruct (total_extrusion_sum_of_positive_deltas py_float retraction_file)
    as (_ & _ & Htext & _).
  exact (proj1 (Htext H)).
Defined.

End EstimatorRuns.

(* ===================================================================== *)
(** * Weight of the extruded filament *)
(* ===================================================================== *)

Section MaterialWeight.

Import GCodeParser.

Lemma weight_formula (L d rho : R) :
  calculate_material_weight L d rho = PI * (d / 2) ^ 2 * L / 1000 * rho.
Proof. reflexivity. Qed.

(** The weight is the length times the density times a factor that is
    positive for a non-zero diameter. *)
Lemma weight_factor (L d rho : R) :
  calculate_material_weight L d rho = (PI * (d / 2) ^ 2 / 1000) * (L * rho).
Proof. unfold calculate_material_weight. field. Qed.

Lemma weight_factor_pos (d : R) : 0 < d -> 0 < PI * (d / 2) ^ 2 / 1000.
Proof.
  intros Hd. pose proof PI_RGT_0 as Hpi.
  assert (0 < (d / 2) ^ 2) by (apply pow_lt; lra).
  apply Rdiv_lt_0_compat; [| lra].
  apply Rmult_lt_0_compat; assumption.
Qed.

(** C8, as stated, fails: with a positive diameter and a negative
    density a longer extrusion weighs less. *)
Lemma weight_not_monotone_for_negative_density :
  ~ (0 < 2 -> 0 <= 1000 ->
     calculate_material_weight 0 2 (-1) <= calculate_material_weight 1000 2 (-1)).
Proof.
  intros H. specialize (H ltac:(lra) ltac:(lra)).
  rewrite !weight_factor in H.
  pose proof (weight_factor_pos 2 ltac:(lra)) as Hpos.
  nra.
Qed.

(** C8, amended. [calculate_material_weight L d rho] is
    pi * (d/2)^2 * L / 1000 * rho, a function of its three arguments
    only, and is 0 for L = 0.  For a positive diameter it is
    non-decreasing in L when the density is non-negative (increasing when
    the density is positive) and non-decreasing in the density when L is
    non-negative (increasing when L is positive). *)
Theorem weight_formula_and_monotonicity :
  (forall L d rho,
     calculate_material_weight L d rho = PI * (d / 2) ^ 2 * L / 1000 * rho)
  /\ (forall d rho, calculate_material_weight 0 d rho = 0)
  /\ (forall L1 L2 d rho, 0 < d -> 0 <= rho -> L1 <= L2 ->
        calculate_material_weight L1 d rho <= calculate_material_weight L2 d rho)
  /\ (forall L1 L2 d rho, 0 < d -> 0 < rho -> L1 < L2 ->
        calculate_material_weight L1 d rho < calculate_material_weight L2 d rho)
  /\ (forall L d rho1 rho2, 0 < d -> 0 <= L -> rho1 <= rho2 ->
        calculate_material_weight L d rho1 <= calculate_material_weight L d rho2)
  /\ (forall L d rho1 rho2, 0 < d -> 0 < L -> rho1 < rho2 ->
        calculate_material_weight L d rho1 < calculate_material_weight L d rho2).
Proof.
  split; [exact weight_formula |].
  split; [intros d rho; rewrite weight_factor; ring |].
  repeat split; intros; rewrite !weight_factor;
    pose proof (weight_factor_pos d ltac:(assumption)) as Hpos.
  - apply Rmult_le_compat_l; [lra | nra].
  - apply Rmult_lt_compat_l; [lra | nra].
  - apply Rmult_le_compat_l; [lra | nra].
  - apply Rmult_lt_compat_l; [lra | nra].
Qed.

Lemma weight_formula_and_monotonicity_witness :
  (0 < 1.75 /\ 0 < 1.24 /\ 100 < 200 /\ 0 < 100 /\ 1 < 1.24)
  /\ calculate_material_weight 100 1.75 1.24 <= calculate_material_weight 200 1.75 1.24
  /\ calculate_material_weight 100 1.75 1.24 < calculate_material_weight 200 1.75 1.24
  /\ calculate_material_weight 100 1.75 1 <= calculate_material_weight 100 1.75 1.24
  /\ calculate_material_weight 100 1.75 1 < calculate_material_weight 100 1.75 1.24.
Proof.
  split; [lra |].
  destruct weight_formula_and_monotonicity as (_ & _ & H1 & H2 & H3 & H4).
  split; [apply H1; lra |].
  split; [apply H2; lra |].
  split; [apply H3; lra | apply H4; lra].
Defined.

End MaterialWeight.

(* ===================================================================== *)
(** * The printer execution model *)
(* ===================================================================== *)

Section Printer.

Import PrinterController Scenario.

(** ** [start_print] *)

Lemma _heat_up_frame (p : t) :
  _heat_up p =
  {| is_printing := is_printing p;
     current_job_id := current_job_id p;
     print_start_time := print_start_time p;
     estimated_duration := estimated_duration p;
     total_layers := total_layers p;
     current_layer := current_layer p;
     estimated_material := estimated_material p;
     used_material := used_material p;
     nozzle_temp := 210;
     bed_temp := 60;
     target_nozzle_temp := 210;
     target_bed_temp := 60 |}.
Proof. reflexivity. Qed.

Lemma start_print_eq (p : t) now job_id minutes grams layers :
  start_print p now job_id minutes grams layers =
  {| is_printing := true;
     current_job_id := job_id;
     print_start_time := Some now;
     estimated_duration := minutes * 60 / 3;
     total_layers := layers;
     current_layer := 0%Z;
     estimated_material := grams;
     used_material := 0;
     nozzle_temp := 210;
     bed_temp := 60;
     target_nozzle_temp := 210;
     target_bed_temp := 60 |}.
Proof. reflexivity. Qed.

Lemma init_started : started init.
Proof. unfold started. simpl. discriminate. Qed.

Lemma start_print_started (p : t) now job_id minutes grams layers :
  started (start_print p now job_id minutes grams layers).
Proof. unfold started. rewrite start_print_eq. simpl. discriminate. Qed.

Lemma stop_print_started (p : t) : started (snd (stop_print p)).
Proof. unfold started. simpl. discriminate. Qed.

(** ** [get_status] *)

Lemma get_status_idle (p : t) now :
  is_printing p = false -> get_status p now = Returned (idle_status, p).
Proof. intros H. unfold get_status. rewrite H. reflexivity. Qed.

Lemma get_status_not_started (p : t) now :
  is_printing p = true -> print_start_time p = None ->
  get_status p now = Raised TypeError.
Proof. intros H1 H2. unfold get_status. rewrite H1, H2. reflexivity. Qed.

Lemma get_status_printing (p : t) now start :
  is_printing p = true -> print_start_time p = Some start ->
  let progress := progress_of p (now - start) in
  let layer := Py.int (progress / 100 * IZR (Z.of_N (total_layers p))) in
  let material := progress / 100 * estimated_material p in
  get_status p now =
  Returned
    ({| st_is_printing := true;
        st_progress := progress;
        st_elapsed_time := now - start;
        st_remaining_time := Py.max (estimated_duration p - (now - start)) 0;
        st_current_layer := layer;
        st_total_layers := total_layers p;
        st_nozzle_temp := Some (nozzle_temp p);
        st_bed_temp := Some (bed_temp p);
        st_used_material := Some material |},
     set_progress p layer material).
Proof.
  intros H1 H2. unfold get_status, progress_of. rewrite H1, H2. simpl.
  destruct (Rgtb (estimated_duration p) 0) eqn:Hd.
  - apply Rgtb_spec in Hd. rewrite truediv_ok by lra. reflexivity.
  - reflexivity.
Qed.

Lemma get_status_started (p : t) now :
  started p -> exists st p', get_status p now = Returned (st, p').
Proof.
  intros H. destruct (is_printing p) eqn:Hp.
  - destruct (print_start_time p) as [start |] eqn:Hs.
    + rewrite (get_status_printing p now start Hp Hs). eauto.
    + exfalso. apply (H Hp). assumption.
  - rewrite get_status_idle by assumption. eauto.
Qed.

Lemma progress_of_range (p : t) elapsed :
  0 <= elapsed -> 0 <= progress_of p elapsed <= 100.
Proof.
  intros He. unfold progress_of.
  destruct (Rgtb (estimated_duration p) 0) eqn:Hd; [| lra].
  apply Rgtb_spec in Hd. rewrite min_Rmin.
  assert (0 <= elapsed / estimated_duration p * 100).
  { apply Rmult_le_pos; [| lra]. unfold Rdiv.
    apply Rmult_le_pos; [lra |]. left. apply Rinv_0_lt_compat. lra. }
  split; [apply Rmin_glb; lra | apply Rmin_r].
Qed.

Lemma progress_of_done (p : t) elapsed :
  0 < estimated_duration p -> elapsed >= estimated_duration p ->
  progress_of p elapsed = 100.
Proof.
  intros Hd He. unfold progress_of. rewrite Rgtb_true by lra.
  rewrite min_Rmin. apply Rmin_right.
  assert (1 <= elapsed / estimated_duration p); [| lra].
  apply Rmult_le_reg_r with (estimated_duration p); [lra |].
  unfold Rdiv. rewrite Rmult_assoc, Rinv_l by lra. lra.
Qed.

Lemma progress_of_done_inv (p : t) elapsed :
  0 < estimated_duration p -> progress_of p elapsed >= 100 ->
  elapsed >= estimated_duration p.
Proof.
  intros Hd H. unfold progress_of in H. rewrite Rgtb_true in H by lra.
  rewrite min_Rmin in H.
  pose proof (Rmin_l (elapsed / estimated_duration p * 100) 100) as Hl.
  assert (Hq : 1 <= elapsed / estimated_duration p) by lra.
  apply Rmult_le_compat_r with (r := estimated_duration p) in Hq; [| lra].
  unfold Rdiv in Hq. rewrite Rmult_assoc, Rinv_l, Rmult_1_r in Hq by lra. lra.
Qed.

(** C3. While a print is executing with a positive estimated duration,
    the snapshot taken [elapsed] seconds after the start has
    progress = min(elapsed/estimated_duration*100, 100), never above 100,
    current_layer = int(progress/100 * total_layers), which is the floor
    for elapsed >= 0, used_material = progress/100 * estimated_material
    and remaining = max(estimated_duration - elapsed, 0); at elapsed = 0
    progress and current_layer are 0, and from elapsed =
    estimated_duration on progress is exactly 100 and current_layer is
    total_layers. *)
Theorem get_status_while_printing (p : t) (start now : R) :
  is_printing p = true ->
  print_start_time p = Some start ->
  0 < estimated_duration p ->
  let elapsed := now - start in
  exists st p',
    get_status p now = Returned (st, p')
    /\ st_elapsed_time st = elapsed
    /\ st_progress st = Rmin (elapsed / estimated_duration p * 100) 100
    /\ st_progress st <= 100
    /\ st_current_layer st =
         Py.int (st_progress st / 100 * IZR (Z.of_N (total_layers p)))
    /\ (0 <= elapsed ->
        st_current_layer st =
          Zfloor (st_progress st / 100 * IZR (Z.of_N (total_layers p))))
    /\ st_used_material st = Some (st_progress st / 100 * estimated_material p)
    /\ st_remaining_time st = Rmax (estimated_duration p - elapsed) 0
    /\ (elapsed = 0 -> st_progress st = 0 /\ st_current_layer st = 0%Z)
    /\ (elapsed >= estimated_duration p ->
        st_progress st = 100 /\ st_current_layer st = Z.of_N (total_layers p)).
Proof.
  intros Hp Hs Hd elapsed.
  pose proof (get_status_printing p now start Hp Hs) as H. simpl in H.
  fold elapsed in H.
  eexists. eexists. split; [exact H |]. simpl.
  assert (Hprog : progress_of p elapsed
                  = Rmin (elapsed / estimated_duration p * 100) 100).
  { unfold progress_of. rewrite Rgtb_true by lra. apply min_Rmin. }
  split; [reflexivity |].
  split; [exact Hprog |].
  split; [rewrite Hprog; apply Rmin_r |].
  split; [reflexivity |].
  split.
  { intros He. apply int_floor.
    pose proof (progress_of_range p elapsed He) as [H0 _].
    apply Rmult_le_pos; [lra |]. apply IZR_le. lia. }
  split; [reflexivity |].
  split; [apply max_Rmax |].
  split.
  - intros He. assert (H0 : progress_of p elapsed = 0).
    { rewrite Hprog, He. unfold Rdiv. rewrite !Rmult_0_l.
      apply Rmin_left. lra. }
    rewrite H0. split; [reflexivity |].
    replace (0 / 100 * IZR (Z.of_N (total_layers p))) with (IZR 0) by lra.
    apply int_IZR.
  - intros He. rewrite (progress_of_done p elapsed Hd He).
    split; [reflexivity |].
    replace (100 / 100 * IZR (Z.of_N (total_layers p)))
      with (IZR (Z.of_N (total_layers p))) by lra.
    apply int_IZR.
Qed.

Lemma printing_job_progress : progress_of printing_job (10 - 0) = 50.
Proof.
  unfold progress_of. simpl estimated_duration.
  rewrite Rgtb_true by (unfold SIMULATION_SPEED_MULTIPLIER; lra).
  rewrite min_Rmin. unfold SIMULATION_SPEED_MULTIPLIER.
  rewrite Rmin_left; lra.
Qed.

Lemma get_status_while_printing_witness :
  is_printing printing_job = true
  /\ print_start_time printing_job = Some 0
  /\ 0 < estimated_duration printing_job
  /\ exists st p',
       get_status printing_job 10 = Returned (st, p')
       /\ st_progress st <= 100
       /\ st_remaining_time st = Rmax (estimated_duration printing_job - (10 - 0)) 0.
Proof.
  assert (H3 : 0 < estimated_duration printing_job).
  { simpl. unfold SIMULATION_SPEED_MULTIPLIER. lra. }
  split; [reflexivity |]. split; [reflexivity |]. split; [exact H3 |].
  destruct (get_status_while_printing printing_job 0 10 eq_refl eq_refl H3)
    as (st & p' & H & _ & _ & Hle & _ & _ & _ & Hrem & _).
  exists st, p'. split; [exact H |]. split; [exact Hle | exact Hrem].
Defined.

(** ** What [get_status] writes *)

(** C4, as stated, fails: half-way through a job [get_status] changes
    [current_layer] and [used_material] of the controller. *)
Lemma get_status_changes_controller :
  ~ (forall st p',
       get_status printing_job 10 = Returned (st, p') -> p' = printing_job).
Proof.
  intros H.
  pose proof (get_status_printing printing_job 10 0 eq_refl eq_refl) as Hst.
  simpl in Hst. apply H in Hst.
  apply (f_equal used_material) in Hst. simpl in Hst.
  rewrite printing_job_progress in Hst. lra.
Qed.

(** C4, amended. [get_status] leaves every attribute of the controller
    unchanged except [current_layer] and [used_material]; an idle
    controller is left unchanged altogether, and while printing the two
    attributes are overwritten with the values of the snapshot. *)
Theorem get_status_frame (p : t) (now : R) (st : Status) (p' : t) :
  get_status p now = Returned (st, p') ->
  is_printing p' = is_printing p
  /\ current_job_id p' = current_job_id p
  /\ print_start_time p' = print_start_time p
  /\ estimated_duration p' = estimated_duration p
  /\ total_layers p' = total_layers p
  /\ estimated_material p' = estimated_material p
  /\ nozzle_temp p' = nozzle_temp p
  /\ bed_temp p' = bed_temp p
  /\ target_nozzle_temp p' = target_nozzle_temp p
  /\ target_bed_temp p' = target_bed_temp p
  /\ (is_printing p = false -> p' = p)
  /\ (is_printing p = true ->
      current_layer p' = st_current_layer st
      /\ st_used_material st = Some (used_material p')).
Proof.
  intros H. destruct (is_printing p) eqn:Hp.
  - destruct (print_start_time p) as [start |] eqn:Hs.
    + rewrite (get_status_printing p now start Hp Hs) in H. simpl in H.
      injection H as <- <-. simpl.
      repeat split; try reflexivity; try assumption. discriminate.
    + rewrite get_status_not_started in H by assumption. discriminate.
  - rewrite get_status_idle in H by assumption. injection H as <- <-.
    repeat split; try reflexivity; try assumption; discriminate.
Qed.

Lemma get_status_frame_witness :
  exists st p',
    get_status printing_job 10 = Returned (st, p')
    /\ total_layers p' = total_layers printing_job
    /\ current_layer p' = st_current_layer st.
Proof.
  pose proof (get_status_printing printing_job 10 0 eq_refl eq_refl) as Hst.
  simpl in Hst.
  destruct (get_status_frame _ _ _ _ Hst)
    as (_ & _ & _ & _ & Hlayers & _ & _ & _ & _ & _ & _ & Hprinting).
  eexists. eexists. split; [exact Hst |].
  split; [exact Hlayers | apply Hprinting; reflexivity].
Defined.

(** ** [is_complete] *)

Lemma set_progress_progress_of (p : t) layer material elapsed :
  progress_of (set_progress p layer material) elapsed = progress_of p elapsed.
Proof. reflexivity. Qed.

(** Asking again at the same time gives the same snapshot and writes
    the same values. *)
Lemma get_status_again (p : t) (now : R) (st : Status) (p' : t) :
  get_status p now = Returned (st, p') ->
  get_status p' now = Returned (st, p').
Proof.
  intros H. destruct (is_printing p) eqn:Hp.
  - destruct (print_start_time p) as [start |] eqn:Hs.
    + rewrite (get_status_printing p now start Hp Hs) in H. simpl in H.
      injection H as <- <-.
      rewrite (get_status_printing (set_progress p _ _) now start Hp Hs).
      reflexivity.
    + rewrite get_status_not_started in H by assumption. discriminate.
  - rewrite get_status_idle in H by assumption. injection H as <- <-.
    apply get_status_idle. assumption.
Qed.

Lemma is_complete_eq (p : t) (now : R) (st : Status) (p' : t) :
  get_status p now = Returned (st, p') ->
  is_complete p now = Returned (Rgeb (st_progress st) 100, p').
Proof.
  intros H. unfold is_complete. destruct (is_printing p) eqn:Hp; simpl.
  - rewrite H. reflexivity.
  - rewrite get_status_idle in H by assumption. injection H as <- <-.
    simpl. rewrite Rgeb_false by lra. reflexivity.
Qed.

(** C5. In every state of the controller and at every time,
    [is_complete] answers true exactly when the progress of
    [get_status] is at least 100, and asking again at the same time
    gives the same answer.  (A controller that is printing without a
    start time makes both calls raise.) *)
Theorem is_complete_iff_progress (p : t) (now : R) :
  match get_status p now with
  | Returned (st, _) =>
      exists b p1 p2,
        is_complete p now = Returned (b, p1)
        /\ (b = true <-> st_progress st >= 100)
        /\ is_complete p1 now = Returned (b, p2)
  | Raised e => is_complete p now = Raised e
  end.
Proof.
  destruct (get_status p now) as [[st p'] | e] eqn:H.
  - exists (Rgeb (st_progress st) 100), p', p'.
    split; [apply is_complete_eq; assumption |].
    split; [apply Rgeb_spec |].
    apply is_complete_eq, (get_status_again p). assumption.
  - unfold is_complete. destruct (is_printing p) eqn:Hp; simpl.
    + rewrite H. reflexivity.
    + rewrite get_status_idle in H by assumption. discriminate.
Qed.

(** ** A job of zero duration *)

Lemma start_print_zero_minutes (p : t) now job_id grams layers :
  estimated_duration (start_print p now job_id 0 grams layers) = 0.
Proof. simpl. unfold SIMULATION_SPEED_MULTIPLIER. lra. Qed.

(** C10. A controller that is printing a job whose estimated duration
    is 0 divides by nothing: at every time [get_status] returns, with
    progress 0, and [is_complete] returns false. *)
Theorem zero_duration_never_completes (p : t) (start now : R) :
  is_printing p = true ->
  print_start_time p = Some start ->
  estimated_duration p = 0 ->
  exists st p',
    get_status p now = Returned (st, p')
    /\ st_progress st = 0
    /\ is_complete p now = Returned (false, p').
Proof.
  intros Hp Hs Hd.
  pose proof (get_status_printing p now start Hp Hs) as H. simpl in H.
  assert (H0 : progress_of p (now - start) = 0).
  { unfold progress_of. rewrite Hd, Rgtb_false by lra. reflexivity. }
  eexists. eexists. split; [exact H |]. split; [exact H0 |].
  rewrite (is_complete_eq _ _ _ _ H). simpl.
  rewrite H0, Rgeb_false by lra. reflexivity.
Qed.

Lemma zero_duration_never_completes_witness :
  is_printing zero_minutes_job = true
  /\ print_start_time zero_minutes_job = Some 0
  /\ estimated_duration zero_minutes_job = 0
  /\ exists st p',
       get_status zero_minutes_job 3600 = Returned (st, p')
       /\ st_progress st = 0
       /\ is_complete zero_minutes_job 3600 = Returned (false, p').
Proof.
  assert (Hd : estimated_duration zero_minutes_job = 0)
    by apply start_print_zero_minutes.
  split; [reflexivity |]. split; [reflexivity |]. split; [exact Hd |].
  exact (zero_duration_never_completes zero_minutes_job 0 3600 eq_refl eq_refl Hd).
Defined.

End Printer.

(* ===================================================================== *)
(** * Statistics *)
(* ===================================================================== *)

Section Accounting.

Import Statistics Scenario.

(** A non-zero actual value is what is added. *)
Lemma finish_job_adds_actual (s : t) now success actual :
  actual <> 0 ->
  total_material_grams (finish_job s now success (Some actual)) =
  total_material_grams s + actual.
Proof. intros H. simpl. rewrite truthy_nonzero by assumption. reflexivity. Qed.

(** Without an actual value the estimate of the job is added. *)
Lemma finish_job_adds_estimate (s : t) now success :
  total_material_grams (finish_job s now success None) =
  total_material_grams s + current_job_estimated_material s.
Proof.
  simpl. destruct (truthy (current_job_estimated_material s)) eqn:H;
    [reflexivity |].
  unfold truthy, Reqb in H.
  destruct (Req_dec_T (current_job_estimated_material s) 0) as [H0 | H0];
    [rewrite H0; lra | discriminate].
Qed.

(** An actual value of 0 is treated as no value: the estimate is
    added. *)
Lemma finish_job_zero_actual (s : t) now success :
  total_material_grams (finish_job s now success (Some 0)) =
  total_material_grams (finish_job s now success None).
Proof. simpl. rewrite truthy_zero. reflexivity. Qed.

(** C7 at its failing input: two consecutive jobs, the first finished
    with an actual material of 0 grams (estimate 10), the second with 7
    grams (estimate 20).  The first call adds the estimate, 10 grams,
    where the declared actual value was 0; the second adds 7. *)
Theorem finish_job_zero_actual_adds_estimate :
  total_material_grams stats_in_job = 0
  /\ total_material_grams stats_after_zero = 10
  /\ total_material_grams
       (finish_job (start_job stats_after_zero 300 60 20) 400 true (Some 7))
     = 17.
Proof.
  split; [reflexivity |]. split.
  - unfold stats_after_zero. rewrite finish_job_zero_actual, finish_job_adds_estimate.
    simpl. lra.
  - rewrite finish_job_adds_actual by lra.
    change (total_material_grams (start_job stats_after_zero 300 60 20))
      with (total_material_grams stats_after_zero).
    unfold stats_after_zero. rewrite finish_job_zero_actual, finish_job_adds_estimate.
    simpl. lra.
Qed.

End Accounting.

(* ===================================================================== *)
(** * The estimation stage of the pipeline *)
(* ===================================================================== *)

Section Estimation.

Import IoTPrinterClient Scenario.

Variable float : string -> option R.

(** The estimate after a parse failure: the values under the keys
    [estimatedPrintTimeMinutes] and [estimatedMaterialInGrams], each
    replaced by its default when it is missing, null or 0. *)
Lemma _parse_and_estimate_fallback (world : World) (job : Job) (material : Material) :
  snd (GCodeParser.parse_file float (cache_file world)) = None ->
  _parse_and_estimate float world job material =
  Returned {| time_minutes := or_else (get (estimatedPrintTimeMinutes job)) 30;
              material_grams := or_else (get (estimatedMaterialInGrams job)) 10;
              layers := 100%N |}.
Proof. intros H. unfold _parse_and_estimate. simpl. rewrite H. reflexivity. Qed.

Lemma or_else_value (x : option R) (d v : R) :
  x = Some v -> v <> 0 -> or_else x d = v.
Proof. intros -> H. simpl. rewrite truthy_nonzero by assumption. reflexivity. Qed.

Lemma or_else_default (x : option R) (d : R) :
  x = None \/ x = Some 0 -> or_else x d = d.
Proof. intros [-> | ->]; simpl; [| rewrite truthy_zero]; reflexivity. Qed.

Lemma num_or_value (x y : option R) (v : R) :
  x = Some v -> v <> 0 -> num_or x y = Some v.
Proof. intros -> H. simpl. rewrite truthy_nonzero by assumption. reflexivity. Qed.

Lemma num_or_other (x y : option R) :
  x = None \/ x = Some 0 -> num_or x y = y.
Proof. intros [-> | ->]; simpl; [| rewrite truthy_zero]; reflexivity. Qed.

(** A job whose header was printed has a server estimate to print. *)
Lemma print_job_header_returned (job : Job) (material : Material) :
  print_job_header job = Returned material ->
  material_of job = Some material
  /\ format_2f (server_estimate_grams job) = Returned tt.
Proof.
  unfold print_job_header.
  destruct (material_of job) as [m |]; [| discriminate].
  destruct (format_2f (server_estimate_grams job)) as [[] | e]; simpl;
    [| discriminate].
  intros H. injection H as <-. split; reflexivity.
Qed.

Lemma _validate_material_returns (job : Job) (material : Material) (grams : R) :
  print_job_header job = Returned material ->
  _validate_material grams job = Returned true.
Proof.
  intros H. apply print_job_header_returned in H as [_ H].
  unfold _validate_material. cbv zeta. rewrite H. reflexivity.
Qed.

End Estimation.

(* ===================================================================== *)
(** * More on the estimator *)
(* ===================================================================== *)

Section EstimatorMore.

Import GCodeParser Scenario Usage.

Variable float : string -> option R.

Lemma distance_nonneg (a b : Position) : 0 <= _calculate_distance a b.
Proof. unfold _calculate_distance. apply sqrt_pos. Qed.

Lemma distance_same_place (a b : Position) :
  posX b = posX a -> posY b = posY a -> posZ b = posZ a ->
  _calculate_distance a b = 0.
Proof.
  intros Hx Hy Hz. unfold _calculate_distance. rewrite Hx, Hy, Hz.
  replace (_ + _ + _) with 0 by ring. apply sqrt_0.
Qed.


(** X2. A move that leaves X, Y and Z where they are (an extrusion or
    retraction in place, or a bare feed rate word) takes no time and
    never raises, whatever the feed rate, zero included. *)
Theorem move_in_place_takes_no_time (self : t) (parts : list string) :
  let new_position := fst (target float self parts) in
  posX new_position = posX (current_position self) ->
  posY new_position = posY (current_position self) ->
  posZ new_position = posZ (current_position self) ->
  exists self',
    _parse_move float self parts = Returned self'
    /\ total_time self' = total_time self
    /\ current_feedrate self' = snd (target float self parts)
    /\ current_position self' = new_position.
Proof.
  unfold target.
  destruct (fold_left (move_token float) (tl parts)
                      (current_position self, current_feedrate self))
    as [np nf] eqn:Hfold.
  simpl. intros Hx Hy Hz.
  rewrite (_parse_move_eq float _ _ _ _ Hfold).
  rewrite (distance_same_place _ _ Hx Hy Hz), Rgtb_false by lra. simpl.
  eexists. split; [reflexivity |]. simpl. repeat split.
Qed.

(** X3. A move that returns with a positive feed rate adds
    distance / feed rate * 60 seconds, so the total time does not
    decrease. *)
Theorem _parse_move_time (self self' : t) (parts : list string) :
  _parse_move float self parts = Returned self' ->
  0 < current_feedrate self' ->
  total_time self' =
    total_time self
    + _calculate_distance (current_position self) (current_position self')
      / current_feedrate self' * 60
  /\ total_time self <= total_time self'.
Proof.
  destruct (fold_left (move_token float) (tl parts)
                      (current_position self, current_feedrate self))
    as [np nf] eqn:Hfold.
  rewrite (_parse_move_eq float _ _ _ _ Hfold).
  pose proof (distance_nonneg (current_position self) np) as Hnn.
  destruct (Rgtb (_calculate_distance (current_position self) np) 0) eqn:Hd.
  - unfold truediv, Reqb. destruct (Req_dec_T nf 0); simpl; [discriminate |].
    intros H Hf. injection H as <-. simpl in *.
    split; [reflexivity |].
    assert (0 <= _calculate_distance (current_position self) np / nf).
    { unfold Rdiv. apply Rmult_le_pos; [assumption |].
      left. apply Rinv_0_lt_compat. assumption. }
    lra.
  - simpl. intros H Hf. injection H as <-. simpl in *.
    assert (H0 : _calculate_distance (current_position self) np = 0).
    { assert (~ _calculate_distance (current_position self) np > 0)
        by (intros H; apply Rgtb_spec in H; congruence). lra. }
    rewrite H0. split; lra.
Qed.

End EstimatorMore.

Section EstimatorMoreRuns.

Import GCodeParser Scenario Usage.

Local Open Scope string_scope.

Lemma in_place_target :
  target py_float reset (split "G1 E5 F0") = (mkPosition 0 0 0 5, 0).
Proof.
  unfold target, split. simpl. unfold setitem, upper_char. simpl.
  repeat f_equal; lra.
Qed.

Lemma move_in_place_takes_no_time_witness :
  exists self',
    _parse_move py_float reset (split "G1 E5 F0") = Returned self'
    /\ total_time self' = 0
    /\ current_feedrate self' = 0.
Proof.
  destruct (move_in_place_takes_no_time py_float reset (split "G1 E5 F0"))
    as (self' & H & Htime & Hfeed & _);
    try (rewrite in_place_target; reflexivity).
  exists self'. split; [exact H |]. split; [exact Htime |].
  rewrite Hfeed, in_place_target. reflexivity.
Defined.

Lemma first_move_of_scenario_A :
  _parse_move py_float reset (split "G1 X10 Y0 Z0 E5 F1200")
  = Returned {| total_extrusion := 0 + positive_part (5 - 0);
                total_time := 0 + 10 / 1200 * 60;
                current_position := mkPosition 10 0 0 5;
                current_feedrate := 1200;
                layer_count := 0%N |}.
Proof.
  rewrite (_parse_move_eq _ _ _ _ _ scenario_A_tokens_1).
  change (current_position reset) with (mkPosition 0 0 0 0).
  rewrite distance_along_X by lra.
  rewrite Rgtb_true by lra. rewrite truediv_ok by lra.
  simpl. repeat f_equal; lra.
Qed.

Lemma _parse_move_time_witness :
  exists self',
    _parse_move py_float reset (split "G1 X10 Y0 Z0 E5 F1200") = Returned self'
    /\ 0 < current_feedrate self'
    /\ total_time reset <= total_time self'.
Proof.
  eexists. split; [exact first_move_of_scenario_A |].
  assert (Hfeed : 0 < 1200) by lra.
  split; [exact Hfeed |].
  exact (proj2 (_parse_move_time py_float _ _ _ first_move_of_scenario_A Hfeed)).
Defined.

End EstimatorMoreRuns.

(* ===================================================================== *)
(** * The estimator on whole lines and files *)
(* ===================================================================== *)

Section EstimatorFiles.

Import GCodeParser Scenario Usage.

Variable float : string -> option R.

(** ** Layers *)

Lemma _parse_move_layers (self self' : t) (parts : list string) :
  _parse_move float self parts = Returned self' ->
  layer_count self' = layer_count self.
Proof.
  destruct (fold_left (move_token float) (tl parts)
                      (current_position self, current_feedrate self))
    as [np nf] eqn:Hfold.
  rewrite (_parse_move_eq float _ _ _ _ Hfold).
  destruct (Rgtb _ 0); simpl.
  - destruct (truediv _ nf); simpl; [| discriminate].
    intros H. injection H as <-. reflexivity.
  - intros H. injection H as <-. reflexivity.
Qed.

Lemma _parse_line_layers (self self' : t) (line : string) :
  _parse_line float self line = Returned self' ->
  (layer_count self <= layer_count self' <= layer_count self + 1)%N.
Proof.
  unfold _parse_line.
  destruct (is_empty _); [intros H; injection H as <-; lia |].
  destruct (negb _); [intros H; injection H as <-; lia |].
  destruct (split _) as [| part0 parts]; [intros H; injection H as <-; lia |].
  destruct (_ || _); [| intros H; injection H as <-; lia].
  destruct (_parse_move float self (part0 :: parts)) as [self1 | e] eqn:Hmove;
    simpl; [| discriminate].
  apply _parse_move_layers in Hmove.
  destruct (contains _ _); intros H; injection H as <-; simpl; lia.
Qed.

(** X4. The layer counter never decreases and grows by at most one per
    line: after any lines it lies between its old value and the old
    value plus the number of lines. *)
Theorem layer_count_bounded_by_lines (self : t) (lines : list string) :
  (layer_count self <= layer_count (fst (parse_lines float self lines))
   <= layer_count self + N.of_nat (List.length lines))%N.
Proof.
  revert self. induction lines as [| line rest IH]; intros self.
  - simpl. lia.
  - cbn [parse_lines List.length].
    destruct (negb _ && negb _).
    + destruct (_parse_line float self (strip line)) as [self' | e] eqn:Hline.
      * apply _parse_line_layers in Hline. specialize (IH self'). lia.
      * simpl. lia.
    + specialize (IH self). lia.
Qed.

(** ** Comments *)

Lemma before_comment (code comment : string) :
  contains ";" code = false ->
  before ";" (code ++ String ";" comment) = code.
Proof.
  induction code as [| c code IH]; intros H; simpl.
  - reflexivity.
  - simpl in H. apply orb_false_elim in H as [Hc Hrest].
    rewrite Hc, IH by assumption. reflexivity.
Qed.

Lemma contains_comment (code comment : string) :
  contains ";" (code ++ String ";" comment) = true.
Proof.
  induction code as [| c code IH]; simpl.
  - reflexivity.
  - rewrite IH. apply orb_true_r.
Qed.

Lemma contains_lstrip (c : ascii) (s : string) :
  contains c s = false -> contains c (lstrip s) = false.
Proof.
  induction s as [| d s IH]; intros H; simpl.
  - reflexivity.
  - destruct (isspace d); [| exact H].
    simpl in H. apply orb_false_elim in H as [_ H]. apply IH, H.
Qed.

Lemma contains_rstrip (c : ascii) (s : string) :
  contains c s = false -> contains c (rstrip s) = false.
Proof.
  induction s as [| d s IH]; intros H; simpl.
  - reflexivity.
  - simpl in H. apply orb_false_elim in H as [Hd H]. specialize (IH H).
    destruct (rstrip s) as [| d' s'].
    + destruct (isspace d); simpl; [reflexivity |]. rewrite Hd. reflexivity.
    + change (contains c (String d (String d' s')))
        with (Ascii.eqb c d || contains c (String d' s')).
      rewrite Hd, IH. reflexivity.
Qed.

Lemma contains_strip (c : ascii) (s : string) :
  contains c s = false -> contains c (strip s) = false.
Proof. intros H. apply contains_rstrip, contains_lstrip, H. Qed.

Lemma _parse_line_clean (self : t) (line : string) :
  contains ";" (clean_line line) = false ->
  _parse_line float self (clean_line line) = _parse_line float self line.
Proof.
  intros H. unfold _parse_line at 1. rewrite H. reflexivity.
Qed.

(** X5. A comment changes nothing: a line made of code, a semicolon and
    any text is read as the code alone, stripped of surrounding
    spaces. *)
Theorem comment_is_ignored (self : t) (code comment : string) :
  contains ";" code = false ->
  _parse_line float self (code ++ String ";" comment)
  = _parse_line float self (strip code).
Proof.
  intros H.
  assert (Hclean : clean_line (code ++ String ";" comment) = strip code).
  { unfold clean_line. rewrite contains_comment, before_comment by assumption.
    reflexivity. }
  rewrite <- Hclean. symmetry. apply _parse_line_clean.
  rewrite Hclean. apply contains_strip. assumption.
Qed.

(** ** Extrusion is never negative *)

Lemma sum_positive_deltas_nonneg (e : nat -> R) (n : nat) :
  0 <= sum_positive_deltas e n.
Proof.
  induction n as [| n IH]; simpl; [lra |].
  pose proof (positive_part_nonneg (e (S n) - e n)). lra.
Qed.

(** X6. Whatever the lines, the extrusion total of a parse that started
    from a reset estimator is not negative, and so is the
    [extrusion_mm] of every result of [parse_file]. *)
Theorem extrusion_nonneg (file : option (list string)) :
  (forall lines, 0 <= total_extrusion (fst (parse_lines float reset lines)))
  /\ 0 <= total_extrusion (fst (parse_file float file))
  /\ match snd (parse_file float file) with
     | Some result => 0 <= extrusion_mm result
     | None => True
     end.
Proof.
  assert (H : forall lines,
             0 <= total_extrusion (fst (parse_lines float reset lines))).
  { intros lines.
    pose proof (after_extrusion_sum float lines (List.length lines)) as Hsum.
    unfold after in Hsum. rewrite firstn_all in Hsum. rewrite Hsum.
    apply sum_positive_deltas_nonneg. }
  split; [exact H |].
  destruct file as [lines |]; simpl; [| split; [lra | exact I]].
  specialize (H lines).
  destruct (parse_lines float reset lines) as [s [e |]]; simpl in *;
    split; try assumption; exact I.
Qed.

(** ** Lines that are not motion commands *)

(** The cleaned text of a stripped line is empty or keeps its first
    character. *)
Lemma clean_line_head (c : ascii) (rest : string) :
  isspace c = false ->
  clean_line (String c rest) = EmptyString
  \/ exists r, clean_line (String c rest) = String c r.
Proof.
  intros Hc. unfold clean_line.
  destruct (contains ";" (String c rest)); [| right; eauto].
  cbn [before]. destruct (Ascii.eqb ";" c).
  - left. reflexivity.
  - right. unfold strip. cbn [lstrip]. rewrite Hc.
    apply rstrip_head. assumption.
Qed.

(** A stripped line that starts with neither G nor g leaves the
    estimator as it is. *)
Lemma _parse_line_other (self : t) (line : string) :
  startswith "G" (strip line) || startswith "g" (strip line) = false ->
  _parse_line float self (strip line) = Returned self.
Proof.
  intros H. pose proof (strip_head line) as Hhead.
  destruct (strip line) as [| c rest]; [reflexivity |].
  unfold _parse_line. fold (clean_line (String c rest)).
  destruct (clean_line_head c rest Hhead) as [-> | [r ->]]; [reflexivity |].
  cbn [is_empty startswith] in *. rewrite H. reflexivity.
Qed.

(** X7. A file without motion commands, that is one whose lines, once
    stripped, start with neither G nor g (blank lines, comments, M and T
    commands), parses without an exception to the zero estimate: no
    time, no extrusion, no layers. *)
Theorem file_without_motion (lines : list string) :
  Forall (fun line =>
            startswith "G" (strip line) || startswith "g" (strip line) = false)
         lines ->
  parse_lines float reset lines = (reset, None)
  /\ exists result,
       snd (parse_file float (Some lines)) = Some result
       /\ time_minutes result = 0
       /\ extrusion_mm result = 0
       /\ layers result = 0%N.
Proof.
  intros H.
  assert (Hrun : forall self, parse_lines float self lines = (self, None)).
  { induction H as [| line rest Hline _ IH]; intros self; [reflexivity |].
    cbn [parse_lines]. rewrite (_parse_line_other self line Hline).
    destruct (negb _ && negb _); apply IH. }
  split; [apply Hrun |].
  unfold parse_file. rewrite Hrun. simpl.
  eexists. split; [reflexivity |]. simpl. repeat split. lra.
Qed.

End EstimatorFiles.

Section EstimatorFilesRuns.

Import GCodeParser Scenario Usage.

Lemma comment_is_ignored_witness :
  contains ";" "G1 X10 E2 "%string = false
  /\ _parse_line py_float reset "G1 X10 E2 ; outer wall"%string
     = _parse_line py_float reset "G1 X10 E2"%string.
Proof.
  split; [reflexivity |].
  exact (comment_is_ignored py_float reset "G1 X10 E2 "%string " outer wall"%string eq_refl).
Defined.

Lemma file_without_motion_witness :
  parse_lines py_float reset
    [ "; generated by a slicer"; "M104 S210"; ""; "T0 ; tool" ]%string
  = (reset, None).
Proof.
  apply file_without_motion.
  repeat constructor.
Defined.

End EstimatorFilesRuns.

(* ===================================================================== *)
(** * More on the printer execution model *)
(* ===================================================================== *)

Section PrinterMore.

Import PrinterController Scenario.

Lemma progress_of_monotone (p : t) (e1 e2 : R) :
  e1 <= e2 -> progress_of p e1 <= progress_of p e2.
Proof.
  intros He. unfold progress_of.
  destruct (Rgtb (estimated_duration p) 0) eqn:Hd; [| lra].
  apply Rgtb_spec in Hd. rewrite !min_Rmin.
  apply Rle_min_compat_r.
  apply Rmult_le_compat_r; [lra |].
  unfold Rdiv. apply Rmult_le_compat_r; [| assumption].
  left. apply Rinv_0_lt_compat. lra.
Qed.

Lemma progress_of_le_100 (p : t) (elapsed : R) : progress_of p elapsed <= 100.
Proof.
  unfold progress_of. destruct (Rgtb (estimated_duration p) 0); [| lra].
  rewrite min_Rmin. apply Rmin_r.
Qed.

(** The progress reported by [get_status] in terms of [progress_of]. *)
Lemma get_status_progress (p : t) (now : R) (st : Status) (p' : t) :
  get_status p now = Returned (st, p') ->
  (is_printing p = false /\ st_progress st = 0 /\ p' = p)
  \/ (exists start,
        is_printing p = true /\ print_start_time p = Some start
        /\ st_progress st = progress_of p (now - start)
        /\ p' = set_progress p
                  (Py.int (st_progress st / 100 * IZR (Z.of_N (total_layers p))))
                  (st_progress st / 100 * estimated_material p)).
Proof.
  intros H. destruct (is_printing p) eqn:Hp.
  - destruct (print_start_time p) as [start |] eqn:Hs.
    + rewrite (get_status_printing p now start Hp Hs) in H. simpl in H.
      injection H as <- <-. right. exists start. simpl. auto.
    + rewrite get_status_not_started in H by assumption. discriminate.
  - rewrite get_status_idle in H by assumption. injection H as <- <-.
    left. auto.
Qed.

(** X8. Progress never goes back: of two snapshots of the same job the
    later one has at least the progress of the earlier one, also when the
    second is taken from the controller as the first call left it; and a
    job that has reported completion reports it at every later time. *)
Theorem progress_is_monotone (p : t) (t1 t2 : R) (st1 : Status) (p1 : t) :
  t1 <= t2 ->
  get_status p t1 = Returned (st1, p1) ->
  (exists st2 p2,
     get_status p1 t2 = Returned (st2, p2)
     /\ st_progress st1 <= st_progress st2 <= 100)
  /\ (forall q1, is_complete p t1 = Returned (true, q1) ->
      exists q2, is_complete q1 t2 = Returned (true, q2)).
Proof.
  intros Ht H.
  assert (Hnext : exists st2 p2,
             get_status p1 t2 = Returned (st2, p2)
             /\ st_progress st1 <= st_progress st2 <= 100).
  { destruct (get_status_progress _ _ _ _ H)
      as [(Hp & H0 & ->) | (start & Hp & Hs & Hprog & ->)].
    - rewrite get_status_idle by assumption.
      eexists. eexists. split; [reflexivity |]. simpl. rewrite H0. lra.
    - rewrite (get_status_printing (set_progress p _ _) t2 start Hp Hs).
      eexists. eexists. split; [reflexivity |]. simpl.
      rewrite Hprog. split.
      + apply (progress_of_monotone p). lra.
      + apply (progress_of_le_100 p). }
  split; [exact Hnext |].
  intros q1 Hc. rewrite (is_complete_eq _ _ _ _ H) in Hc.
  injection Hc as Hge <-.
  destruct Hnext as (st2 & p2 & H2 & Hle & _).
  exists p2. rewrite (is_complete_eq _ _ _ _ H2).
  apply Rgeb_spec in Hge. rewrite Rgeb_true by lra. reflexivity.
Qed.

Lemma progress_is_monotone_witness :
  10 <= 30
  /\ exists st1 p1 st2 p2,
       get_status printing_job 10 = Returned (st1, p1)
       /\ get_status p1 30 = Returned (st2, p2)
       /\ st_progress st1 <= st_progress st2 <= 100.
Proof.
  split; [lra |].
  pose proof (get_status_printing printing_job 10 0 eq_refl eq_refl) as H.
  simpl in H.
  destruct (progress_is_monotone printing_job 10 30 _ _ ltac:(lra) H)
    as [(st2 & p2 & H2 & Hle) _].
  eexists. eexists. exists st2, p2. split; [exact H |]. split; [exact H2 |].
  exact Hle.
Defined.

(** X9. While printing with a clock that has not gone back and a
    non-negative estimated material, every figure of the snapshot is
    within its bounds: progress in 0..100, current layer in
    0..total_layers, used material in 0..estimated material, and a
    remaining time that is not negative and, before the estimated end,
    adds up with the elapsed time to the estimated duration. *)
Theorem get_status_bounds (p : t) (start now : R) :
  is_printing p = true ->
  print_start_time p = Some start ->
  start <= now ->
  0 <= estimated_material p ->
  exists st p' used,
    get_status p now = Returned (st, p')
    /\ 0 <= st_progress st <= 100
    /\ (0 <= st_current_layer st <= Z.of_N (total_layers p))%Z
    /\ st_used_material st = Some used
    /\ 0 <= used <= estimated_material p
    /\ 0 <= st_remaining_time st
    /\ (now - start <= estimated_duration p ->
        st_elapsed_time st + st_remaining_time st = estimated_duration p).
Proof.
  intros Hp Hs Ht Hm.
  pose proof (get_status_printing p now start Hp Hs) as H. simpl in H.
  pose proof (progress_of_range p (now - start) ltac:(lra)) as [H0 H100].
  set (pr := progress_of p (now - start)) in *.
  eexists. eexists. eexists. split; [exact H |]. simpl.
  split; [lra |].
  assert (Hfrac : 0 <= pr / 100 <= 1) by lra.
  assert (Hn : 0 <= IZR (Z.of_N (total_layers p))) by (apply IZR_le; lia).
  split.
  { rewrite int_floor by (apply Rmult_le_pos; lra). split.
    - apply Zfloor_lub. simpl. apply Rmult_le_pos; lra.
    - rewrite <- (ZfloorZ (Z.of_N (total_layers p))) at 2.
      apply Zfloor_le. nra. }
  split; [reflexivity |].
  split; [nra |].
  rewrite max_Rmax.
  split; [apply Rmax_r |].
  intros He. rewrite Rmax_left by lra. lra.
Qed.

Lemma get_status_bounds_witness :
  is_printing printing_job = true
  /\ print_start_time printing_job = Some 0
  /\ 0 <= 10
  /\ 0 <= estimated_material printing_job
  /\ exists st p',
       get_status printing_job 10 = Returned (st, p')
       /\ 0 <= st_progress st <= 100
       /\ (0 <= st_current_layer st <= 100)%Z.
Proof.
  assert (Hm : 0 <= estimated_material printing_job) by (simpl; lra).
  split; [reflexivity |]. split; [reflexivity |]. split; [lra |].
  split; [exact Hm |].
  destruct (get_status_bounds printing_job 0 10 eq_refl eq_refl ltac:(lra) Hm)
    as (st & p' & used & H & Hprog & Hlayer & _).
  exists st, p'. split; [exact H |]. split; [exact Hprog | exact Hlayer].
Defined.

(** X10. [stop_print] returns the material of the last snapshot taken
    while printing; a print stopped before any snapshot was taken returns
    0, however long it ran. *)
Theorem stop_print_returns_last_snapshot (p : t) (now : R) (st : Status) (p' : t) :
  is_printing p = true ->
  get_status p now = Returned (st, p') ->
  st_used_material st = Some (fst (stop_print p'))
  /\ (forall q started job_id minutes grams layers,
        fst (stop_print (start_print q started job_id minutes grams layers)) = 0).
Proof.
  intros Hp H. split; [| reflexivity].
  destruct (get_status_progress _ _ _ _ H)
    as [(Hidle & _) | (start & _ & Hs & Hprog & ->)]; [congruence |].
  rewrite (get_status_printing p now start Hp Hs) in H. simpl in H.
  injection H as <- _. reflexivity.
Qed.

Lemma stop_print_returns_last_snapshot_witness :
  is_printing printing_job = true
  /\ exists st p',
       get_status printing_job 10 = Returned (st, p')
       /\ st_used_material st = Some (fst (stop_print p')).
Proof.
  split; [reflexivity |].
  pose proof (get_status_printing printing_job 10 0 eq_refl eq_refl) as H.
  simpl in H.
  destruct (stop_print_returns_last_snapshot printing_job 10 _ _ eq_refl H)
    as [Hused _].
  eexists. eexists. split; [exact H | exact Hused].
Defined.

(** After [stop_print] the controller is idle and cold: the status
    is the zeroed one at every time, total layers included although the
    attribute keeps its value, [is_complete] is false, the temperatures
    and targets are 0, and the job figures are the ones it had. *)
Theorem stop_print_leaves_idle (p : t) (now : R) :
  let p' := snd (stop_print p) in
  get_status p' now = Returned (idle_status, p')
  /\ st_total_layers idle_status = 0%N
  /\ total_layers p' = total_layers p
  /\ is_complete p' now = Returned (false, p')
  /\ nozzle_temp p' = 0 /\ bed_temp p' = 0
  /\ target_nozzle_temp p' = 0 /\ target_bed_temp p' = 0
  /\ used_material p' = used_material p
  /\ current_layer p' = current_layer p
  /\ stop_print p' = (used_material p, p').
Proof. simpl. repeat split. Qed.

(** X11. A job that reports completion has, by that very call, its
    current layer at the total and its used material at the estimate, so
    the [stop_print] that follows returns exactly the estimated
    material. *)
Theorem completion_uses_whole_estimate (p : t) (now : R) (p' : t) :
  is_complete p now = Returned (true, p') ->
  is_printing p = true
  /\ 0 < estimated_duration p
  /\ current_layer p' = Z.of_N (total_layers p)
  /\ used_material p' = estimated_material p
  /\ fst (stop_print p') = estimated_material p.
Proof.
  intros Hc.
  destruct (get_status p now) as [[st q] | e] eqn:H.
  - rewrite (is_complete_eq _ _ _ _ H) in Hc. injection Hc as Hge <-.
    apply Rgeb_spec in Hge.
    destruct (get_status_progress _ _ _ _ H)
      as [(_ & H0 & _) | (start & Hp & Hs & Hprog & ->)]; [lra |].
    assert (Hd : 0 < estimated_duration p).
    { destruct (Rlt_dec 0 (estimated_duration p)) as [Hd | Hd]; [exact Hd |].
      unfold progress_of in Hprog. rewrite Rgtb_false in Hprog by lra. lra. }
    assert (H100 : st_progress st = 100).
    { pose proof (progress_of_le_100 p (now - start)). lra. }
    rewrite H100. simpl.
    replace (100 / 100 * IZR (Z.of_N (total_layers p)))
      with (IZR (Z.of_N (total_layers p))) by lra.
    rewrite int_IZR.
    repeat split; try assumption; lra.
  - unfold is_complete in Hc. destruct (is_printing p); simpl in Hc;
      [rewrite H in Hc |]; discriminate.
Qed.

Lemma completion_uses_whole_estimate_witness :
  exists p',
    is_complete printing_job 25 = Returned (true, p')
    /\ fst (stop_print p') = 10.
Proof.
  pose proof (get_status_printing printing_job 25 0 eq_refl eq_refl) as H.
  simpl in H. apply is_complete_eq in H. simpl in H.
  assert (Hp : progress_of printing_job (25 - 0) = 100).
  { apply progress_of_done; simpl; unfold SIMULATION_SPEED_MULTIPLIER; lra. }
  rewrite Hp in H. rewrite (Rgeb_true 100 100) in H by lra.
  eexists. split; [exact H |].
  destruct (completion_uses_whole_estimate _ _ _ H) as (_ & _ & _ & _ & Hstop).
  exact Hstop.
Defined.

End PrinterMore.

(* ===================================================================== *)
(** * More on the statistics *)
(* ===================================================================== *)

Section AccountingMore.

Import Statistics Scenario Usage.

Lemma stats_run_snoc (s : t) (calls : list stats_call) (c : stats_call) :
  stats_run s (calls ++ [c]) = stats_step (stats_run s calls) c.
Proof. unfold stats_run. rewrite fold_left_app. reflexivity. Qed.

Lemma count_calls_snoc kind (calls : list stats_call) (c : stats_call) :
  count_calls kind (calls ++ [c])
  = (count_calls kind calls + if kind c then 1 else 0)%N.
Proof.
  unfold count_calls. rewrite filter_app, length_app. simpl.
  destruct (kind c); simpl; lia.
Qed.

Lemma counters_after_calls (started_at : R) (calls : list stats_call) :
  let s := stats_run (init started_at) calls in
  total_jobs s = count_calls is_finish calls
  /\ successful_jobs s = count_calls is_success calls
  /\ (successful_jobs s + failed_jobs s = total_jobs s)%N.
Proof.
  induction calls as [| c calls IH] using rev_ind.
  - simpl. repeat split.
  - rewrite stats_run_snoc, !count_calls_snoc. simpl in IH.
    destruct IH as (Ht & Hs & Hsum).
    destruct c as [now minutes grams | now success actual]; simpl.
    + rewrite Ht, Hs. repeat split; lia.
    + rewrite Ht, Hs. destruct success; repeat split; lia.
Qed.

(** X12. The job counters count the calls: from a new [Statistics],
    after any sequence of [start_job] and [finish_job] calls,
    [total_jobs] is the number of [finish_job] calls, [successful_jobs]
    the number of those with [success] true, and the successful and the
    failed jobs add up to the total. *)
Theorem job_counters_count_calls (started_at : R) (calls : list stats_call) :
  let s := stats_run (init started_at) calls in
  total_jobs s = count_calls is_finish calls
  /\ successful_jobs s = count_calls is_success calls
  /\ (successful_jobs s + failed_jobs s = total_jobs s)%N
  /\ (failed_jobs s <= total_jobs s)%N.
Proof.
  destruct (counters_after_calls started_at calls) as (Ht & Hs & Hsum).
  repeat split; try assumption. lia.
Qed.

(** X13. [finish_job] forgets the job: after it, and in a new
    [Statistics], no job is in progress, so a further
    [finish_job(success, None)], which is what an aborted job sends,
    changes the job counters only; the material and the print time stay
    as they are. *)
Theorem finish_job_without_job (s : t) (now now' : R) (success success' : bool)
    (actual : option R) :
  let s1 := finish_job s now success actual in
  total_material_grams (finish_job s1 now' success' None) = total_material_grams s1
  /\ total_print_time_seconds (finish_job s1 now' success' None)
     = total_print_time_seconds s1
  /\ total_jobs (finish_job s1 now' success' None) = (total_jobs s1 + 1)%N
  /\ total_material_grams (finish_job (init now) now' success' None) = 0
  /\ total_print_time_seconds (finish_job (init now) now' success' None) = 0.
Proof.
  simpl. rewrite truthy_zero. repeat split.
Qed.

(** X14. The print time of a job is the time between its [start_job]
    and its [finish_job], provided the clock read at [start_job] was not
    0; a job started at clock 0 adds no print time. *)
Theorem job_print_time (s : t) (started finished minutes grams : R)
    (success : bool) (actual : option R) :
  let s' := finish_job (start_job s started minutes grams) finished success actual in
  (started <> 0 ->
   total_print_time_seconds s' = total_print_time_seconds s + (finished - started))
  /\ (started = 0 -> total_print_time_seconds s' = total_print_time_seconds s).
Proof.
  simpl. split.
  - intros H. rewrite truthy_nonzero by assumption. reflexivity.
  - intros ->. rewrite truthy_zero. reflexivity.
Qed.

Lemma job_print_time_witness :
  100 <> 0
  /\ total_print_time_seconds
       (finish_job (start_job (init 0) 100 30 10) 250 true None)
     = total_print_time_seconds (init 0) + (250 - 100).
Proof.
  assert (H : 100 <> 0) by lra.
  split; [exact H |].
  exact (proj1 (job_print_time (init 0) 100 250 30 10 true None) H).
Defined.

(** ** Hours and minutes *)

Lemma hours_minutes (x : R) :
  let hours := Py.int (floordiv x 3600) in
  let minutes := Py.int (floordiv (modulo x 3600) 60) in
  (0 <= minutes <= 59)%Z
  /\ IZR hours * 3600 + IZR minutes * 60 <= x
     < IZR hours * 3600 + IZR minutes * 60 + 60.
Proof.
  unfold modulo, floordiv. rewrite !int_IZR.
  set (h := Zfloor (x / 3600)).
  pose proof (Zfloor_bound (x / 3600)) as Hh. fold h in Hh.
  assert (Hx : IZR h * 3600 <= x < IZR h * 3600 + 3600).
  { assert (Hq : x = x / 3600 * 3600) by field. lra. }
  set (r := x - 3600 * IZR h) in *.
  set (m := Zfloor (r / 60)).
  pose proof (Zfloor_bound (r / 60)) as Hm. fold m in Hm.
  assert (Hr : IZR m * 60 <= r < IZR m * 60 + 60).
  { assert (Hq : r = r / 60 * 60) by field. lra. }
  assert (Hr0 : 0 <= r < 3600) by (subst r; lra).
  split.
  - split.
    + apply Zfloor_lub. simpl. lra.
    + assert (m < 60)%Z; [| lia]. apply lt_IZR. lra.
  - subst r. lra.
Qed.

(** X15. The formatted times split a number of seconds into whole
    hours and minutes: the minutes are in 0..59, and hours and minutes
    together are at most the seconds and less than a minute short of
    them.  This holds for the print time and for the uptime at any
    clock. *)
Theorem formatted_times (s : t) (now : R) :
  (let '(hours, minutes) := get_total_print_time_formatted s in
   (0 <= minutes <= 59)%Z
   /\ IZR hours * 3600 + IZR minutes * 60 <= total_print_time_seconds s
      < IZR hours * 3600 + IZR minutes * 60 + 60)
  /\ (let '(hours, minutes) := get_uptime_formatted s now in
      (0 <= minutes <= 59)%Z
      /\ IZR hours * 3600 + IZR minutes * 60 <= now - start_time s
         < IZR hours * 3600 + IZR minutes * 60 + 60).
Proof.
  split.
  - apply (hours_minutes (total_print_time_seconds s)).
  - apply (hours_minutes (now - start_time s)).
Qed.

(** X16. [get_summary] never divides by zero: it returns at every
    clock, with a success rate of 0 while no job has finished and of
    successful / total * 100 afterwards, which for statistics reached
    from a new object by calls of its methods lies in 0..100. *)
Theorem success_rate_in_range (started_at now : R) (calls : list stats_call) :
  let s := stats_run (init started_at) calls in
  exists summary,
    get_summary s now = Returned summary
    /\ (total_jobs s = 0%N -> sm_success_rate summary = 0)
    /\ (total_jobs s <> 0%N ->
        sm_success_rate summary
        = IZR (Z.of_N (successful_jobs s)) / IZR (Z.of_N (total_jobs s)) * 100)
    /\ 0 <= sm_success_rate summary <= 100
    /\ sm_total_jobs summary = count_calls is_finish calls.
Proof.
  intros s.
  destruct (counters_after_calls started_at calls) as (Ht & _ & Hsum).
  fold s in Ht, Hsum.
  unfold get_summary.
  destruct (get_uptime_formatted s now) as [uh um].
  destruct (get_total_print_time_formatted s) as [ph pm].
  destruct (0 <? total_jobs s)%N eqn:Hpos.
  - apply N.ltb_lt in Hpos.
    assert (Hn : 0 < IZR (Z.of_N (total_jobs s))) by (apply IZR_lt; lia).
    rewrite truediv_ok by lra. simpl.
    eexists. split; [reflexivity |]. simpl.
    split; [lia |]. split; [reflexivity |]. split; [| exact Ht].
    assert (Hle : IZR (Z.of_N (successful_jobs s))
                  <= IZR (Z.of_N (total_jobs s))) by (apply IZR_le; lia).
    assert (H0 : 0 <= IZR (Z.of_N (successful_jobs s))) by (apply IZR_le; lia).
    assert (Hq : 0 <= IZR (Z.of_N (successful_jobs s))
                      / IZR (Z.of_N (total_jobs s)) <= 1).
    { split.
      - unfold Rdiv. apply Rmult_le_pos; [assumption |].
        left. apply Rinv_0_lt_compat. assumption.
      - apply Rmult_le_reg_r with (IZR (Z.of_N (total_jobs s))); [assumption |].
        unfold Rdiv. rewrite Rmult_assoc, Rinv_l by lra. lra. }
    lra.
  - apply N.ltb_ge in Hpos. simpl.
    eexists. split; [reflexivity |]. simpl.
    split; [reflexivity |]. split; [lia |]. split; [lra | exact Ht].
Qed.

End AccountingMore.

(* ===================================================================== *)
(** * The estimate of a parsed file *)
(* ===================================================================== *)

Section EstimationMore.

Import IoTPrinterClient Scenario Usage.

Variable float : string -> option R.

Lemma parse_result_extrusion_nonneg (file : option (list string))
    (result : GCodeParser.ParseResult) :
  snd (GCodeParser.parse_file float file) = Some result ->
  0 <= GCodeParser.extrusion_mm result.
Proof.
  destruct file as [lines |]; simpl; [| discriminate].
  pose proof (after_extrusion_sum float lines (List.length lines)) as Hsum.
  unfold after in Hsum. rewrite firstn_all in Hsum.
  pose proof (sum_positive_deltas_nonneg (E_after float lines) (List.length lines)).
  destruct (GCodeParser.parse_lines float GCodeParser.reset lines) as [s [e |]];
    simpl in *; [discriminate |].
  intros Hr. injection Hr as <-. simpl. lra.
Qed.

Lemma _parse_and_estimate_parsed (world : World) (job : Job)
    (material : Material) (result : GCodeParser.ParseResult) :
  snd (GCodeParser.parse_file float (cache_file world)) = Some result ->
  _parse_and_estimate float world job material
  = (grams <- calculate_material_weight_of
                (GCodeParser.extrusion_mm result)
                (diameter_of material) (density_of material) ;;
     Returned {| time_minutes := GCodeParser.time_minutes result;
                 material_grams := grams;
                 layers := GCodeParser.layers result |}).
Proof.
  intros H. unfold _parse_and_estimate. simpl. rewrite H. reflexivity.
Qed.

(** X17. When the file parses, the estimate comes from the file alone:
    the minutes and layers of the parse result, and the weight of its
    extrusion for the diameter and density read from the material
    descriptor; the values declared by the server are not used.  The
    diameter is the value of [diameterMm] when that is a number other
    than 0; otherwise it is what [DiameterMm] holds, 0 included, and
    1.75 when that key is missing; the density is read in the same way
    with the default 1.24.  When the key read last is null, the weight
    cannot be computed and the call raises [TypeError].  With a
    non-negative density the grams are not negative. *)
Theorem estimate_from_parsed_file (world : World) (job : Job)
    (material : Material) (result : GCodeParser.ParseResult) :
  snd (GCodeParser.parse_file float (cache_file world)) = Some result ->
  (forall d, diameterMm material = Value d -> d <> 0 ->
             diameter_of material = Some d)
  /\ (diameterMm material = Missing \/ diameterMm material = Null
      \/ diameterMm material = Value 0 ->
      diameter_of material
      = match DiameterMm material with
        | Missing => Some 1.75
        | Null => None
        | Value d => Some d
        end)
  /\ (forall rho, densityInGramsPerCm3 material = Value rho -> rho <> 0 ->
                  density_of material = Some rho)
  /\ (densityInGramsPerCm3 material = Missing
      \/ densityInGramsPerCm3 material = Null
      \/ densityInGramsPerCm3 material = Value 0 ->
      density_of material
      = match DensityInGramsPerCm3 material with
        | Missing => Some 1.24
        | Null => None
        | Value rho => Some rho
        end)
  /\ (forall d rho,
        diameter_of material = Some d -> density_of material = Some rho ->
        _parse_and_estimate float world job material
        = Returned
            {| time_minutes := GCodeParser.time_minutes result;
               material_grams :=
                 GCodeParser.calculate_material_weight
                   (GCodeParser.extrusion_mm result) d rho;
               layers := GCodeParser.layers result |}
        /\ (0 <= rho ->
            0 <= GCodeParser.calculate_material_weight
                   (GCodeParser.extrusion_mm result) d rho))
  /\ (diameter_of material = None \/ density_of material = None ->
      _parse_and_estimate float world job material = Raised TypeError)
  /\ (forall other_job,
        _parse_and_estimate float world other_job material
        = _parse_and_estimate float world job material).
Proof.
  intros H.
  assert (He : forall j,
             _parse_and_estimate float world j material
             = (grams <- calculate_material_weight_of
                           (GCodeParser.extrusion_mm result)
                           (diameter_of material) (density_of material) ;;
                Returned {| time_minutes := GCodeParser.time_minutes result;
                            material_grams := grams;
                            layers := GCodeParser.layers result |})).
  { intros j. apply _parse_and_estimate_parsed. exact H. }
  split.
  { intros d Hd Hnz. unfold diameter_of. rewrite Hd. simpl.
    rewrite truthy_nonzero by assumption. reflexivity. }
  split.
  { intros Hd. unfold diameter_of.
    rewrite num_or_other
      by (destruct Hd as [-> | [-> | ->]]; simpl; auto).
    destruct (DiameterMm material); reflexivity. }
  split.
  { intros rho Hrho Hnz. unfold density_of. rewrite Hrho. simpl.
    rewrite truthy_nonzero by assumption. reflexivity. }
  split.
  { intros Hrho. unfold density_of.
    rewrite num_or_other
      by (destruct Hrho as [-> | [-> | ->]]; simpl; auto).
    destruct (DensityInGramsPerCm3 material); reflexivity. }
  split.
  { intros d rho Hd Hrho. rewrite He, Hd, Hrho. split; [reflexivity |].
    intros Hpos. rewrite weight_factor.
    pose proof (parse_result_extrusion_nonneg _ _ H) as HL.
    pose proof PI_RGT_0 as Hpi.
    assert (0 <= (d / 2) ^ 2) by (apply pow2_ge_0).
    apply Rmult_le_pos; [| apply Rmult_le_pos; assumption].
    apply Rmult_le_pos; [| lra].
    apply Rmult_le_pos; [lra | assumption]. }
  split.
  { intros Hnone. rewrite He.
    destruct Hnone as [-> | ->]; [reflexivity |].
    destruct (diameter_of material); reflexivity. }
  intros j. rewrite !He. reflexivity.
Qed.

End EstimationMore.

Section EstimationMoreRuns.

Import IoTPrinterClient Scenario Usage.

Lemma scenario_A_parsed :
  snd (GCodeParser.parse_file py_float (cache_file scenario_A_world))
  = Some {| GCodeParser.time_minutes := GCodeParser.total_time after_line_2 / 60;
            GCodeParser.extrusion_mm := 5;
            GCodeParser.layers := 2%N |}.
Proof.
  change (cache_file scenario_A_world) with (Some scenario_A).
  unfold GCodeParser.parse_file. rewrite scenario_A_run. reflexivity.
Qed.

Lemma estimate_from_parsed_file_witness :
  _parse_and_estimate py_float scenario_A_world declared_job empty_material
  = Returned
      {| time_minutes := GCodeParser.total_time after_line_2 / 60;
         material_grams := GCodeParser.calculate_material_weight 5 1.75 1.24;
         layers := 2%N |}
  /\ _parse_and_estimate py_float scenario_A_world declared_job
                         null_diameter_material
     = Raised TypeError.
Proof.
  destruct (estimate_from_parsed_file py_float scenario_A_world declared_job
              empty_material _ scenario_A_parsed)
    as (_ & _ & _ & _ & Hreturns & _).
  destruct (estimate_from_parsed_file py_float scenario_A_world declared_job
              null_diameter_material _ scenario_A_parsed)
    as (_ & _ & _ & _ & _ & Hraises & _).
  split.
  - apply (Hreturns 1.75 1.24); reflexivity.
  - apply Hraises. left. reflexivity.
Defined.

End EstimationMoreRuns.

(* ===================================================================== *)
(** * The menu *)
(* ===================================================================== *)

Section Menu.

Import MenuSystem Usage.

Lemma moved_in_range (m : t) (step length : Z) :
  (0 < length)%Z -> (moved m step length < Z.to_N length)%N.
Proof.
  intros H. unfold moved.
  pose proof (Z.mod_pos_bound (Z.of_N (selected_index m) + step) length H).
  lia.
Qed.

Lemma set_language_available (m : t) (lang : string) (i : nat) :
  nth_error available_languages i = Some lang ->
  set_language m lang =
  ({| current_language := lang;
      current_state := current_state m;
      selected_index := selected_index m;
      in_menu := in_menu m;
      state_history := state_history m |}, true).
Proof.
  intros Hnth. unfold set_language.
  assert (Hin : existsb (String.eqb lang) available_languages = true).
  { apply existsb_exists. exists lang. split.
    - apply nth_error_In in Hnth. exact Hnth.
    - apply String.eqb_refl. }
  rewrite Hin. reflexivity.
Qed.

Lemma init_invariant (language : string) : menu_invariant (init language).
Proof.
  unfold menu_invariant, index_in_range. simpl.
  split; [lia |]. split; [constructor |].
  split; [split; discriminate | intros H; exfalso; apply H; reflexivity].
Qed.

Ltac menu_facts :=
  repeat split; simpl in *; intros;
  try assumption; try discriminate; try lia; try congruence; try tauto;
  try (constructor; assumption); try (constructor; [reflexivity | assumption]);
  try (exfalso;
       match goal with
       | Hm : _ <-> _, Hf : _ = false |- _ => apply Hm in Hf; discriminate
       end).

Lemma press_invariant (m : t) (b : Client.button) :
  menu_invariant m -> menu_invariant (press m b).
Proof.
  unfold menu_invariant, index_in_range.
  destruct m as [lang st idx menu hist]. simpl.
  intros (Hidx & Hhist & Hmenu & Hne).
  assert (Hpop : st <> STATE_MAIN_MENU ->
                 exists older, hist = STATE_MAIN_MENU :: older
                               /\ Forall (fun s => s = STATE_MAIN_MENU) older).
  { intros H. specialize (Hne H). destruct hist as [| p o]; [contradiction |].
    inversion Hhist; subst. eauto. }
  destruct b; unfold press.
  - unfold handle_button_up, set_index. destruct st; simpl.
    + split; [apply (moved_in_range _ (-1) 3); lia | menu_facts].
    + menu_facts.
    + menu_facts.
    + split; [apply (moved_in_range _ (-1) 2); lia | menu_facts].
  - unfold handle_button_down, set_index. destruct st; simpl.
    + split; [apply (moved_in_range _ 1 3); lia | menu_facts].
    + menu_facts.
    + menu_facts.
    + split; [apply (moved_in_range _ 1 2); lia | menu_facts].
  - unfold handle_button_select, enter. destruct st; simpl.
    + destruct (idx =? 0)%N; simpl; [menu_facts |].
      destruct (idx =? 1)%N; simpl.
      { menu_facts. }
      destruct (idx =? 2)%N; simpl.
      { menu_facts. }
      menu_facts.
    + menu_facts.
    + menu_facts.
    + destruct (nth_error available_languages (N.to_nat idx)) as [l |] eqn:Hnth;
        simpl; [| menu_facts].
      rewrite (set_language_available _ _ _ Hnth). unfold handle_button_back.
      simpl. destruct Hpop as (older & -> & Holder); [discriminate |]. simpl.
      menu_facts.
  - unfold handle_button_back. destruct st; simpl.
    + destruct hist as [| p o]; simpl; [menu_facts |].
      inversion Hhist; subst. menu_facts.
     
    + menu_facts.
    + destruct Hpop as (older & -> & Holder); [discriminate |]. simpl.
      menu_facts.
    + destruct Hpop as (older & -> & Holder); [discriminate |]. simpl.
      menu_facts.
Qed.

Lemma presses_invariant (m : t) (presses : list Client.button) :
  menu_invariant m -> menu_invariant (fold_left press presses m).
Proof.
  revert m. induction presses as [| b rest IH]; intros m H; simpl.
  - exact H.
  - apply IH, press_invariant, H.
Qed.

(** X18. Whatever buttons are pressed, starting from a new menu, the
    selected index points into the menu that is shown (three main
    entries, one entry per language), the history holds nothing but
    main-menu entries, and [in_menu] is false exactly in the polling
    state. *)
Theorem menu_index_stays_in_range (language : string)
    (presses : list Client.button) :
  let m := fold_left press presses (init language) in
  (current_state m = STATE_MAIN_MENU -> (selected_index m < 3)%N)
  /\ (current_state m = STATE_LANGUAGE ->
      exists lang,
        nth_error available_languages (N.to_nat (selected_index m)) = Some lang)
  /\ Forall (fun s => s = STATE_MAIN_MENU) (state_history m)
  /\ (in_menu m = false <-> current_state m = STATE_POLLING).
Proof.
  intros m.
  destruct (presses_invariant (init language) presses (init_invariant language))
    as (Hidx & Hhist & Hmenu & _).
  fold m in Hidx, Hhist, Hmenu. unfold index_in_range in Hidx.
  split; [intros Hs; rewrite Hs in Hidx; exact Hidx |].
  split; [| split; assumption].
  intros Hs. rewrite Hs in Hidx.
  destruct (nth_error available_languages (N.to_nat (selected_index m)))
    as [lang |] eqn:Hnth; [eauto |].
  apply nth_error_None in Hnth. simpl in *. lia.
Qed.

(** X19. In a menu, Up and Down undo each other, and the selection
    wraps around: with the index in range, Down after Up and Up after
    Down give the menu back, and three Downs in the main menu return to
    the same entry.  Outside a menu both buttons do nothing. *)
Theorem up_and_down_are_inverse (m : t) :
  index_in_range m ->
  handle_button_down (handle_button_up m) = m
  /\ handle_button_up (handle_button_down m) = m
  /\ (current_state m = STATE_MAIN_MENU ->
      handle_button_down (handle_button_down (handle_button_down m)) = m)
  /\ (current_state m = STATE_POLLING \/ current_state m = STATE_STATISTICS ->
      handle_button_up m = m /\ handle_button_down m = m).
Proof.
  unfold index_in_range. intros H.
  destruct m as [lang st idx menu hist]. simpl in H.
  assert (Hmode : forall (len : Z) (i : N), (0 < len)%Z -> (Z.of_N i < len)%Z ->
            Z.to_N ((Z.of_N (Z.to_N ((Z.of_N i + -1) mod len)) + 1) mod len) = i
            /\ Z.to_N ((Z.of_N (Z.to_N ((Z.of_N i + 1) mod len)) + -1) mod len) = i).
  { intros len i Hlen Hi.
    pose proof (Z.mod_pos_bound (Z.of_N i + -1) len Hlen).
    pose proof (Z.mod_pos_bound (Z.of_N i + 1) len Hlen).
    rewrite !Z2N.id by lia.
    rewrite !Zplus_mod_idemp_l.
    replace (Z.of_N i + -1 + 1)%Z with (Z.of_N i) by lia.
    replace (Z.of_N i + 1 + -1)%Z with (Z.of_N i) by lia.
    rewrite Z.mod_small by lia. split; lia. }
  destruct st; unfold handle_button_up, handle_button_down, set_index, moved;
    simpl in *.
  - destruct (Hmode 3%Z idx ltac:(lia) ltac:(lia)) as [H1 H2].
    unfold main_menu_length. rewrite H1, H2.
    split; [reflexivity |]. split; [reflexivity |].
    split; [| intros [Hc | Hc]; discriminate].
    intros _. f_equal.
    assert (idx = 0 \/ idx = 1 \/ idx = 2)%N as [-> | [-> | ->]] by lia;
      reflexivity.
  - repeat split; try reflexivity; discriminate.
  - repeat split; try reflexivity; discriminate.
  - destruct (Hmode 2%Z idx ltac:(lia) ltac:(lia)) as [H1 H2].
    rewrite H1, H2.
    split; [reflexivity |]. split; [reflexivity |].
    split; [discriminate | intros [Hc | Hc]; discriminate].
Qed.

Lemma up_and_down_are_inverse_witness :
  index_in_range (init "en")
  /\ handle_button_down (handle_button_up (init "en")) = init "en".
Proof.
  assert (H : index_in_range (init "en")) by (unfold index_in_range; simpl; lia).
  split; [exact H |].
  exact (proj1 (up_and_down_are_inverse (init "en") H)).
Defined.

(** X20. Choosing a language: in the language menu, reached from a new
    menu by any presses, Select makes the entry under the index the
    current language and returns nothing, and the menu is back at the
    main menu with the first entry selected. *)
Theorem select_sets_language (language : string) (presses : list Client.button) :
  let m := fold_left press presses (init language) in
  current_state m = STATE_LANGUAGE ->
  exists lang,
    nth_error available_languages (N.to_nat (selected_index m)) = Some lang
    /\ fst (handle_button_select m) = None
    /\ current_language (snd (handle_button_select m)) = lang
    /\ current_state (snd (handle_button_select m)) = STATE_MAIN_MENU
    /\ selected_index (snd (handle_button_select m)) = 0%N.
Proof.
  intros m Hs.
  destruct (presses_invariant (init language) presses (init_invariant language))
    as (Hidx & Hhist & Hmenu & Hne).
  fold m in Hidx, Hhist, Hmenu, Hne. unfold index_in_range in Hidx.
  rewrite Hs in Hidx.
  destruct (nth_error available_languages (N.to_nat (selected_index m)))
    as [lang |] eqn:Hnth; [| apply nth_error_None in Hnth; simpl in *; lia].
  exists lang. split; [reflexivity |].
  unfold handle_button_select. rewrite Hs, Hnth.
  rewrite (set_language_available _ _ _ Hnth). unfold handle_button_back. simpl.
  rewrite Hs.
  destruct (state_history m) as [| previous older] eqn:Hh.
  - exfalso. apply Hne; [try rewrite Hs; discriminate | reflexivity].
  - inversion Hhist; subst. simpl. repeat split.
Qed.

Lemma select_sets_language_witness :
  exists lang,
    nth_error available_languages 1 = Some lang
    /\ current_language
         (snd (handle_button_select
                 (fold_left press
                    [Client.down; Client.down; Client.select; Client.down]
                    (init "en"))))
       = lang.
Proof.
  destruct (select_sets_language "en"
              [Client.down; Client.down; Client.select; Client.down] eq_refl)
    as (lang & Hnth & _ & Hlang & _).
  exists lang. split; [exact Hnth | exact Hlang].
Defined.

(** X21. Back always ends at the main menu: from any menu reached by
    presses, after Back the state is the main menu and [in_menu] is
    true; the handler answers [stop_polling] exactly when it was pressed
    in the polling state. *)
Theorem back_leads_to_main_menu (language : string)
    (presses : list Client.button) :
  let m := fold_left press presses (init language) in
  current_state (snd (handle_button_back m)) = STATE_MAIN_MENU
  /\ in_menu (snd (handle_button_back m)) = true
  /\ (fst (handle_button_back m) = Some stop_polling
      <-> current_state m = STATE_POLLING)
  /\ (current_state m <> STATE_MAIN_MENU ->
      selected_index (snd (handle_button_back m)) = 0%N).
Proof.
  intros m.
  destruct (presses_invariant (init language) presses (init_invariant language))
    as (_ & Hhist & Hmenu & Hne).
  fold m in Hhist, Hmenu, Hne. clearbody m.
  destruct m as [lang st idx menu hist]. simpl in *.
  assert (Hmenu_true : st <> STATE_POLLING -> menu = true).
  { intros H. destruct menu; [reflexivity |].
    exfalso. apply H, Hmenu. reflexivity. }
  unfold handle_button_back. simpl.
  destruct st; simpl.
  - destruct hist as [| p o]; simpl.
    + repeat split; try discriminate; try (apply Hmenu_true; discriminate).
      intros H. exfalso. apply H. reflexivity.
    + inversion Hhist; subst.
      repeat split; try discriminate; apply Hmenu_true; discriminate.
  - repeat split.
  - destruct hist as [| p o]; simpl.
    + exfalso. apply Hne; [discriminate | reflexivity].
    + inversion Hhist; subst.
      repeat split; try discriminate; apply Hmenu_true; discriminate.
  - destruct hist as [| p o]; simpl.
    + exfalso. apply Hne; [discriminate | reflexivity].
    + inversion Hhist; subst.
      repeat split; try discriminate; apply Hmenu_true; discriminate.
Qed.

Lemma polling_session_step (m : t) :
  current_state m = STATE_MAIN_MENU -> selected_index m = 0%N ->
  let m' := press (press m Client.select) Client.back in
  current_state m' = STATE_MAIN_MENU
  /\ selected_index m' = 0%N
  /\ state_history m' = STATE_MAIN_MENU :: state_history m.
Proof.
  intros Hs Hi. unfold press, handle_button_select, handle_button_back.
  rewrite Hs, Hi. simpl. rewrite Hs. repeat split.
Qed.

(** X22. Leaving the polling state with Back does not take its entry
    off the history: after [n] polling sessions, each entered with
    Select on the first main-menu entry and left with Back, the menu is
    at the main menu again and the history holds [n] entries. *)
Theorem polling_sessions_grow_history (language : string) (n : nat) :
  let m := fold_left press (polling_sessions n) (init language) in
  current_state m = STATE_MAIN_MENU
  /\ selected_index m = 0%N
  /\ List.length (state_history m) = n.
Proof.
  assert (Hgen : forall m0,
            current_state m0 = STATE_MAIN_MENU -> selected_index m0 = 0%N ->
            let m := fold_left press (polling_sessions n) m0 in
            current_state m = STATE_MAIN_MENU
            /\ selected_index m = 0%N
            /\ List.length (state_history m)
               = (n + List.length (state_history m0))%nat).
  { induction n as [| n IH]; intros m0 Hs Hi.
    - simpl. auto.
    - unfold polling_sessions. cbn [repeat List.concat app fold_left].
      destruct (polling_session_step m0 Hs Hi) as (Hs' & Hi' & Hh').
      destruct (IH _ Hs' Hi') as (H1 & H2 & H3).
      split; [exact H1 |]. split; [exact H2 |].
      unfold polling_sessions in H3. rewrite H3, Hh'. simpl. lia. }
  intros m. destruct (Hgen (init language) eq_refl eq_refl) as (H1 & H2 & H3).
  fold m in H1, H2, H3. simpl in H3. split; [exact H1 |]. split; [exact H2 |]. lia.
Qed.

End Menu.

(* ===================================================================== *)
(** * The client: heartbeat, queue and buttons *)
(* ===================================================================== *)

Section Polling.

Import Client Usage.

Lemma send_ping_sent (self : t) (time : R) :
  time - last_ping_time self >= PING_INTERVAL ->
  send_ping self time = (set_last_ping_time self time, [Ping (status self)]).
Proof. intros H. unfold send_ping. rewrite Rgeb_true by assumption. reflexivity. Qed.

Lemma send_ping_skipped (self : t) (time : R) :
  time - last_ping_time self < PING_INTERVAL ->
  send_ping self time = (self, []).
Proof. intros H. unfold send_ping. rewrite Rgeb_false by assumption. reflexivity. Qed.

Lemma pings_sent_spaced (self : t) (times : list R) :
  spaced PING_INTERVAL (last_ping_time self) (pings_sent self times).
Proof.
  revert self. induction times as [| time rest IH]; intros self; simpl.
  - exact I.
  - destruct (Rge_dec (time - last_ping_time self) PING_INTERVAL) as [H | H].
    + rewrite send_ping_sent by assumption. simpl. split; [assumption |].
      apply (IH (set_last_ping_time self time)).
    + rewrite send_ping_skipped by lra. apply IH.
Qed.

(** X23. The heartbeat is rate limited: however often and at whatever
    clock readings [send_ping] is called, each ping that is sent comes at
    least [PING_INTERVAL] (120 s) after the one before it, the first one
    after the recorded time of the last ping; a ping carries the status
    of the client and leaves everything but that recorded time as it
    is. *)
Theorem pings_are_spaced (self : t) (times : list R) (time : R) :
  spaced PING_INTERVAL (last_ping_time self) (pings_sent self times)
  /\ (time - last_ping_time self >= 120 ->
      snd (send_ping self time) = [Ping (status self)]
      /\ last_ping_time (fst (send_ping self time)) = time)
  /\ (time - last_ping_time self < 120 -> send_ping self time = (self, []))
  /\ status (fst (send_ping self time)) = status self
  /\ last_queue_check_time (fst (send_ping self time)) = last_queue_check_time self
  /\ printer (fst (send_ping self time)) = printer self
  /\ stats (fst (send_ping self time)) = stats self.
Proof.
  split; [apply pings_sent_spaced |].
  split; [intros H; rewrite send_ping_sent by exact H; split; reflexivity |].
  split; [apply send_ping_skipped |].
  unfold send_ping. destruct (Rgeb _ _); repeat split.
Qed.

Lemma pings_are_spaced_witness :
  pings_sent (init 0) [100; 130; 200; 260] = [130; 260]
  /\ spaced PING_INTERVAL 0 [130; 260].
Proof.
  assert (H : pings_sent (init 0) [100; 130; 200; 260] = [130; 260]).
  { simpl.
    rewrite send_ping_skipped by (unfold PING_INTERVAL; simpl; lra).
    rewrite send_ping_sent by (unfold PING_INTERVAL; simpl; lra). simpl.
    rewrite send_ping_skipped by (unfold PING_INTERVAL; simpl; lra).
    rewrite send_ping_sent by (unfold PING_INTERVAL; simpl; lra). reflexivity. }
  split; [exact H |].
  rewrite <- H.
  exact (proj1 (pings_are_spaced (init 0) [100; 130; 200; 260] 0)).
Defined.

(** X24. [check_queue] hands out a job only when the client is idle and
    the poll interval (10 s) has passed since the last fetch, and then it
    is the first job of the queue; while printing it neither asks the
    server nor touches the time of the last fetch; and after a fetch no
    further fetch is made before the interval has passed again. *)
Theorem check_queue_behaviour (self : t) (time : R)
    (queue : list IoTPrinterClient.Job) :
  let '(self', calls, job) := check_queue self time queue in
  (forall j, job = Some j ->
     status self = STATUS_IDLE
     /\ time - last_queue_check_time self >= 10
     /\ (exists rest, queue = j :: rest)
     /\ calls = [GetQueue])
  /\ (status self <> STATUS_IDLE -> self' = self /\ calls = [] /\ job = None)
  /\ (calls = [] -> self' = self /\ job = None)
  /\ (calls <> [] ->
      last_queue_check_time self' = time
      /\ forall time' queue',
           time' - time < 10 ->
           check_queue self' time' queue' = (self', [], None)).
Proof.
  unfold check_queue.
  destruct (status self) eqn:Hs; simpl.
  - destruct (Rgeb (time - last_queue_check_time self) QUEUE_POLL_INTERVAL) eqn:Hg.
    + apply Rgeb_spec in Hg. unfold QUEUE_POLL_INTERVAL in Hg.
      split.
      { intros j Hj. destruct queue as [| j' rest]; [discriminate |].
        injection Hj as ->. repeat split; eauto. }
      split; [intros H; contradiction |].
      split; [discriminate |].
      intros _. split; [reflexivity |].
      intros time' queue' Ht. simpl. rewrite Hs. simpl.
      rewrite Rgeb_false by (unfold QUEUE_POLL_INTERVAL; lra). reflexivity.
    + split; [discriminate |]. split; [intros H; contradiction |].
      split; [auto |]. intros H. contradiction.
  - split; [discriminate |]. split; [auto |]. split; [auto |].
    intros H. contradiction.
  - split; [discriminate |]. split; [auto |]. split; [auto |].
    intros H. contradiction.
Qed.

(** ** Buttons *)

Lemma handle_buttons_menu (c : t) (b : button) :
  menu (handle_buttons c true (Some b)) = press (menu c) b.
Proof.
  unfold handle_buttons, press. simpl. destruct b; simpl; try reflexivity.
  - destruct (MenuSystem.handle_button_select (menu c)) as [[[|] |] m];
      reflexivity.
  - destruct (MenuSystem.handle_button_back (menu c)) as [[[|] |] m];
      reflexivity.
Qed.

Lemma handle_buttons_invariant (c : t) (pressed : option button) :
  buttons_invariant c -> buttons_invariant (handle_buttons c true pressed).
Proof.
  intros [Hmenu Hpoll]. destruct pressed as [b |]; [| split; assumption].
  split.
  { rewrite handle_buttons_menu. apply press_invariant, Hmenu. }
  destruct Hmenu as (Hidx & Hhist & Hin & Hne).
  unfold handle_buttons. simpl.
  destruct c as [st lp lq cj pm pr sts m]. simpl in *.
  destruct m as [lang ms idx im hist]. simpl in *.
  destruct b; simpl.
  - unfold MenuSystem.handle_button_up. destruct ms; simpl; exact Hpoll.
  - unfold MenuSystem.handle_button_down. destruct ms; simpl; exact Hpoll.
  - unfold MenuSystem.handle_button_select. destruct ms; simpl; try exact Hpoll.
    + destruct (idx =? 0)%N; simpl; [split; reflexivity |].
      destruct (idx =? 1)%N; simpl;
        [split; [intros H; apply Hpoll in H; discriminate | discriminate] |].
      destruct (idx =? 2)%N; simpl;
        [split; [intros H; apply Hpoll in H; discriminate | discriminate] |].
      exact Hpoll.
    + destruct (nth_error MenuSystem.available_languages (N.to_nat idx))
        as [l |] eqn:Hnth; simpl; [| exact Hpoll].
      rewrite (set_language_available _ _ _ Hnth).
      unfold MenuSystem.handle_button_back. simpl.
      destruct hist as [| p o]; simpl; [exact Hpoll |].
      inversion Hhist; subst.
      split; [intros H; apply Hpoll in H; discriminate | discriminate].
  - unfold MenuSystem.handle_button_back. destruct ms; simpl.
    + destruct hist as [| p o]; simpl; [exact Hpoll |].
      inversion Hhist; subst. exact Hpoll.
    + split; discriminate.
    + destruct hist as [| p o]; simpl; [exact Hpoll |].
      inversion Hhist; subst.
      split; [intros H; apply Hpoll in H; discriminate | discriminate].
    + destruct hist as [| p o]; simpl; [exact Hpoll |].
      inversion Hhist; subst.
      split; [intros H; apply Hpoll in H; discriminate | discriminate].
Qed.

Lemma init_buttons_invariant (now : R) : buttons_invariant (init now).
Proof.
  split; [apply init_invariant |]. simpl. split; discriminate.
Qed.

Lemma after_buttons_invariant (c : t) (pressed : list (option button)) :
  buttons_invariant c -> buttons_invariant (after_buttons c pressed).
Proof.
  unfold after_buttons. revert c.
  induction pressed as [| b rest IH]; intros c H; simpl.
  - exact H.
  - apply IH, handle_buttons_invariant, H.
Qed.

Lemma handle_buttons_frame (c : t) (enabled : bool) (pressed : option button) :
  let c' := handle_buttons c enabled pressed in
  status c' = status c
  /\ last_ping_time c' = last_ping_time c
  /\ last_queue_check_time c' = last_queue_check_time c
  /\ printer c' = printer c
  /\ stats c' = stats c.
Proof.
  unfold handle_buttons. destruct enabled; simpl; [| repeat split].
  destruct pressed as [[| | |] |]; simpl;
    try destruct (MenuSystem.handle_button_select (menu c)) as [[[|] |] m];
    try destruct (MenuSystem.handle_button_back (menu c)) as [[[|] |] m'];
    repeat split.
Qed.

(** X25. The client and the menu agree on polling: starting from a new
    client, whatever the buttons report, [polling_mode] is true exactly
    when the menu is in the polling state, which is exactly when
    [in_menu] is false.  With the buttons disabled nothing changes, and
    the buttons never touch the status, the timers, the printer or the
    statistics. *)
Theorem polling_mode_follows_menu (now : R) (pressed : list (option button)) :
  let c := after_buttons (init now) pressed in
  (polling_mode c = true
   <-> MenuSystem.current_state (menu c) = MenuSystem.STATE_POLLING)
  /\ polling_mode c = negb (MenuSystem.in_menu (menu c))
  /\ (forall b, handle_buttons c false b = c)
  /\ (forall enabled b,
        status (handle_buttons c enabled b) = status c
        /\ last_ping_time (handle_buttons c enabled b) = last_ping_time c
        /\ last_queue_check_time (handle_buttons c enabled b)
           = last_queue_check_time c
        /\ printer (handle_buttons c enabled b) = printer c
        /\ stats (handle_buttons c enabled b) = stats c).
Proof.
  intros c.
  destruct (after_buttons_invariant (init now) pressed (init_buttons_invariant now))
    as [(_ & _ & Hin & _) Hpoll].
  fold c in Hin, Hpoll.
  split; [exact Hpoll |]. split.
  { destruct (polling_mode c) eqn:Hp, (MenuSystem.in_menu (menu c)) eqn:Hm;
      try reflexivity; exfalso.
    - assert (H : MenuSystem.current_state (menu c) = MenuSystem.STATE_POLLING)
        by (apply Hpoll; reflexivity).
      apply Hin in H. congruence.
    - assert (H : MenuSystem.current_state (menu c) = MenuSystem.STATE_POLLING)
        by (apply Hin; reflexivity).
      apply Hpoll in H. congruence. }
  split; [reflexivity |].
  intros enabled b. apply handle_buttons_frame.
Qed.

End Polling.

(* ===================================================================== *)
(** * The client: printing a job *)
(* ===================================================================== *)

Section Printing.

Import Client Usage Scenario.

(** ** The monitoring loop *)

Lemma send_ping_frame (self : t) (time : R) :
  let '(self', pings) := send_ping self time in
  Forall (fun c => is_ping_call c = true) pings
  /\ printer self' = printer self
  /\ status self' = status self
  /\ stats self' = stats self
  /\ menu self' = menu self
  /\ polling_mode self' = polling_mode self.
Proof.
  unfold send_ping. destruct (Rgeb _ _); simpl; repeat split;
    repeat constructor.
Qed.

(** The snapshot written into the controller [elapsed] seconds after
    the start. *)
Lemma set_progress_twice (p : PrinterController.t) (l1 l2 : Z) (m1 m2 : R) :
  PrinterController.set_progress (PrinterController.set_progress p l1 m1) l2 m2
  = PrinterController.set_progress p l2 m2.
Proof. reflexivity. Qed.

Lemma set_progress_same (p : PrinterController.t) :
  PrinterController.set_progress p (PrinterController.current_layer p)
                                   (PrinterController.used_material p) = p.
Proof. destruct p. reflexivity. Qed.

Lemma monitor_spec (ticks : list Tick) :
  forall (self : t) (start : R),
    PrinterController.is_printing (printer self) = true ->
    PrinterController.print_start_time (printer self) = Some start ->
    let '(self', calls, how) := _monitor_printing self ticks in
    let duration := PrinterController.estimated_duration (printer self) in
    (how = Running \/ how = Result true)
    /\ Forall (fun c => is_ping_call c = true) calls
    /\ status self' = status self
    /\ stats self' = stats self
    /\ menu self' = menu self
    /\ polling_mode self' = polling_mode self
    /\ (exists layer material,
          printer self' = PrinterController.set_progress (printer self) layer material)
    /\ (how = Result true ->
        0 < duration
        /\ PrinterController.used_material (printer self')
           = PrinterController.estimated_material (printer self)
        /\ PrinterController.current_layer (printer self')
           = Z.of_N (PrinterController.total_layers (printer self)))
    /\ (duration <= 0 -> how = Running)
    /\ (0 < duration ->
        Exists (fun tick => at_complete tick - start >= duration) ticks ->
        how = Result true)
    /\ (how = Result true ->
        Exists (fun tick => at_complete tick - start >= duration) ticks).
Proof.
  induction ticks as [| tick rest IH]; intros self start Hp Hs.
  - simpl. rewrite Hp. simpl.
    split; [left; reflexivity |]. split; [constructor |].
    repeat (split; [reflexivity |]).
    split; [eexists; eexists; symmetry; apply set_progress_same |].
    split; [discriminate |]. split; [reflexivity |].
    split; [intros _ H; inversion H | discriminate].
  - cbn [_monitor_printing]. rewrite Hp. cbn [negb].
    rewrite (get_status_printing (printer self) (at_status tick) start Hp Hs).
    cbv zeta.
    set (p1 := PrinterController.set_progress (printer self) _ _).
    pose proof (send_ping_frame (set_printer self p1) (at_ping tick)) as Hping.
    destruct (send_ping (set_printer self p1) (at_ping tick)) as [self1 pings].
    destruct Hping as (Hpings & Hpr1 & Hst1 & Hstats1 & Hmenu1 & Hpoll1).
    simpl in Hpr1, Hst1, Hstats1, Hmenu1, Hpoll1.
    cbn [PrinterController.simulate_error].
    assert (Hp1 : PrinterController.is_printing (printer self1) = true)
      by (rewrite Hpr1; exact Hp).
    assert (Hs1 : PrinterController.print_start_time (printer self1) = Some start)
      by (rewrite Hpr1; exact Hs).
    pose proof (get_status_printing (printer self1) (at_complete tick) start
                  Hp1 Hs1) as Hget.
    cbv zeta in Hget. rewrite (is_complete_eq _ _ _ _ Hget).
    cbn [PrinterController.st_progress].
    assert (Hprog : progress_of (printer self1) (at_complete tick - start)
                    = progress_of (printer self) (at_complete tick - start))
      by (rewrite Hpr1; reflexivity).
    rewrite Hprog.
    set (pr := progress_of (printer self) (at_complete tick - start)).
    set (p2 := PrinterController.set_progress (printer self1) _ _).
    assert (Hp2 : p2 = PrinterController.set_progress (printer self)
                         (Py.int (pr / 100 * IZR (Z.of_N
                            (PrinterController.total_layers (printer self)))))
                         (pr / 100 * PrinterController.estimated_material
                                       (printer self))).
    { subst p2. rewrite Hpr1. reflexivity. }
    clearbody p2.
    destruct (Rgeb pr 100) eqn:Hdone.
    + (* the job is complete *)
      apply Rgeb_spec in Hdone.
      assert (Hd : 0 < PrinterController.estimated_duration (printer self)).
      { destruct (Rlt_dec 0 (PrinterController.estimated_duration (printer self)))
          as [Hd | Hd]; [exact Hd |].
        unfold pr, progress_of in Hdone. rewrite Rgtb_false in Hdone by lra. lra. }
      assert (H100 : pr = 100).
      { pose proof (progress_of_le_100 (printer self) (at_complete tick - start)).
        fold pr in H. lra. }
      simpl.
      split; [right; reflexivity |]. split; [exact Hpings |].
      split; [exact Hst1 |]. split; [exact Hstats1 |].
      split; [exact Hmenu1 |]. split; [exact Hpoll1 |].
      split; [rewrite Hp2; eauto |].
      split.
      { intros _. split; [exact Hd |]. rewrite Hp2, H100. simpl.
        replace (100 / 100 * IZR (Z.of_N (PrinterController.total_layers (printer self))))
          with (IZR (Z.of_N (PrinterController.total_layers (printer self)))) by lra.
        rewrite int_IZR. split; [lra | reflexivity]. }
      split; [intros Hle; lra |].
      split; [intros _ _; reflexivity |].
      intros _. apply Exists_cons_hd.
      apply (progress_of_done_inv (printer self)); [exact Hd | fold pr; lra].
    + (* another round *)
      assert (Hlt : pr < 100).
      { destruct (Rlt_dec pr 100) as [H | H]; [exact H |].
        rewrite Rgeb_true in Hdone by lra. discriminate. }
      specialize (IH (set_printer self1 p2) start).
      assert (Hp2' : PrinterController.is_printing (printer (set_printer self1 p2)) = true)
        by (simpl; rewrite Hp2; exact Hp).
      assert (Hs2' : PrinterController.print_start_time (printer (set_printer self1 p2))
                     = Some start)
        by (simpl; rewrite Hp2; exact Hs).
      specialize (IH Hp2' Hs2').
      destruct (_monitor_printing (set_printer self1 p2) rest)
        as [[self3 calls] how].
      cbv zeta in IH. simpl in IH.
      destruct IH as (Hhow & Hcalls & Hst3 & Hstats3 & Hmenu3 & Hpoll3
                      & (layer & material & Hpr3) & Hres & Hzero & Hend & Hlate).
      rewrite Hp2 in Hpr3, Hres, Hzero, Hend, Hlate.
      simpl in Hres, Hzero, Hend, Hlate.
      split; [exact Hhow |].
      split; [apply Forall_app; split; assumption |].
      split; [congruence |]. split; [congruence |].
      split; [congruence |]. split; [congruence |].
      split; [exists layer, material; rewrite Hpr3; reflexivity |].
      split.
      { intros H. destruct (Hres H) as (Hd & Hused & Hlayer).
        rewrite Hpr3. rewrite Hpr3 in Hused, Hlayer. simpl in *.
        repeat split; assumption. }
      split; [exact Hzero |].
      split; [| intros H; apply Exists_cons_tl, Hlate, H].
      intros Hd Hex. apply Hend; [exact Hd |].
      inversion Hex as [? ? Hhere | ? ? Hlater]; subst; [| exact Hlater].
      exfalso.
      assert (pr = 100); [| lra].
      apply progress_of_done; [exact Hd | exact Hhere].
Qed.

(** Once the loop is left with a result, further rounds do not matter:
    they are not run. *)
Lemma monitor_more (ticks : list Tick) :
  forall (self self' : t) (calls : list api_call) (success : bool)
         (more : list Tick),
    _monitor_printing self ticks = (self', calls, Result success) ->
    _monitor_printing self (ticks ++ more) = (self', calls, Result success).
Proof.
  induction ticks as [| tick rest IH]; intros self self' calls success more.
  - cbn [_monitor_printing app].
    destruct (negb (PrinterController.is_printing (printer self))) eqn:Hp;
      [| discriminate].
    intros H. destruct more; cbn [_monitor_printing]; rewrite Hp; exact H.
  - cbn [app _monitor_printing].
    destruct (negb (PrinterController.is_printing (printer self)));
      [trivial |].
    destruct (PrinterController.get_status (printer self) (at_status tick))
      as [[st p1] | e]; [| trivial].
    destruct (send_ping (set_printer self p1) (at_ping tick)) as [self1 pings].
    destruct (PrinterController.simulate_error (printer self1)); [trivial |].
    destruct (PrinterController.is_complete (printer self1) (at_complete tick))
      as [[done p2] | e]; [| trivial].
    destruct done; [trivial |].
    destruct (_monitor_printing (set_printer self1 p2) rest)
      as [[self3 calls3] how3] eqn:Hrest.
    intros H. injection H as <- <- ->.
    rewrite (IH _ _ _ _ more Hrest). reflexivity.
Qed.

Lemma start_printing_facts (c : t) (job_id : option Z)
    (estimate : IoTPrinterClient.Estimate) (t1 t2 : R) :
  let c1 := _start_printing c job_id estimate t1 t2 in
  PrinterController.is_printing (printer c1) = true
  /\ PrinterController.print_start_time (printer c1) = Some t2
  /\ PrinterController.estimated_duration (printer c1)
     = IoTPrinterClient.time_minutes estimate * 60 / 3
  /\ PrinterController.estimated_material (printer c1)
     = IoTPrinterClient.material_grams estimate
  /\ PrinterController.total_layers (printer c1)
     = IoTPrinterClient.layers estimate
  /\ status c1 = STATUS_PRINTING
  /\ stats c1 = Statistics.start_job (stats c) t1
                  (IoTPrinterClient.time_minutes estimate)
                  (IoTPrinterClient.material_grams estimate).
Proof. repeat split. Qed.

Lemma monitor_started (c : t) (job_id : option Z)
    (estimate : IoTPrinterClient.Estimate) (t1 t2 : R) (ticks : list Tick) :
  let c1 := _start_printing c job_id estimate t1 t2 in
  let duration := IoTPrinterClient.time_minutes estimate * 60 / 3 in
  let '(c', calls, how) := _monitor_printing c1 ticks in
  (how = Running \/ how = Result true)
  /\ Forall (fun call => is_ping_call call = true) calls
  /\ (how = Result true ->
      0 < IoTPrinterClient.time_minutes estimate
      /\ PrinterController.used_material (printer c')
         = IoTPrinterClient.material_grams estimate
      /\ PrinterController.current_layer (printer c')
         = Z.of_N (IoTPrinterClient.layers estimate))
  /\ (IoTPrinterClient.time_minutes estimate <= 0 -> how = Running)
  /\ (0 < IoTPrinterClient.time_minutes estimate ->
      Exists (fun tick => at_complete tick - t2 >= duration) ticks ->
      how = Result true)
  /\ status c' = STATUS_PRINTING
  /\ stats c' = stats c1
  /\ menu c' = menu c
  /\ polling_mode c' = polling_mode c
  /\ last_queue_check_time c' = last_queue_check_time c
  /\ (how = Result true -> Exists (late t2 duration) ticks).
Proof.
  intros c1 duration.
  pose proof (monitor_spec ticks c1 t2 eq_refl eq_refl) as H.
  assert (Hq : forall ticks' c0,
             last_queue_check_time (fst (fst (_monitor_printing c0 ticks')))
             = last_queue_check_time c0).
  { induction ticks' as [| tick rest IH]; intros c0; simpl.
    - destruct (negb _); reflexivity.
    - destruct (negb _); [reflexivity |].
      destruct (PrinterController.get_status _ _) as [[st p1] | e];
        [| reflexivity].
      destruct (send_ping (set_printer c0 p1) (at_ping tick)) as [c01 pings] eqn:Hsp.
      assert (Hlq : last_queue_check_time c01 = last_queue_check_time c0).
      { unfold send_ping in Hsp. destruct (Rgeb _ _); injection Hsp as <- _;
          reflexivity. }
      simpl.
      destruct (PrinterController.is_complete _ _) as [[done p2] | e];
        [| exact Hlq].
      destruct done; [exact Hlq |].
      specialize (IH (set_printer c01 p2)).
      destruct (_monitor_printing (set_printer c01 p2) rest) as [[c3 calls] how].
      simpl in *. congruence. }
  specialize (Hq ticks c1).
  destruct (_monitor_printing c1 ticks) as [[c' calls] how].
  cbv zeta in H. simpl in Hq.
  destruct H as (Hhow & Hcalls & Hst & Hstats & Hmenu & Hpoll & _
                 & Hres & Hzero & Hend & Hlate).
  change (PrinterController.estimated_duration (printer c1))
    with (IoTPrinterClient.time_minutes estimate * 60 / 3) in *.
  change (PrinterController.estimated_material (printer c1))
    with (IoTPrinterClient.material_grams estimate) in *.
  change (PrinterController.total_layers (printer c1))
    with (IoTPrinterClient.layers estimate) in *.
  split; [exact Hhow |]. split; [exact Hcalls |].
  split; [intros Hr; destruct (Hres Hr) as (Hd & Hu & Hl);
          repeat split; try assumption; lra |].
  split; [intros Hle; apply Hzero; lra |].
  split; [intros Hpos Hex; apply Hend; [lra | exact Hex] |].
  split; [assumption |]. split; [assumption |]. split; [assumption |].
  split; [assumption |]. split; [assumption |].
  exact Hlate.
Qed.

(** X26. Monitoring a job that was just started: the loop makes no
    calls but pings, never reports a failure and never raises; it is
    left exactly at the first round whose clock, read in [is_complete],
    has reached the estimated end (minutes * 60 / 3 seconds after the
    start): while every round is earlier than that the loop goes on, and
    at the first round that is not, the loop is left with success
    whatever rounds would follow; the controller then shows the whole
    estimate as used material and the last layer.  With an estimate of
    0 minutes or less the loop is never left. *)
Theorem monitoring_a_started_job (c : t) (job_id : option Z)
    (estimate : IoTPrinterClient.Estimate) (t1 t2 : R) (ticks : list Tick) :
  let c1 := _start_printing c job_id estimate t1 t2 in
  let duration := IoTPrinterClient.time_minutes estimate * 60 / 3 in
  let '(c', calls, how) := _monitor_printing c1 ticks in
  (how = Running \/ how = Result true)
  /\ Forall (fun call => is_ping_call call = true) calls
  /\ (how = Result true ->
      0 < IoTPrinterClient.time_minutes estimate
      /\ PrinterController.used_material (printer c')
         = IoTPrinterClient.material_grams estimate
      /\ PrinterController.current_layer (printer c')
         = Z.of_N (IoTPrinterClient.layers estimate))
  /\ (IoTPrinterClient.time_minutes estimate <= 0 -> how = Running)
  /\ (0 < IoTPrinterClient.time_minutes estimate ->
      Exists (fun tick => at_complete tick - t2 >= duration) ticks ->
      how = Result true)
  /\ status c' = STATUS_PRINTING
  /\ stats c' = stats c1
  /\ (Forall (fun tick => at_complete tick - t2 < duration) ticks ->
      how = Running)
  /\ (forall before tick after,
        ticks = (before ++ tick :: after)%list ->
        Forall (fun tick => at_complete tick - t2 < duration) before ->
        at_complete tick - t2 >= duration ->
        0 < IoTPrinterClient.time_minutes estimate ->
        (exists c0 calls0,
           _monitor_printing c1 before = (c0, calls0, Running))
        /\ _monitor_printing c1 (before ++ [tick]) = (c', calls, Result true)).
Proof.
  assert (Hearly : forall rounds c0 calls0 how0,
             _monitor_printing (_start_printing c job_id estimate t1 t2) rounds
             = (c0, calls0, how0) ->
             Forall (fun tick => at_complete tick - t2
                                 < IoTPrinterClient.time_minutes estimate * 60 / 3)
                    rounds ->
             how0 = Running).
  { intros rounds c0 calls0 how0 Hrun Hall.
    pose proof (monitor_started c job_id estimate t1 t2 rounds) as H.
    cbv zeta in H. rewrite Hrun in H.
    destruct H as ([-> | ->] & H); [reflexivity |].
    destruct H as (_ & _ & _ & _ & _ & _ & _ & _ & _ & Hlate).
    specialize (Hlate eq_refl). apply Exists_exists in Hlate as (tick & Hin & Ht).
    rewrite Forall_forall in Hall. specialize (Hall tick Hin).
    unfold late in Ht. lra. }
  pose proof (monitor_started c job_id estimate t1 t2 ticks) as H.
  cbv zeta in *.
  destruct (_monitor_printing (_start_printing c job_id estimate t1 t2) ticks)
    as [[c' calls] how] eqn:Hrun.
  destruct H as (H1 & H2 & H3 & H4 & H5 & H6 & H7 & _).
  split; [exact H1 |]. split; [exact H2 |]. split; [exact H3 |].
  split; [exact H4 |]. split; [exact H5 |]. split; [exact H6 |].
  split; [exact H7 |].
  split; [apply (Hearly ticks c' calls how Hrun) |].
  intros before tick after Hticks Hbefore Htick Hpos.
  split.
  - destruct (_monitor_printing (_start_printing c job_id estimate t1 t2) before)
      as [[c0 calls0] how0] eqn:Hrun0.
    exists c0, calls0. f_equal. apply (Hearly before c0 calls0 how0 Hrun0 Hbefore).
  - pose proof (monitor_started c job_id estimate t1 t2 (before ++ [tick])) as H.
    cbv zeta in H.
    destruct (_monitor_printing (_start_printing c job_id estimate t1 t2)
                                (before ++ [tick]))
      as [[c0 calls0] how0] eqn:Hrun0.
    destruct H as (_ & _ & _ & _ & Hend & _).
    assert (how0 = Result true) as ->.
    { apply Hend; [exact Hpos |].
      apply Exists_app. right. apply Exists_cons_hd. exact Htick. }
    apply (monitor_more _ _ _ _ _ after) in Hrun0.
    rewrite <- app_assoc in Hrun0. cbn [app] in Hrun0.
    rewrite <- Hticks, Hrun in Hrun0. injection Hrun0 as <- <- _. reflexivity.
Qed.

Lemma monitoring_a_started_job_witness :
  let estimate := {| IoTPrinterClient.time_minutes := 45;
                     IoTPrinterClient.material_grams := 12;
                     IoTPrinterClient.layers := 100%N |} in
  exists c' calls,
    _monitor_printing (_start_printing (init 0) (Some 7%Z) estimate 0 0)
                      (ticks late_clock)
    = (c', calls, Result true).
Proof.
  intros estimate.
  pose proof (monitoring_a_started_job (init 0) (Some 7%Z) estimate 0 0
                (ticks late_clock)) as H.
  cbv zeta in H.
  destruct (_monitor_printing (_start_printing (init 0) (Some 7%Z) estimate 0 0)
                              (ticks late_clock)) as [[c' calls] how].
  destruct H as (_ & _ & _ & _ & Hend & _).
  exists c', calls. f_equal. apply Hend.
  - simpl. lra.
  - constructor. simpl. lra.
Defined.

(** ** [process_job] *)

Section Process.

Variable float : string -> option R.
Variable str : exn -> string.

(** A job whose G-code was downloaded names a path: it is not an empty
    dict. *)
Lemma downloaded_job_not_empty (world : IoTPrinterClient.World)
    (job : IoTPrinterClient.Job) :
  IoTPrinterClient._download_gcode world (IoTPrinterClient.gcode_path_of job)
  = true ->
  IoTPrinterClient.job_is_empty job = false.
Proof.
  unfold IoTPrinterClient._download_gcode, IoTPrinterClient.gcode_path_of,
    IoTPrinterClient.job_is_empty.
  destruct (IoTPrinterClient.id_ job), (IoTPrinterClient.Id job),
    (IoTPrinterClient.gCodeFilePath job), (IoTPrinterClient.GCodeFilePath job);
    cbn [IoTPrinterClient.get IoTPrinterClient.text_or
         IoTPrinterClient.is_missing andb];
    intros H; try discriminate H; reflexivity.
Qed.

(** The ways through [process_job]. *)
Lemma process_job_unreadable (world : IoTPrinterClient.World) (c : t)
    (job : IoTPrinterClient.Job) (clock : Clock) (e : exn) :
  IoTPrinterClient.print_job_header job = Raised e ->
  current_job c = None ->
  process_job float str world c job clock = Done (finally_block c) [].
Proof.
  intros Hh Hc. unfold process_job, try_block. cbv zeta. rewrite Hh.
  unfold except_block. rewrite Hc. reflexivity.
Qed.

Lemma process_job_not_downloaded (world : IoTPrinterClient.World) (c : t)
    (job : IoTPrinterClient.Job) (clock : Clock)
    (material : IoTPrinterClient.Material) :
  IoTPrinterClient.print_job_header job = Returned material ->
  IoTPrinterClient._download_gcode world (IoTPrinterClient.gcode_path_of job)
  = false ->
  process_job float str world c job clock =
  Done (finally_block
          (set_stats c (Statistics.finish_job (stats c) (at_finish clock)
                                              false None)))
       [Finish (IoTPrinterClient.job_id_of job) false None
               (Some "Failed to download GCode"%string)].
Proof.
  intros Hh Hd. unfold process_job, try_block. cbv zeta. rewrite Hh, Hd.
  reflexivity.
Qed.

Lemma process_job_estimate_raised (world : IoTPrinterClient.World) (c : t)
    (job : IoTPrinterClient.Job) (clock : Clock)
    (material : IoTPrinterClient.Material) (e : exn) :
  IoTPrinterClient.print_job_header job = Returned material ->
  IoTPrinterClient._download_gcode world (IoTPrinterClient.gcode_path_of job)
  = true ->
  IoTPrinterClient._parse_and_estimate float world job material = Raised e ->
  process_job float str world c job clock =
  if id_is_truthy (IoTPrinterClient.job_id_of job) then
    Done (finally_block
            (set_stats c (Statistics.finish_job (stats c) (at_finish clock)
                                                false None)))
         [Finish (IoTPrinterClient.job_id_of job) false None (Some (str e))]
  else Done (finally_block c) [].
Proof.
  intros Hh Hd He. unfold process_job, try_block. cbv zeta.
  rewrite Hh, Hd, He. cbn [negb]. unfold except_block.
  cbn [current_job set_current_job].
  rewrite (downloaded_job_not_empty world job Hd).
  destruct (id_is_truthy (IoTPrinterClient.job_id_of job)); reflexivity.
Qed.

Lemma process_job_not_started (world : IoTPrinterClient.World) (c : t)
    (job : IoTPrinterClient.Job) (clock : Clock)
    (material : IoTPrinterClient.Material)
    (estimate : IoTPrinterClient.Estimate) :
  IoTPrinterClient.print_job_header job = Returned material ->
  IoTPrinterClient._download_gcode world (IoTPrinterClient.gcode_path_of job)
  = true ->
  IoTPrinterClient._parse_and_estimate float world job material
  = Returned estimate ->
  IoTPrinterClient.start_job world (IoTPrinterClient.job_id_of job)
    (IoTPrinterClient.time_minutes estimate) = false ->
  process_job float str world c job clock =
  Done (finally_block
          (set_stats c (Statistics.finish_job (stats c) (at_finish clock)
                                              false None)))
       [Start (IoTPrinterClient.job_id_of job)
              (IoTPrinterClient.time_minutes estimate);
        Finish (IoTPrinterClient.job_id_of job) false None
               (Some "Failed to start job on server"%string)].
Proof.
  intros Hh Hd He Hs. unfold process_job, try_block. cbv zeta.
  rewrite Hh, Hd, He. cbn [negb]. unfold IoTPrinterClient.estimate_is_empty.
  rewrite (_validate_material_returns job material _ Hh). cbn [negb].
  rewrite Hs. reflexivity.
Qed.

Lemma process_job_started (world : IoTPrinterClient.World) (c : t)
    (job : IoTPrinterClient.Job) (clock : Clock)
    (material : IoTPrinterClient.Material)
    (estimate : IoTPrinterClient.Estimate) :
  IoTPrinterClient.print_job_header job = Returned material ->
  IoTPrinterClient._download_gcode world (IoTPrinterClient.gcode_path_of job)
  = true ->
  IoTPrinterClient._parse_and_estimate float world job material
  = Returned estimate ->
  IoTPrinterClient.start_job world (IoTPrinterClient.job_id_of job)
    (IoTPrinterClient.time_minutes estimate) = true ->
  let job_id := IoTPrinterClient.job_id_of job in
  let start := Start job_id (IoTPrinterClient.time_minutes estimate) in
  let c1 := _start_printing (set_current_job c (Some job)) job_id estimate
              (at_stats_start clock) (at_print_start clock) in
  process_job float str world c job clock =
  match _monitor_printing c1 (ticks clock) with
  | (c2, pings, Result true) =>
      Done (finally_block
              (fst (_finish_printing c2 job_id true (at_finish clock))))
           (start :: pings
              ++ [Finish job_id true
                         (Some (PrinterController.used_material (printer c2)))
                         None])
  | (c2, pings, _) => Monitoring c2 (start :: pings)
  end.
Proof.
  intros Hh Hd He Hs job_id start c1.
  unfold process_job, try_block. cbv zeta.
  rewrite Hh, Hd, He. cbn [negb]. unfold IoTPrinterClient.estimate_is_empty.
  rewrite (_validate_material_returns job material _ Hh). cbn [negb].
  rewrite Hs. cbn [negb]. fold job_id. fold c1.
  pose proof (monitor_started (set_current_job c (Some job)) job_id estimate
                (at_stats_start clock) (at_print_start clock) (ticks clock)) as H.
  cbv zeta in H. fold c1 in H.
  destruct (_monitor_printing c1 (ticks clock)) as [[c2 pings] how].
  destruct H as ([-> | ->] & _); reflexivity.
Qed.

Lemma finish_job_estimate_as_actual (s : Statistics.t) (t1 t2 minutes grams : R)
    (success : bool) :
  Statistics.total_material_grams
    (Statistics.finish_job (Statistics.start_job s t1 minutes grams) t2 success
                           (Some grams))
  = Statistics.total_material_grams s + grams.
Proof.
  simpl. destruct (truthy grams) eqn:H; [reflexivity |].
  unfold truthy, Reqb in H. destruct (Req_dec_T grams 0) as [-> | Hn];
    [lra | discriminate].
Qed.

(** A job that is started and whose clock reaches the estimated end. *)
Lemma process_job_printed (world : IoTPrinterClient.World) (c : t)
    (job : IoTPrinterClient.Job) (clock : Clock)
    (material : IoTPrinterClient.Material)
    (estimate : IoTPrinterClient.Estimate) :
  let job_id := IoTPrinterClient.job_id_of job in
  let minutes := IoTPrinterClient.time_minutes estimate in
  let grams := IoTPrinterClient.material_grams estimate in
  IoTPrinterClient.print_job_header job = Returned material ->
  IoTPrinterClient._download_gcode world (IoTPrinterClient.gcode_path_of job)
  = true ->
  IoTPrinterClient._parse_and_estimate float world job material
  = Returned estimate ->
  IoTPrinterClient.start_job world job_id minutes = true ->
  0 < minutes ->
  Exists (late (at_print_start clock) (minutes * 60 / 3)) (ticks clock) ->
  exists c' pings,
    process_job float str world c job clock
    = Done c' (Start job_id minutes
                 :: pings ++ [Finish job_id true (Some grams) None])
    /\ Forall (fun call => is_ping_call call = true) pings
    /\ status c' = STATUS_IDLE
    /\ current_job c' = None
    /\ Statistics.successful_jobs (stats c')
       = (Statistics.successful_jobs (stats c) + 1)%N
    /\ Statistics.failed_jobs (stats c') = Statistics.failed_jobs (stats c)
    /\ Statistics.total_material_grams (stats c')
       = Statistics.total_material_grams (stats c) + grams
    /\ PrinterController.is_printing (printer c') = false
    /\ PrinterController.nozzle_temp (printer c') = 0
    /\ PrinterController.bed_temp (printer c') = 0.
Proof.
  intros job_id minutes grams Hh Hd He Hs Hpos Hend.
  rewrite (process_job_started world c job clock material estimate Hh Hd He Hs).
  pose proof (monitor_started (set_current_job c (Some job)) job_id estimate
                (at_stats_start clock) (at_print_start clock) (ticks clock)) as Hm.
  cbv zeta in Hm |- *. fold job_id in Hm |- *.
  destruct (_monitor_printing _ (ticks clock)) as [[c2 pings] how].
  destruct Hm as (_ & Hpings & Hres & _ & Hex & _ & Hstats & _).
  specialize (Hex Hpos Hend). subst how.
  destruct (Hres eq_refl) as (_ & Hused & _).
  exists (finally_block (fst (_finish_printing c2 job_id true (at_finish clock)))),
         pings.
  rewrite Hused. fold minutes grams.
  split; [reflexivity |]. split; [exact Hpings |].
  simpl. rewrite Hstats, Hused. simpl.
  fold grams.
  split; [reflexivity |]. split; [reflexivity |]. split; [reflexivity |].
  split; [reflexivity |].
  split; [| repeat split].
  destruct (truthy grams) eqn:Hg; [reflexivity |].
  unfold truthy, Reqb in Hg. destruct (Req_dec_T grams 0) as [-> | Hn];
    [lra | discriminate].
Qed.

(** X27. How a job is reported.  When [process_job] returns, the status
    is idle and no job is current.  Either the job was dropped silently,
    with no start or finish call and the statistics and the controller as
    they were, or it is reported to the server exactly once, by the last
    call of the run, and counted once.  It is dropped exactly when the
    header of the job cannot be printed (the material descriptor is
    [None], or the server estimate is), or when the weight cannot be
    computed and the job has no identifier; when the weight cannot be
    computed and the job has an identifier, the only call is a failed
    finish with the text of the exception: no start is sent.  The header
    cannot be printed, in particular, when [RequiredMaterial] is null and
    [requiredMaterial] missing or null, and when
    [EstimatedMaterialInGrams] is null and [estimatedMaterialInGrams]
    missing or null. *)
Theorem processed_job_is_reported_once (world : IoTPrinterClient.World) (c c' : t)
    (job : IoTPrinterClient.Job) (clock : Clock) (calls : list api_call) :
  current_job c = None ->
  process_job float str world c job clock = Done c' calls ->
  status c' = STATUS_IDLE
  /\ current_job c' = None
  /\ ((calls = [] /\ stats c' = stats c /\ printer c' = printer c)
      \/ (exists before ok actual message,
            calls = before
                      ++ [Finish (IoTPrinterClient.job_id_of job) ok actual message]
            /\ Forall (fun call => is_finish_call call = false) before
            /\ Statistics.total_jobs (stats c')
               = (Statistics.total_jobs (stats c) + 1)%N
            /\ Statistics.successful_jobs (stats c')
               = (Statistics.successful_jobs (stats c) + if ok then 1 else 0)%N
            /\ (ok = false -> actual = None /\ message <> None)
            /\ (ok = true -> message = None)))
  /\ (calls = [] <->
      (exists e, IoTPrinterClient.print_job_header job = Raised e)
      \/ (exists material e,
            IoTPrinterClient.print_job_header job = Returned material
            /\ IoTPrinterClient._download_gcode
                 world (IoTPrinterClient.gcode_path_of job) = true
            /\ IoTPrinterClient._parse_and_estimate float world job material
               = Raised e
            /\ id_is_truthy (IoTPrinterClient.job_id_of job) = false))
  /\ (forall material e,
        IoTPrinterClient.print_job_header job = Returned material ->
        IoTPrinterClient._download_gcode
          world (IoTPrinterClient.gcode_path_of job) = true ->
        IoTPrinterClient._parse_and_estimate float world job material
        = Raised e ->
        id_is_truthy (IoTPrinterClient.job_id_of job) = true ->
        calls = [Finish (IoTPrinterClient.job_id_of job) false None
                        (Some (str e))]
        /\ Statistics.failed_jobs (stats c')
           = (Statistics.failed_jobs (stats c) + 1)%N)
  /\ (IoTPrinterClient.get (IoTPrinterClient.requiredMaterial job) = None ->
      IoTPrinterClient.RequiredMaterial job = IoTPrinterClient.Null ->
      IoTPrinterClient.print_job_header job = Raised AttributeError)
  /\ (IoTPrinterClient.get (IoTPrinterClient.estimatedMaterialInGrams job) = None ->
      IoTPrinterClient.EstimatedMaterialInGrams job = IoTPrinterClient.Null ->
      exists e, IoTPrinterClient.print_job_header job = Raised e).
Proof.
  intros Hcur H.
  assert (Hnull :
            (IoTPrinterClient.get (IoTPrinterClient.requiredMaterial job) = None ->
             IoTPrinterClient.RequiredMaterial job = IoTPrinterClient.Null ->
             IoTPrinterClient.print_job_header job = Raised AttributeError)
            /\ (IoTPrinterClient.get (IoTPrinterClient.estimatedMaterialInGrams job)
                = None ->
                IoTPrinterClient.EstimatedMaterialInGrams job
                = IoTPrinterClient.Null ->
                exists e, IoTPrinterClient.print_job_header job = Raised e)).
  { unfold IoTPrinterClient.print_job_header, IoTPrinterClient.material_of,
      IoTPrinterClient.server_estimate_grams.
    split.
    - intros -> ->. reflexivity.
    - intros -> ->.
      destruct (IoTPrinterClient.material_or _ _); simpl; eauto. }
  cut (status c' = STATUS_IDLE
       /\ current_job c' = None
       /\ ((calls = [] /\ stats c' = stats c /\ printer c' = printer c)
           \/ (exists before ok actual message,
                 calls = before
                           ++ [Finish (IoTPrinterClient.job_id_of job) ok actual
                                      message]
                 /\ Forall (fun call => is_finish_call call = false) before
                 /\ Statistics.total_jobs (stats c')
                    = (Statistics.total_jobs (stats c) + 1)%N
                 /\ Statistics.successful_jobs (stats c')
                    = (Statistics.successful_jobs (stats c)
                       + if ok then 1 else 0)%N
                 /\ (ok = false -> actual = None /\ message <> None)
                 /\ (ok = true -> message = None)))
       /\ (calls = [] <->
           (exists e, IoTPrinterClient.print_job_header job = Raised e)
           \/ (exists material e,
                 IoTPrinterClient.print_job_header job = Returned material
                 /\ IoTPrinterClient._download_gcode
                      world (IoTPrinterClient.gcode_path_of job) = true
                 /\ IoTPrinterClient._parse_and_estimate float world job material
                    = Raised e
                 /\ id_is_truthy (IoTPrinterClient.job_id_of job) = false))
       /\ (forall material e,
             IoTPrinterClient.print_job_header job = Returned material ->
             IoTPrinterClient._download_gcode
               world (IoTPrinterClient.gcode_path_of job) = true ->
             IoTPrinterClient._parse_and_estimate float world job material
             = Raised e ->
             id_is_truthy (IoTPrinterClient.job_id_of job) = true ->
             calls = [Finish (IoTPrinterClient.job_id_of job) false None
                             (Some (str e))]
             /\ Statistics.failed_jobs (stats c')
                = (Statistics.failed_jobs (stats c) + 1)%N)).
  { intros (G1 & G2 & G3 & G4 & G5). destruct Hnull as [N1 N2].
    repeat (split; [assumption |]). assumption. }
  clear Hnull.
  destruct (IoTPrinterClient.print_job_header job) as [material | e] eqn:Hh.
  2: { rewrite (process_job_unreadable world c job clock e Hh Hcur) in H.
       injection H as <- <-.
       split; [reflexivity |]. split; [reflexivity |].
       split; [left; repeat split |].
       split; [split; [intros _; left; eauto | reflexivity] |].
       intros material e' Hm. discriminate. }
  destruct (IoTPrinterClient._download_gcode
              world (IoTPrinterClient.gcode_path_of job)) eqn:Hd.
  2: { rewrite (process_job_not_downloaded world c job clock material Hh Hd) in H.
       injection H as <- <-.
       split; [reflexivity |]. split; [reflexivity |].
       split.
       { right. exists [], false, None, (Some "Failed to download GCode"%string).
         simpl. repeat split; try discriminate; try lia. constructor. }
       split.
       { split; [discriminate |].
         intros [[e He] | (m & e & _ & Hd' & _)]; discriminate. }
       intros m e _ Hd'. discriminate. }
  destruct (IoTPrinterClient._parse_and_estimate float world job material)
    as [estimate | e] eqn:He.
  2: { rewrite (process_job_estimate_raised world c job clock material e Hh Hd He)
         in H.
       destruct (id_is_truthy (IoTPrinterClient.job_id_of job)) eqn:Hid;
         injection H as <- <-.
       - split; [reflexivity |]. split; [reflexivity |].
         split.
         { right. exists [], false, None, (Some (str e)).
           simpl. repeat split; try discriminate; try lia. constructor. }
         split.
         { split; [discriminate |].
           intros [[e' He'] | (m & e' & _ & _ & _ & Hid')]; discriminate. }
         intros m e' Hm _ He' _. injection Hm as <-.
         rewrite He in He'. injection He' as <-.
         split; [reflexivity |]. simpl. lia.
       - split; [reflexivity |]. split; [reflexivity |].
         split; [left; repeat split |].
         split.
         { split; [| reflexivity]. intros _. right. exists material, e.
           repeat split; assumption. }
         intros m e' _ _ _ Hid'. discriminate. }
  assert (Hno : forall m e',
             Returned material = Returned m ->
             IoTPrinterClient._parse_and_estimate float world job m
             = Raised e' -> False).
  { intros m e' Hm He'. injection Hm as <-. rewrite He in He'. discriminate. }
  destruct (IoTPrinterClient.start_job world (IoTPrinterClient.job_id_of job)
              (IoTPrinterClient.time_minutes estimate)) eqn:Hs.
  2: { rewrite (process_job_not_started world c job clock material estimate
                  Hh Hd He Hs) in H.
       injection H as <- <-.
       split; [reflexivity |]. split; [reflexivity |].
       split.
       { right.
         exists [Start (IoTPrinterClient.job_id_of job)
                       (IoTPrinterClient.time_minutes estimate)],
                false, None, (Some "Failed to start job on server"%string).
         simpl. repeat split; try discriminate; try lia.
         repeat constructor. }
       split.
       { split; [discriminate |].
         intros [[e' He'] | (m & e' & Hm & _ & He' & _)];
           [discriminate | destruct (Hno m e' Hm He')]. }
       intros m e' Hm _ He' _. destruct (Hno m e' Hm He'). }
  rewrite (process_job_started world c job clock material estimate Hh Hd He Hs)
    in H.
  pose proof (monitor_started (set_current_job c (Some job))
                (IoTPrinterClient.job_id_of job) estimate
                (at_stats_start clock) (at_print_start clock) (ticks clock))
    as Hm.
  cbv zeta in Hm, H.
  destruct (_monitor_printing _ (ticks clock)) as [[c2 pings] how].
  destruct Hm as (_ & Hpings & _ & _ & _ & _ & Hstats & _).
  destruct how as [[|] | e |]; try discriminate.
  injection H as <- <-.
  split; [reflexivity |]. split; [reflexivity |].
  split.
  { right.
    exists (Start (IoTPrinterClient.job_id_of job)
                  (IoTPrinterClient.time_minutes estimate) :: pings),
           true, (Some (PrinterController.used_material (printer c2))), None.
    split; [reflexivity |].
    split.
    { constructor; [reflexivity |].
      apply Forall_impl with (2 := Hpings).
      intros [st | | i m | i b a e] Hc; try discriminate; reflexivity. }
    simpl. rewrite Hstats. simpl.
    repeat split; try discriminate; lia. }
  split.
  { split; [discriminate |].
    intros [[e' He'] | (m & e' & Hm' & _ & He' & _)];
      [discriminate | destruct (Hno m e' Hm' He')]. }
  intros m e' Hm' _ He' _. destruct (Hno m e' Hm' He').
Qed.

(** X28. A job that prints to the end: when the header of the job can
    be printed, the download succeeds, the estimate is computed and
    positive, the server accepts the start and some round of the
    monitoring loop reads a clock at or past the estimated end,
    [process_job] returns; its calls are the start with the estimated
    minutes, pings, and one successful finish with the estimated grams as
    actual material; the statistics count one more successful job and
    that material, and the controller is left idle and cold. *)
Theorem job_printed_to_the_end (world : IoTPrinterClient.World) (c : t)
    (job : IoTPrinterClient.Job) (clock : Clock)
    (material : IoTPrinterClient.Material)
    (estimate : IoTPrinterClient.Estimate) :
  let job_id := IoTPrinterClient.job_id_of job in
  let minutes := IoTPrinterClient.time_minutes estimate in
  let grams := IoTPrinterClient.material_grams estimate in
  IoTPrinterClient.print_job_header job = Returned material ->
  IoTPrinterClient._download_gcode world (IoTPrinterClient.gcode_path_of job)
  = true ->
  IoTPrinterClient._parse_and_estimate float world job material
  = Returned estimate ->
  IoTPrinterClient.start_job world job_id minutes = true ->
  0 < minutes ->
  Exists (fun tick => at_complete tick - at_print_start clock >= minutes * 60 / 3)
         (ticks clock) ->
  exists c' pings,
    process_job float str world c job clock
    = Done c' (Start job_id minutes
                 :: pings ++ [Finish job_id true (Some grams) None])
    /\ Forall (fun call => is_ping_call call = true) pings
    /\ status c' = STATUS_IDLE
    /\ current_job c' = None
    /\ Statistics.successful_jobs (stats c')
       = (Statistics.successful_jobs (stats c) + 1)%N
    /\ Statistics.failed_jobs (stats c') = Statistics.failed_jobs (stats c)
    /\ Statistics.total_material_grams (stats c')
       = Statistics.total_material_grams (stats c) + grams
    /\ PrinterController.is_printing (printer c') = false
    /\ PrinterController.nozzle_temp (printer c') = 0
    /\ PrinterController.bed_temp (printer c') = 0.
Proof.
  intros job_id minutes grams Hh Hd He Hs Hpos Hend.
  exact (process_job_printed world c job clock material estimate
           Hh Hd He Hs Hpos Hend).
Qed.

(** X29. A job whose header can be printed but whose G-code cannot be
    fetched, because the job names no path, or an empty one, or because
    the download fails, is finished at once: the only call is a failed
    finish with the message "Failed to download GCode" and no material;
    no start is sent, the controller is not touched, [failed_jobs] grows
    by one and the status is idle.  No clock matters: the call always
    returns. *)
Theorem job_without_gcode_fails (world : IoTPrinterClient.World) (c : t)
    (job : IoTPrinterClient.Job) (clock : Clock)
    (material : IoTPrinterClient.Material) :
  IoTPrinterClient.print_job_header job = Returned material ->
  IoTPrinterClient.gcode_path_of job = None
  \/ IoTPrinterClient.gcode_path_of job = Some ""%string
  \/ (exists path, IoTPrinterClient.gcode_path_of job = Some path
                   /\ IoTPrinterClient.download_file world path = false) ->
  exists c',
    process_job float str world c job clock
    = Done c' [Finish (IoTPrinterClient.job_id_of job) false None
                      (Some "Failed to download GCode"%string)]
    /\ status c' = STATUS_IDLE
    /\ current_job c' = None
    /\ printer c' = printer c
    /\ Statistics.failed_jobs (stats c')
       = (Statistics.failed_jobs (stats c) + 1)%N
    /\ Statistics.successful_jobs (stats c') = Statistics.successful_jobs (stats c)
    /\ Statistics.total_jobs (stats c') = (Statistics.total_jobs (stats c) + 1)%N.
Proof.
  intros Hh H.
  assert (Hd : IoTPrinterClient._download_gcode
                 world (IoTPrinterClient.gcode_path_of job) = false).
  { unfold IoTPrinterClient._download_gcode.
    destruct H as [-> | [-> | (path & -> & Hfail)]]; try reflexivity.
    rewrite Hfail. destruct (is_empty path); reflexivity. }
  rewrite (process_job_not_downloaded world c job clock material Hh Hd).
  eexists. split; [reflexivity |]. simpl. repeat split.
Qed.

Lemma parse_lines_no_motion (lines : list string) (self : GCodeParser.t) :
  Forall not_motion lines ->
  GCodeParser.parse_lines float self lines = (self, None).
Proof.
  intros H. revert self.
  induction H as [| line rest Hline _ IH]; intros self; [reflexivity |].
  cbn [GCodeParser.parse_lines].
  rewrite (_parse_line_other float self line Hline).
  destruct (negb _ && negb _); apply IH.
Qed.

(** X30. A job whose G-code holds no motion command is never finished:
    when the header of the job can be printed, the download succeeds and
    the material descriptor gives a diameter and a density, the parse
    succeeds with an estimate of 0 minutes, 0 grams and 0 layers, the
    start is sent with 0 minutes, and when the server accepts it the
    monitoring loop is then never left, whatever the clock and however
    many rounds it makes: [process_job] does not return, and the calls
    made are the start and pings. *)
Theorem job_without_motion_never_ends (world : IoTPrinterClient.World) (c : t)
    (job : IoTPrinterClient.Job) (lines : list string)
    (material : IoTPrinterClient.Material) (d rho : R) :
  IoTPrinterClient.cache_file world = Some lines ->
  Forall not_motion lines ->
  IoTPrinterClient.print_job_header job = Returned material ->
  IoTPrinterClient.diameter_of material = Some d ->
  IoTPrinterClient.density_of material = Some rho ->
  IoTPrinterClient._download_gcode world (IoTPrinterClient.gcode_path_of job)
  = true ->
  IoTPrinterClient.start_job world (IoTPrinterClient.job_id_of job) 0 = true ->
  (exists estimate,
     IoTPrinterClient._parse_and_estimate float world job material
     = Returned estimate
     /\ IoTPrinterClient.time_minutes estimate = 0
     /\ IoTPrinterClient.material_grams estimate = 0
     /\ IoTPrinterClient.layers estimate = 0%N)
  /\ forall clock,
       exists c' pings,
         process_job float str world c job clock
         = Monitoring c' (Start (IoTPrinterClient.job_id_of job) 0 :: pings)
         /\ Forall (fun call => is_ping_call call = true) pings
         /\ status c' = STATUS_PRINTING
         /\ current_job c' = Some job.
Proof.
  intros Hfile Hlines Hh Hdiam Hdens Hd Hs.
  destruct (IoTPrinterClient._parse_and_estimate float world job material)
    as [estimate | e] eqn:He.
  2: { exfalso. revert He.
       unfold IoTPrinterClient._parse_and_estimate. simpl.
       rewrite Hfile. unfold GCodeParser.parse_file.
       rewrite (parse_lines_no_motion lines _ Hlines). simpl.
       rewrite Hdiam, Hdens. discriminate. }
  assert (Hest : IoTPrinterClient.time_minutes estimate = 0
                 /\ IoTPrinterClient.material_grams estimate = 0
                 /\ IoTPrinterClient.layers estimate = 0%N).
  { revert He.
    unfold IoTPrinterClient._parse_and_estimate. simpl.
    rewrite Hfile. unfold GCodeParser.parse_file.
    rewrite (parse_lines_no_motion lines _ Hlines). simpl.
    rewrite Hdiam, Hdens. simpl. intros H. injection H as <-. simpl.
    split; [lra |]. split; [| reflexivity].
    unfold GCodeParser.calculate_material_weight. lra. }
  destruct Hest as (Hmin & Hgrams & Hlayers).
  split; [exists estimate; repeat split; assumption |].
  intros clock.
  assert (Hs' : IoTPrinterClient.start_job world (IoTPrinterClient.job_id_of job)
                  (IoTPrinterClient.time_minutes estimate) = true)
    by (rewrite Hmin; exact Hs).
  rewrite (process_job_started world c job clock material estimate Hh Hd He Hs').
  pose proof (monitor_started (set_current_job c (Some job))
                (IoTPrinterClient.job_id_of job) estimate
                (at_stats_start clock) (at_print_start clock) (ticks clock)) as Hm.
  assert (Hjob : forall rounds c0,
             current_job (fst (fst (_monitor_printing c0 rounds)))
             = current_job c0).
  { induction rounds as [| tick rest IH]; intros c0; simpl.
    - destruct (negb _); reflexivity.
    - destruct (negb _); [reflexivity |].
      destruct (PrinterController.get_status _ _) as [[st p1] | e];
        [| reflexivity].
      destruct (send_ping (set_printer c0 p1) (at_ping tick)) as [c01 pings] eqn:Hsp.
      assert (Hcj : current_job c01 = current_job c0).
      { unfold send_ping in Hsp. destruct (Rgeb _ _); injection Hsp as <- _;
          reflexivity. }
      simpl.
      destruct (PrinterController.is_complete _ _) as [[done p2] | e];
        [| exact Hcj].
      destruct done; [exact Hcj |].
      specialize (IH (set_printer c01 p2)).
      destruct (_monitor_printing (set_printer c01 p2) rest) as [[c3 calls] how].
      simpl in *. congruence. }
  specialize (Hjob (ticks clock)
                (_start_printing (set_current_job c (Some job))
                   (IoTPrinterClient.job_id_of job) estimate
                   (at_stats_start clock) (at_print_start clock))).
  cbv zeta in Hm |- *.
  destruct (_monitor_printing _ (ticks clock)) as [[c2 pings] how].
  destruct Hm as (_ & Hpings & _ & Hzero & _ & Hst & _).
  rewrite Hzero by lra. rewrite Hmin.
  exists c2, pings. split; [reflexivity |]. split; [exact Hpings |].
  split; [exact Hst | exact Hjob].
Qed.

(** With a parse failure the job is still started, with minutes that are
    not zero. *)
Lemma parse_failure_starts_job (world : IoTPrinterClient.World) (c : t)
    (job : IoTPrinterClient.Job) (clock : Clock)
    (material : IoTPrinterClient.Material) :
  snd (GCodeParser.parse_file float (IoTPrinterClient.cache_file world)) = None ->
  IoTPrinterClient.print_job_header job = Returned material ->
  IoTPrinterClient._download_gcode world (IoTPrinterClient.gcode_path_of job)
  = true ->
  let minutes :=
    or_else (IoTPrinterClient.get (IoTPrinterClient.estimatedPrintTimeMinutes job))
            30 in
  minutes <> 0
  /\ exists c' calls,
       (process_job float str world c job clock
        = Done c' (Start (IoTPrinterClient.job_id_of job) minutes :: calls)
        \/ process_job float str world c job clock
           = Monitoring c' (Start (IoTPrinterClient.job_id_of job) minutes
                              :: calls)).
Proof.
  intros Hfail Hh Hd minutes.
  split; [apply or_else_nonzero; lra |].
  pose proof (_parse_and_estimate_fallback float world job material Hfail) as He.
  destruct (IoTPrinterClient.start_job world (IoTPrinterClient.job_id_of job)
              minutes) eqn:Hs.
  - rewrite (process_job_started world c job clock material _ Hh Hd He Hs).
    cbv zeta.
    destruct (_monitor_printing _ (ticks clock)) as [[c2 pings] [[|] | e |]];
      eexists; eexists; (left; reflexivity) || (right; reflexivity).
  - rewrite (process_job_not_started world c job clock material _ Hh Hd He Hs).
    eexists. eexists. left. reflexivity.
Qed.

End Process.

Lemma print_job_header_returns (job : IoTPrinterClient.Job)
    (material : IoTPrinterClient.Material) (grams : R) :
  IoTPrinterClient.material_of job = Some material ->
  IoTPrinterClient.server_estimate_grams job = Some grams ->
  IoTPrinterClient.print_job_header job = Returned material.
Proof.
  intros Hm Hg. unfold IoTPrinterClient.print_job_header.
  rewrite Hm, Hg. reflexivity.
Qed.

Lemma num_or_first (v : R) (y : option R) :
  v <> 0 -> IoTPrinterClient.num_or (Some v) y = Some v.
Proof.
  intros H. unfold IoTPrinterClient.num_or.
  rewrite truthy_nonzero by assumption. reflexivity.
Qed.

Lemma declared_job_header :
  IoTPrinterClient.print_job_header declared_job
  = Returned IoTPrinterClient.empty_material.
Proof.
  apply print_job_header_returns with (grams := 12); [reflexivity |].
  apply num_or_first. lra.
Qed.

Lemma null_material_job_header :
  IoTPrinterClient.print_job_header null_material_job = Raised AttributeError.
Proof. reflexivity. Qed.

Lemma null_diameter_job_header :
  IoTPrinterClient.print_job_header null_diameter_job
  = Returned null_diameter_material.
Proof.
  apply print_job_header_returns with (grams := 12); [reflexivity |].
  apply num_or_first. lra.
Qed.

Lemma declared_job_estimate :
  IoTPrinterClient._parse_and_estimate py_float failing_parse_world declared_job
    IoTPrinterClient.empty_material
  = Returned {| IoTPrinterClient.time_minutes := 45;
                IoTPrinterClient.material_grams := 12;
                IoTPrinterClient.layers := 100%N |}.
Proof.
  rewrite (_parse_and_estimate_fallback py_float failing_parse_world declared_job
             _ zero_feed_file_fails).
  simpl. rewrite !truthy_nonzero by lra. reflexivity.
Qed.

Lemma processed_job_is_reported_once_witness :
  current_job (init 0) = None
  /\ process_job py_float exn_text scenario_A_world (init 0) null_material_job
                 late_clock
     = Done (init 0) []
  /\ exists c',
       process_job py_float exn_text scenario_A_world (init 0) null_diameter_job
                   late_clock
       = Done c' [Finish (Some 7%Z) false None
                         (Some "unsupported operand type(s)"%string)]
       /\ Statistics.failed_jobs (stats c') = 1%N.
Proof.
  split; [reflexivity |].
  split.
  - exact (process_job_unreadable py_float exn_text scenario_A_world (init 0)
             null_material_job late_clock _ null_material_job_header eq_refl).
  - assert (He : IoTPrinterClient._parse_and_estimate
                   py_float scenario_A_world null_diameter_job
                   null_diameter_material = Raised TypeError).
    { rewrite (_parse_and_estimate_parsed py_float scenario_A_world _ _ _
                 scenario_A_parsed).
      reflexivity. }
    pose proof (process_job_estimate_raised py_float exn_text scenario_A_world
                  (init 0) null_diameter_job late_clock _ _
                  null_diameter_job_header eq_refl He) as Hrun.
    cbn [id_is_truthy IoTPrinterClient.job_id_of IoTPrinterClient.id_or
         IoTPrinterClient.get IoTPrinterClient.id_ IoTPrinterClient.Id
         null_diameter_job Z.eqb negb] in Hrun.
    destruct (processed_job_is_reported_once py_float exn_text scenario_A_world
                (init 0) _ null_diameter_job late_clock _ eq_refl Hrun)
      as (_ & _ & _ & _ & Hfailed & _).
    destruct (Hfailed _ _ null_diameter_job_header eq_refl He eq_refl)
      as [_ Hcount].
    eexists. split; [exact Hrun | exact Hcount].
Defined.

Lemma job_without_gcode_fails_witness :
  exists c',
    process_job py_float exn_text no_download_world (init 0) declared_job late_clock
    = Done c' [Finish (Some 7%Z) false None
                      (Some "Failed to download GCode"%string)]
    /\ Statistics.failed_jobs (stats c') = 1%N.
Proof.
  destruct (job_without_gcode_fails py_float exn_text no_download_world (init 0)
              declared_job late_clock _ declared_job_header)
    as (c' & H & _ & _ & _ & Hfailed & _).
  - right. right. exists "jobs/7.gcode"%string. split; reflexivity.
  - exists c'. split; [exact H | exact Hfailed].
Defined.

Lemma job_without_motion_never_ends_witness :
  exists c' pings,
    process_job py_float exn_text no_motion_world (init 0) declared_job late_clock
    = Monitoring c' (Start (Some 7%Z) 0 :: pings).
Proof.
  destruct (job_without_motion_never_ends py_float exn_text no_motion_world
              (init 0) declared_job [ "; sliced"; "M104 S210" ]%string
              IoTPrinterClient.empty_material 1.75 1.24 eq_refl)
    as [_ H].
  - repeat constructor.
  - exact declared_job_header.
  - reflexivity.
  - reflexivity.
  - reflexivity.
  - reflexivity.
  - destruct (H late_clock) as (c' & pings & Hrun & _).
    exists c', pings. exact Hrun.
Defined.

Lemma job_printed_to_the_end_witness :
  exists c' pings,
    process_job py_float exn_text failing_parse_world (init 0) declared_job
                late_clock
    = Done c' (Start (Some 7%Z) 45
                 :: pings ++ [Finish (Some 7%Z) true (Some 12) None])
    /\ status c' = STATUS_IDLE.
Proof.
  destruct (job_printed_to_the_end py_float exn_text failing_parse_world (init 0)
              declared_job late_clock _ _
              declared_job_header eq_refl declared_job_estimate)
    as (c' & pings & H & _ & Hst & _).
  - reflexivity.
  - simpl. lra.
  - constructor. simpl. lra.
  - exists c', pings. split; [exact H | exact Hst].
Defined.

End Printing.

(* ===================================================================== *)
(** * The fallback estimate and the spelling of the keys *)
(* ===================================================================== *)

Section FallbackEstimate.

Import IoTPrinterClient Scenario Usage.

Lemma capitalised_grams_job_header :
  print_job_header capitalised_grams_job = Returned empty_material.
Proof. reflexivity. Qed.

Lemma capitalised_grams_job_estimate :
  _parse_and_estimate py_float failing_parse_world capitalised_grams_job
                      empty_material
  = Returned {| time_minutes := 45; material_grams := 10; layers := 100%N |}.
Proof.
  rewrite (_parse_and_estimate_fallback py_float failing_parse_world
             capitalised_grams_job _ zero_feed_file_fails).
  simpl. rewrite truthy_nonzero by lra. reflexivity.
Qed.

(** C6 at its failing input: job 7, for which the server declares 45
    minutes and, under the key [EstimatedMaterialInGrams], 12 grams, with
    G-code that makes the parse fail.  [process_job] and
    [_validate_material] read 12 grams as the server estimate, but the
    fallback of [_parse_and_estimate] reads the key
    [estimatedMaterialInGrams] only: the estimate is 45 minutes and the
    default 10 grams, where the same job with the grams under
    [estimatedMaterialInGrams] gets 12 grams.  The job is started with
    45 minutes and reported to the server as having used 10 grams. *)
Theorem parse_failure_ignores_capitalised_grams :
  snd (GCodeParser.parse_file py_float (cache_file failing_parse_world)) = None
  /\ EstimatedMaterialInGrams capitalised_grams_job = Value 12
  /\ server_estimate_grams capitalised_grams_job = Some 12
  /\ print_job_header capitalised_grams_job = Returned empty_material
  /\ _parse_and_estimate py_float failing_parse_world capitalised_grams_job
                         empty_material
     = Returned {| time_minutes := 45; material_grams := 10; layers := 100%N |}
  /\ _parse_and_estimate py_float failing_parse_world declared_job
                         empty_material
     = Returned {| time_minutes := 45; material_grams := 12; layers := 100%N |}
  /\ exists c' pings,
       Client.process_job py_float exn_text failing_parse_world (Client.init 0)
                          capitalised_grams_job late_clock
       = Client.Done c'
           (Client.Start (Some 7%Z) 45
              :: pings ++ [Client.Finish (Some 7%Z) true (Some 10) None])
       /\ Statistics.total_material_grams (Client.stats c') = 0 + 10.
Proof.
  split; [exact zero_feed_file_fails |].
  split; [reflexivity |].
  split; [reflexivity |].
  split; [exact capitalised_grams_job_header |].
  split; [exact capitalised_grams_job_estimate |].
  split; [exact declared_job_estimate |].
  destruct (process_job_printed py_float exn_text failing_parse_world
              (Client.init 0) capitalised_grams_job late_clock _ _
              capitalised_grams_job_header eq_refl
              capitalised_grams_job_estimate)
    as (c' & pings & H & _ & _ & _ & _ & _ & Hgrams & _).
  - reflexivity.
  - simpl. lra.
  - constructor. unfold late. simpl. lra.
  - exists c', pings. split; [exact H | exact Hgrams].
Qed.

End FallbackEstimate.

